(** * Bootcamps controller (src/api/controllers/bootcamps.js)

    A shallow embedding of the Express handlers of the bootcamps resource and
    of the platform functions they call, followed by the properties of the
    handlers.

    Conventions.
    - A JavaScript string is a [string]: an ASCII character is itself, any
      other character is the run of bytes of its UTF-8 encoding.  Every
      function below treats a unit above 127 as an opaque non-word character,
      as the originals do with the corresponding UTF-16 units.
    - An object is the list of its own properties in enumeration order; the
      keys of one object are pairwise distinct ([distinct_keys]).
    - The integers of the pagination arithmetic are kept in [Z]; JavaScript
      holds the same values exactly up to 2^53, and rounds beyond: a
      statement that gives such a number carries [Num.isSafeInteger].  The
      other numbers are binary64 floats ([PrimFloat]). *)

From Stdlib Require Import String Ascii List ZArith Bool Lia PeanoNat.
From Stdlib Require Import PrimFloat.
From Stdlib Require FloatAxioms.
Import ListNotations.

Open Scope list_scope.
Open Scope string_scope.

(* ================================================================== *)
(** ** Characters and strings *)

Module Js.

(** The quotation mark, U+0022. *)
Definition dquote : ascii := "034"%char.
(** The reverse solidus, U+005C. *)
Definition backslash : ascii := "092"%char.

Definition code (c : ascii) : N := N_of_ascii c.

Definition in_range (lo hi : N) (c : ascii) : bool :=
  (lo <=? code c)%N && (code c <=? hi)%N.

Definition is_digit (c : ascii) : bool := in_range 48 57 c.

(** The regular-expression class [\w], that is [[A-Za-z0-9_]]. *)
Definition is_word (c : ascii) : bool :=
  is_digit c || in_range 65 90 c || in_range 97 122 c || (code c =? 95)%N.

(** Characters below U+0020, which JSON never leaves bare in a string. *)
Definition is_control (c : ascii) : bool := (code c <? 32)%N.

Definition head (s : string) : option ascii :=
  match s with
  | EmptyString => None
  | String c _ => Some c
  end.

(** [strip_prefix p s] is [Some r] when [s = p ++ r]. *)
Fixpoint strip_prefix (p s : string) : option string :=
  match p with
  | EmptyString => Some s
  | String a p' =>
      match s with
      | EmptyString => None
      | String b s' => if Ascii.eqb a b then strip_prefix p' s' else None
      end
  end.

(** [String.prototype.startsWith]. *)
Definition startsWith (s p : string) : bool :=
  match strip_prefix p s with
  | Some _ => true
  | None => false
  end.

(** [s.split(sep)] for a one-character separator: the pieces between the
    occurrences of [sep], in order; the empty string gives one empty piece. *)
Fixpoint split (sep : ascii) (s : string) : list string :=
  match s with
  | EmptyString => [EmptyString]
  | String c s' =>
      if Ascii.eqb c sep then EmptyString :: split sep s'
      else
        match split sep s' with
        | [] => [String c EmptyString]
        | piece :: pieces => String c piece :: pieces
        end
  end.

(** [pieces.join(sep)]. *)
Definition join (sep : string) (pieces : list string) : string :=
  String.concat sep pieces.

(** [s.replace(/,/g, ' ')]. *)
Fixpoint replace_commas (s : string) : string :=
  match s with
  | EmptyString => EmptyString
  | String c s' =>
      String (if Ascii.eqb c "," then " "%char else c) (replace_commas s')
  end.

(** [s] without the occurrences of [c]. *)
Fixpoint without (c : ascii) (s : string) : string :=
  match s with
  | EmptyString => EmptyString
  | String d s' => if Ascii.eqb d c then without c s' else String d (without c s')
  end.

Fixpoint all_chars (p : ascii -> bool) (s : string) : bool :=
  match s with
  | EmptyString => true
  | String c s' => p c && all_chars p s'
  end.

End Js.

(* ================================================================== *)
(** ** The operator regular expression of [getBootcamps]

    [queryStr.replace(/\b(gt|gte|lt|lte|in)\b/g, (match) => `$${match}`)],
    lines 26-29. *)

Module Regex.
Import Js.

Definition opt_word (o : option ascii) : bool :=
  match o with
  | Some c => is_word c
  | None => false
  end.

(** The assertion [\b] between two neighbouring characters; the outside of
    the string counts as a non-word character. *)
Definition word_boundary (prev next : option ascii) : bool :=
  xorb (opt_word prev) (opt_word next).

(** The alternation [(gt|gte|lt|lte|in)], in the order it is tried. *)
Definition alternatives : list string := ["gt"; "gte"; "lt"; "lte"; "in"].

Fixpoint last_char (s : string) (before : option ascii) : option ascii :=
  match s with
  | EmptyString => before
  | String c s' => last_char s' (Some c)
  end.

(** [\b alt \b] matches at the start of [s], the character before [s]
    being [prev]. *)
Definition alt_matches (prev : option ascii) (s alt : string) : bool :=
  word_boundary prev (head s) &&
  match strip_prefix alt s with
  | Some rest => word_boundary (last_char alt prev) (head rest)
  | None => false
  end.

(** The match of the whole expression at the start of [s]: the first
    alternative after which the closing [\b] holds. *)
Definition exec_at (prev : option ascii) (s : string) : option string :=
  find (alt_matches prev s) alternatives.

(** The global replace.  [prev] is the character before [s]; [skip] counts
    the characters of the current match still to be copied, the search for
    the next match resuming after them.  The callback puts ["$"] in front of
    the matched text. *)
Fixpoint replace_from (prev : option ascii) (skip : nat) (s : string) : string :=
  match s with
  | EmptyString => EmptyString
  | String c s' =>
      match skip with
      | S k => String c (replace_from (Some c) k s')
      | O =>
          match exec_at prev s with
          | Some m => String "$" (String c (replace_from (Some c) (String.length m - 1) s'))
          | None => String c (replace_from (Some c) 0 s')
          end
      end
  end.

Definition add_operators (queryStr : string) : string :=
  replace_from None 0 queryStr.

End Regex.

(* ================================================================== *)
(** ** JSON values, [JSON.stringify] and [JSON.parse] *)

Module Json.
Import Js.

#[local] Unset Elimination Schemes.
(** The values the query-string parser of Express builds and that travel
    through [JSON.stringify] and [JSON.parse] in [getBootcamps]: strings,
    arrays and objects (an object is the list of its properties in
    enumeration order). *)
Inductive json : Type :=
| JStr (s : string)
| JArr (items : list json)
| JObj (members : list (string * json)).
#[local] Set Elimination Schemes.

(** *** Serialisation *)

(** The lower-case hexadecimal digit of [n < 16]. *)
Definition hex_digit (n : N) : ascii :=
  if (n <? 10)%N then ascii_of_N (48 + n) else ascii_of_N (87 + n).

(** One character of a string as [QuoteJSONString] writes it. *)
Definition escape_char (c : ascii) : string :=
  if Ascii.eqb c dquote then String backslash (String dquote EmptyString)
  else if Ascii.eqb c backslash then String backslash (String backslash EmptyString)
  else if (code c =? 8)%N then String backslash "b"
  else if (code c =? 12)%N then String backslash "f"
  else if (code c =? 10)%N then String backslash "n"
  else if (code c =? 13)%N then String backslash "r"
  else if (code c =? 9)%N then String backslash "t"
  else if is_control c then
    String backslash
      (String "u" (String "0" (String "0"
        (String (hex_digit (code c / 16)) (String (hex_digit (code c mod 16)) EmptyString)))))
  else String c EmptyString.

Fixpoint escape (s : string) : string :=
  match s with
  | EmptyString => EmptyString
  | String c s' => escape_char c ++ escape s'
  end.

Definition quote (s : string) : string :=
  String dquote (escape s ++ String dquote EmptyString).

(** [JSON.stringify(v)] with no indentation. *)
Fixpoint stringify (v : json) : string :=
  match v with
  | JStr s => quote s
  | JArr items => "[" ++ join "," (map stringify items) ++ "]"
  | JObj members =>
      "{" ++ join "," (map (fun kv => quote (fst kv) ++ ":" ++ stringify (snd kv)) members) ++ "}"
  end.

(** *** Parsing *)

Definition hex_value (c : ascii) : option N :=
  if is_digit c then Some (code c - 48)%N
  else if in_range 97 102 c then Some (code c - 87)%N
  else if in_range 65 70 c then Some (code c - 55)%N
  else None.

(** The character a [\uXXXX] escape denotes.  Escapes above U+007F, which
    [stringify] never writes, are outside the fragment. *)
Definition unicode_escape (h1 h2 h3 h4 : ascii) : option ascii :=
  match hex_value h1, hex_value h2, hex_value h3, hex_value h4 with
  | Some a, Some b, Some c, Some d =>
      let n := (((a * 16 + b) * 16 + c) * 16 + d)%N in
      if (n <? 128)%N then Some (ascii_of_N n) else None
  | _, _, _, _ => None
  end.

(** The character a two-character escape denotes. *)
Definition simple_escape (e : ascii) : option ascii :=
  if Ascii.eqb e dquote then Some dquote
  else if Ascii.eqb e backslash then Some backslash
  else if Ascii.eqb e "/" then Some "/"%char
  else if Ascii.eqb e "b" then Some (ascii_of_N 8)
  else if Ascii.eqb e "f" then Some (ascii_of_N 12)
  else if Ascii.eqb e "n" then Some (ascii_of_N 10)
  else if Ascii.eqb e "r" then Some (ascii_of_N 13)
  else if Ascii.eqb e "t" then Some (ascii_of_N 9)
  else None.

Definition cons_char (c : ascii) (r : option (string * string)) : option (string * string) :=
  match r with
  | Some (s, rest) => Some (String c s, rest)
  | None => None
  end.

(** The characters of a string literal after its opening quote, up to the
    closing quote: the string denoted and the text after the literal. *)
Fixpoint parse_chars (s : string) : option (string * string) :=
  match s with
  | EmptyString => None
  | String c r =>
      if Ascii.eqb c dquote then Some (EmptyString, r)
      else if Ascii.eqb c backslash then
        match r with
        | EmptyString => None
        | String e r1 =>
            if Ascii.eqb e "u" then
              match r1 with
              | String h1 (String h2 (String h3 (String h4 r2))) =>
                  match unicode_escape h1 h2 h3 h4 with
                  | Some ch => cons_char ch (parse_chars r2)
                  | None => None
                  end
              | _ => None
              end
            else
              match simple_escape e with
              | Some ch => cons_char ch (parse_chars r1)
              | None => None
              end
        end
      else if is_control c then None
      else cons_char c (parse_chars r)
  end.

(** Defining the property [k] on an object under construction: an existing
    property keeps its place and takes the new value, a new one goes last.
    (An engine enumerates integer-like keys first; in the text [stringify]
    writes for an object they already come first.) *)
Fixpoint obj_set (k : string) (v : json) (o : list (string * json)) : list (string * json) :=
  match o with
  | [] => [(k, v)]
  | (k', v') :: o' =>
      if String.eqb k' k then (k', v) :: o' else (k', v') :: obj_set k v o'
  end.

Definition build_object (members : list (string * json)) : list (string * json) :=
  fold_left (fun o kv => obj_set (fst kv) (snd kv) o) members [].

Definition tail (s : string) : string :=
  match s with
  | EmptyString => EmptyString
  | String _ r => r
  end.

Definition next_is (c : ascii) (s : string) : bool :=
  match s with
  | EmptyString => false
  | String d _ => Ascii.eqb d c
  end.

(** A value at the start of [s], and the text after it.  [fuel] bounds the
    number of nested calls. *)
Fixpoint parse_value (fuel : nat) (s : string) : option (json * string) :=
  match fuel with
  | O => None
  | S fuel' =>
      if next_is dquote s then
        match parse_chars (tail s) with
        | Some (str, rest) => Some (JStr str, rest)
        | None => None
        end
      else if next_is "[" s then
        if next_is "]" (tail s) then Some (JArr [], tail (tail s))
        else
          match parse_elements fuel' (tail s) with
          | Some (items, rest) => Some (JArr items, rest)
          | None => None
          end
      else if next_is "{" s then
        if next_is "}" (tail s) then Some (JObj [], tail (tail s))
        else
          match parse_members fuel' (tail s) with
          | Some (members, rest) => Some (JObj (build_object members), rest)
          | None => None
          end
      else None
  end
with parse_elements (fuel : nat) (s : string) : option (list json * string) :=
  match fuel with
  | O => None
  | S fuel' =>
      match parse_value fuel' s with
      | Some (v, rest) =>
          if next_is "," rest then
            match parse_elements fuel' (tail rest) with
            | Some (vs, rest') => Some (v :: vs, rest')
            | None => None
            end
          else if next_is "]" rest then Some ([v], tail rest)
          else None
      | None => None
      end
  end
with parse_members (fuel : nat) (s : string) : option (list (string * json) * string) :=
  match fuel with
  | O => None
  | S fuel' =>
      if next_is dquote s then
        match parse_chars (tail s) with
        | Some (k, rest) =>
            if next_is ":" rest then
              match parse_value fuel' (tail rest) with
              | Some (v, rest') =>
                  if next_is "," rest' then
                    match parse_members fuel' (tail rest') with
                    | Some (ms, rest'') => Some ((k, v) :: ms, rest'')
                    | None => None
                    end
                  else if next_is "}" rest' then Some ([(k, v)], tail rest')
                  else None
              | None => None
              end
            else None
        | None => None
        end
      else None
  end.

(** [JSON.parse(text)] on the compact texts [stringify] writes (string, array
    and object values, no white space between tokens).  [None] stands for a
    [SyntaxError] or for a text outside this fragment. *)
Definition parse (text : string) : option json :=
  match parse_value (S (String.length text)) text with
  | Some (v, EmptyString) => Some v
  | _ => None
  end.

(** *** Traversals *)

(** [f] applied to every key and to every string of a value. *)
Fixpoint map_strings (f : string -> string) (v : json) : json :=
  match v with
  | JStr s => JStr (f s)
  | JArr items => JArr (map (map_strings f) items)
  | JObj members => JObj (map (fun kv => (f (fst kv), map_strings f (snd kv))) members)
  end.

Fixpoint no_dup (l : list string) : bool :=
  match l with
  | [] => true
  | k :: l' => negb (existsb (String.eqb k) l') && no_dup l'
  end.

(** The keys of every object inside [v] are pairwise distinct. *)
Fixpoint distinct_keys (v : json) : bool :=
  match v with
  | JStr _ => true
  | JArr items => forallb distinct_keys items
  | JObj members =>
      no_dup (map fst members) && forallb (fun kv => distinct_keys (snd kv)) members
  end.

(** The number of nodes of a value, a bound on the fuel its text needs. *)
Fixpoint size (v : json) : nat :=
  match v with
  | JStr _ => 1
  | JArr items => S (list_sum (map (fun x => S (size x)) items))
  | JObj members => S (list_sum (map (fun kv => S (size (snd kv))) members))
  end.

(** [parse_value] reads the text of [v] back, whatever follows it. *)
Definition reads_back (v : json) : Prop :=
  forall fuel rest, size v <= fuel ->
  parse_value fuel (stringify v ++ rest) = Some (v, rest).

(** All the values of a list of results, when none of them failed. *)
Fixpoint sequence {A : Type} (l : list (option A)) : option (list A) :=
  match l with
  | [] => Some []
  | None :: _ => None
  | Some a :: r => option_map (cons a) (sequence r)
  end.

(** [String(v)], as [parseInt] applies it to its argument; [None] when the
    conversion throws a [TypeError].  An array is the join of its elements.
    An object of the query has the prototype of all objects and only
    strings, arrays and objects as values: with no key [toString] of its own
    it is written [[object Object]]; a [toString] of its own is not a
    function, and [valueOf] gives no primitive, so the conversion throws. *)
Fixpoint to_string (v : json) : option string :=
  match v with
  | JStr s => Some s
  | JArr items => option_map (join ",") (sequence (map to_string items))
  | JObj members =>
      if existsb (fun kv => String.eqb (fst kv) "toString") members then None
      else Some "[object Object]"
  end.

End Json.

(* ================================================================== *)
(** ** What the regular expression does to the strings of a value

    A description of lines 23-32 on the parsed value instead of its text,
    proved below to agree with [Json.parse], [Regex.add_operators] and
    [Json.stringify]. *)

Module Operators.
Import Js Regex.

(** The JSON text of [c] ends in a word character: [c] itself, or the last
    letter or digit of the escape of a control character. *)
Definition ends_in_word (c : ascii) : bool := is_word c || is_control c.

(** [alt] stands at the start of [s] and no word character follows it. *)
Definition occurs_at (s alt : string) : bool :=
  match strip_prefix alt s with
  | Some rest => negb (opt_word (head rest))
  | None => false
  end.

(** ["$"] goes in front of each of [gt], [gte], [lt], [lte], [in] that
    neither follows a word or control character nor precedes a word
    character.  [after_word] tells whether the character before [s] is such
    a one, [skip] counts the characters of the current word left to copy. *)
Fixpoint rewrite_from (after_word : bool) (skip : nat) (s : string) : string :=
  match s with
  | EmptyString => EmptyString
  | String c s' =>
      match skip with
      | S k => String c (rewrite_from (ends_in_word c) k s')
      | O =>
          match (if after_word then None else find (occurs_at s) alternatives) with
          | Some m =>
              String "$" (String c (rewrite_from (ends_in_word c) (String.length m - 1) s'))
          | None => String c (rewrite_from (ends_in_word c) 0 s')
          end
      end
  end.

Definition rewrite_str (s : string) : string := rewrite_from false 0 s.

Definition rewrite_value (v : Json.json) : Json.json := Json.map_strings rewrite_str v.

(** The reading of the specification: a key that is one of the bare keywords
    takes the ["$"], and nothing else changes. *)
Definition prefix_keyword (k : string) : string :=
  if existsb (String.eqb k) alternatives then String "$" k else k.

Fixpoint prefix_keyword_keys (v : Json.json) : Json.json :=
  match v with
  | Json.JStr s => Json.JStr s
  | Json.JArr items => Json.JArr (map prefix_keyword_keys items)
  | Json.JObj members =>
      Json.JObj (map (fun kv => (prefix_keyword (fst kv), prefix_keyword_keys (snd kv))) members)
  end.

(** [alt] is a substring of [s]. *)
Fixpoint contains (alt s : string) : bool :=
  match strip_prefix alt s with
  | Some _ => true
  | None =>
      match s with
      | EmptyString => false
      | String _ s' => contains alt s'
      end
  end.

(** The ["$"] signs that stand in front of one of the keywords are taken
    out again: a left inverse of [rewrite_from]. *)
Fixpoint erase (skip : nat) (s : string) : string :=
  match s with
  | EmptyString => EmptyString
  | String c s' =>
      match skip with
      | S k => String c (erase k s')
      | O =>
          if Ascii.eqb c "$" then
            match find (occurs_at s') alternatives with
            | Some m => erase (String.length m) s'
            | None => String c (erase 0 s')
            end
          else String c (erase 0 s')
      end
  end.

(** The first [k] characters of [s] are word characters. *)
Fixpoint word_prefix (k : nat) (s : string) : bool :=
  match k with
  | O => true
  | S k' =>
      match s with
      | EmptyString => false
      | String c s' => is_word c && word_prefix k' s'
      end
  end.

Fixpoint all_word (s : string) : bool :=
  match s with
  | EmptyString => true
  | String c s' => is_word c && all_word s'
  end.

End Operators.

(* ================================================================== *)
(** ** Numbers read from the request *)

Module Num.
Import Js.

(** Leading white space as [parseInt] skips it ([StrWhiteSpaceChar]): the
    ASCII blanks and line ends, and the UTF-8 encodings of U+00A0, U+1680,
    U+2000..U+200A, U+2028, U+2029, U+202F, U+205F, U+3000 and U+FEFF. *)
Fixpoint skip_white (s : string) : string :=
  match s with
  | EmptyString => s
  | String c r =>
      if in_range 9 13 c || (code c =? 32)%N then skip_white r
      else
        match r with
        | EmptyString => s
        | String d r1 =>
            if (code c =? 194)%N && (code d =? 160)%N then skip_white r1
            else
              match r1 with
              | EmptyString => s
              | String e r2 =>
                  if ((code c =? 225)%N && (code d =? 154)%N && (code e =? 128)%N)
                     || ((code c =? 226)%N && (code d =? 128)%N
                         && (in_range 128 138 e || in_range 168 169 e || (code e =? 175)%N))
                     || ((code c =? 226)%N && (code d =? 129)%N && (code e =? 159)%N)
                     || ((code c =? 227)%N && (code d =? 128)%N && (code e =? 128)%N)
                     || ((code c =? 239)%N && (code d =? 187)%N && (code e =? 191)%N)
                  then skip_white r2
                  else s
              end
        end
  end.

(** The value of the longest prefix of decimal digits, [None] when there is
    no digit. *)
Fixpoint digits (acc : option Z) (s : string) : option Z :=
  match s with
  | EmptyString => acc
  | String c r =>
      if is_digit c then
        let d := Z.of_N (code c - 48) in
        digits (Some (match acc with Some n => 10 * n + d | None => d end)%Z) r
      else acc
  end.

(** [parseInt(text, 10)]; [None] is [NaN].  The integer is kept as it is
    written; the number of the language is the binary64 nearest to it, the
    same integer when [isSafeInteger] holds. *)
Definition parseInt (text : string) : option Z :=
  match skip_white text with
  | String "-" r => option_map Z.opp (digits None r)
  | String "+" r => digits None r
  | s => digits None s
  end.

(** [Number.isSafeInteger(n)]: up to [2^53 - 1] in size, where binary64
    holds every integer and the sums, differences and products that stay
    within the bound are exact. *)
Definition isSafeInteger (n : Z) : bool := (Z.abs n <=? 9007199254740991)%Z.

(** [parseInt(x, 10) || fallback]: [NaN] and zero are falsy.  [None] when
    the conversion of [x] to a string throws a [TypeError]. *)
Definition parseInt_or (x : option Json.json) (fallback : Z) : option Z :=
  let text :=
    match x with
    | Some v => Json.to_string v
    | None => Some "undefined"
    end in
  match text with
  | None => None
  | Some text =>
      Some match parseInt text with
           | Some n => if (n =? 0)%Z then fallback else n
           | None => fallback
           end
  end.

End Num.

(* ================================================================== *)
(** ** The data store, the request and the response *)

Module Store.
Import Js Json.

(** Values of stored documents and of query conditions. *)
#[local] Unset Elimination Schemes.
Inductive value : Type :=
| VStr (s : string)
| VNum (x : float)
| VArr (items : list value)
| VObj (members : list (string * value)).
#[local] Set Elimination Schemes.

Fixpoint of_json (v : json) : value :=
  match v with
  | JStr s => VStr s
  | JArr items => VArr (map of_json items)
  | JObj members => VObj (map (fun kv => (fst kv, of_json (snd kv))) members)
  end.

Record document : Type := { _id : string; fields : list (string * value) }.

(** A Mongoose query as the chained calls leave it. *)
Record Query : Type := {
  conditions : value;
  populated : list string;
  selected : option string;
  sorted : option string;
  skipped : option Z;
  limited : option Z
}.

(** The calls a handler makes on its collaborators, in order. *)
Inductive call : Type :=
| Call_find (conditions : value)
| Call_countDocuments (conditions : option value)
| Call_exec (q : Query)
| Call_findById (id : string)
| Call_findByIdAndUpdate (id : string) (update : list (string * value))
| Call_remove (id : string)
| Call_geocode (zipcode : string)
| Call_mv (destination : string)
| Call_console_log (text : string).

Record world : Type := { store : list document; calls : list call }.

(** What a handler can throw: an error of the language, or the reason a
    collaborator rejected its promise with. *)
Inductive exn : Type :=
| TypeError (what : string)
| SyntaxError (what : string)
| Rejection (reason : string).

(** A handler step: it reads and changes the world and returns or throws. *)
Definition M (A : Type) : Type := world -> (A + exn) * world.

Definition ret {A : Type} (a : A) : M A := fun w => (inl a, w).

Definition throw {A : Type} (e : exn) : M A := fun w => (inr e, w).

Definition bind {A B : Type} (m : M A) (k : A -> M B) : M B :=
  fun w =>
    match m w with
    | (inl a, w') => k a w'
    | (inr e, w') => (inr e, w')
    end.

Definition log (c : call) : M unit :=
  fun w => (inl tt, {| store := store w; calls := (calls w ++ [c])%list |}).

Definition get_store : M (list document) := fun w => (inl (store w), w).

Definition put_store (s : list document) : M unit :=
  fun w => (inl tt, {| store := s; calls := calls w |}).

Declare Scope monad_scope.
Delimit Scope monad_scope with monad.
Notation "x <- m ;; k" := (bind m (fun x => k))
  (at level 61, m at next level, right associativity) : monad_scope.
Notation "m ;; k" := (bind m (fun _ => k))
  (at level 61, right associativity) : monad_scope.

(** Modelled from the spec: utils/ErrorResponse is not part of the sources.
    "All errors are represented as a message + status code pair" (section
    7). *)
Record ErrorResponse : Type := { message : string; statusCode : Z }.

Record page_ref : Type := { page : Z; limit : Z }.

Record pagination_t : Type := { next : option page_ref; prev : option page_ref }.

Inductive data_t : Type :=
| Data_documents (docs : list document)
| Data_empty_object
| Data_string (s : string).

(** The body given to [res.json]. *)
Record envelope : Type := {
  success : bool;
  msg : option string;
  count : option nat;
  pagination : option pagination_t;
  data : data_t
}.

(** How a handler ends: [res.status(s).json(body)] or [next(err)]. *)
Inductive reply : Type :=
| Res_json (status : Z) (body : envelope)
| Next (err : ErrorResponse).

(** What the client of a wrapped handler observes. *)
Inductive outcome : Type :=
| Responded (status : Z) (body : envelope)
| Forwarded (err : ErrorResponse)
| Rejected (e : exn).

Record location : Type := { latitude : float; longitude : float }.

Record uploaded_file : Type := { name : string; mimetype : string; size : float }.

(** [req.files[field]]: one file, or an array when the field came twice. *)
Inductive upload : Type :=
| One_file (f : uploaded_file)
| Many_files (fs : list uploaded_file).

Record params_t : Type := { id : string; zipcode : string; distance : string }.

Record request : Type := {
  query : list (string * json);
  params : params_t;
  files : option (list (string * upload))
}.

(** [o[k]] on an object. *)
Fixpoint get {A : Type} (k : string) (o : list (string * A)) : option A :=
  match o with
  | [] => None
  | (k', v) :: o' => if String.eqb k' k then Some v else get k o'
  end.

(** [delete o[k]]. *)
Definition obj_delete {A : Type} (k : string) (o : list (string * A)) : list (string * A) :=
  filter (fun kv => negb (String.eqb (fst kv) k)) o.

(** [o[k] = v] on a stored document's fields. *)
Fixpoint set_field (k : string) (v : value) (o : list (string * value)) : list (string * value) :=
  match o with
  | [] => [(k, v)]
  | (k', v') :: o' =>
      if String.eqb k' k then (k', v) :: o' else (k', v') :: set_field k v o'
  end.

End Store.

(* ================================================================== *)
(** ** The handlers *)

Module Controller.
Import Js Json Store.

(** A query parameter on which [.replace] can be called when it is truthy:
    it is absent or a string. *)
Definition is_text (v : option json) : bool :=
  match v with
  | Some (JArr _) | Some (JObj _) => false
  | _ => true
  end.

Section Handlers.

Local Open Scope monad_scope.

(** *** The collaborators outside the controller *)

(** Running a query on the collection (Mongoose and the database): the
    documents found, or the rejection. *)
Variable exec : Query -> list document -> list document + exn.
(** [Bootcamp.findById(id)] on the collection: the entity, null, or the
    rejection. *)
Variable findById : string -> list document -> option document + exn.
(** [utils/geocoder]: [geocode(zipcode)] gives a list of locations, or
    rejects. *)
Variable geocode : string -> list location + exn.
(** The error [file.mv] hands to its callback for a destination, if any. *)
Variable mv_error : string -> option string.
(** [new Date().toLocaleDateString('lv-LV')] at the time of the request. *)
Variable toLocaleDateString : string.
(** [path.parse(p).ext]. *)
Variable path_ext : string -> string.
(** The conversions between strings and numbers of the language. *)
Variable StringToNumber : string -> float.
Variable NumberToString : float -> string.
(** [process.env.FILE_MAX_UPLOAD_LIMIT] and [process.env.FILE_UPLOAD_PATH]. *)
Variable FILE_MAX_UPLOAD_LIMIT : option string.
Variable FILE_UPLOAD_PATH : option string.

(** Awaiting a promise: its value, or the rejection thrown. *)
Definition settle {A : Type} (r : A + exn) : M A :=
  match r with
  | inl a => ret a
  | inr e => throw e
  end.

(** Modelled from the spec: models/Bootcamp is not part of the sources.
    [Bootcamp.find(conditions)] of section 6 starts a query on the collection
    with the conditions; nothing runs before the query is awaited. *)
Definition Bootcamp_find (cond : value) : M Query :=
  log (Call_find cond) ;;
  ret {| conditions := cond; populated := []; selected := None; sorted := None;
         skipped := None; limited := None |}.

(** [await query]. *)
Definition Query_exec (q : Query) : M (list document) :=
  log (Call_exec q) ;;
  s <- get_store ;;
  settle (exec q s).

(** Modelled from the spec: models/Bootcamp is not part of the sources.
    [countDocuments] of section 6 counts the documents that meet the
    conditions, and all the documents of the collection when it is given
    none.  The count with no conditions is taken to resolve: a run in which
    it rejects ends after this call. *)
Definition Bootcamp_countDocuments (cond : option value) : M nat :=
  log (Call_countDocuments cond) ;;
  s <- get_store ;;
  match cond with
  | None => ret (List.length s)
  | Some c =>
      docs <- settle (exec {| conditions := c; populated := []; selected := None;
                              sorted := None; skipped := None; limited := None |} s) ;;
      ret (List.length docs)
  end.

(** [await Bootcamp.findById(id)]. *)
Definition Bootcamp_findById (i : string) : M (option document) :=
  log (Call_findById i) ;;
  s <- get_store ;;
  settle (findById i s).

(** Modelled from the spec: models/Bootcamp is not part of the sources.
    [bootcamp.remove()] "removes the entity" (section 4.5); the cascade of the
    model layer is out of scope. *)
Definition remove (d : document) : M unit :=
  log (Call_remove (_id d)) ;;
  s <- get_store ;;
  put_store (filter (fun d' => negb (String.eqb (_id d') (_id d))) s).

(** Modelled from the spec: models/Bootcamp is not part of the sources.  An
    update sets the fields it lists on the document and leaves the others. *)
Definition apply_update (update : list (string * value)) (d : document) : document :=
  {| _id := _id d;
     fields := fold_left (fun fs kv => set_field (fst kv) (snd kv) fs) update (fields d) |}.

(** Modelled from the spec: models/Bootcamp is not part of the sources.
    [findByIdAndUpdate(id, update)] "persists" the update "onto the entity"
    (section 4.7): the document that has the identifier takes the update; the
    promise gives the document as it was.  The update is taken to resolve:
    in the photo handler it runs in the callback of [file.mv], where a
    rejection would leave the request without an answer. *)
Definition Bootcamp_findByIdAndUpdate (i : string) (update : list (string * value))
  : M (option document) :=
  log (Call_findByIdAndUpdate i update) ;;
  s <- get_store ;;
  put_store (map (fun d => if String.eqb (_id d) i then apply_update update d else d) s) ;;
  ret (find (fun d => String.eqb (_id d) i) s).

(** [await geocoder.geocode(zipcode)]. *)
Definition geocoder_geocode (z : string) : M (list location) :=
  log (Call_geocode z) ;;
  settle (geocode z).

(** [file.mv(destination, callback)]: the error the callback receives.  The
    callback runs after the handler has returned; the steps are kept in
    their order. *)
Definition file_mv (destination : string) : M (option string) :=
  log (Call_mv destination) ;;
  ret (mv_error destination).

Definition console_log (text : string) : M unit := log (Call_console_log text).

(** Modelled from the spec: middleware/async is not part of the sources.
    "An async-wrapping decorator that forwards rejected operations to
    centralized error handling": what the handler answers or passes to
    [next] stays, and an exception it throws goes to [next] as well. *)
Definition asyncHandler (fn : request -> M reply) (req : request) (w : world)
  : outcome * world :=
  match fn req w with
  | (inl (Res_json status body), w') => (Responded status body, w')
  | (inl (Next err), w') => (Forwarded err, w')
  | (inr e, w') => (Rejected e, w')
  end.

(** A template literal's rendering of a value that may be undefined. *)
Definition template (v : option string) : string :=
  match v with
  | Some s => s
  | None => "undefined"
  end.

(** [ToNumber] of an environment variable; an unset one is [NaN]. *)
Definition env_number (v : option string) : float :=
  match v with
  | Some s => StringToNumber s
  | None => nan
  end.

(** *** GET /api/v1/bootcamps (lines 10-85) *)

Definition removeFields : list string := ["select"; "sort"; "page"; "limit"].

(** Lines 14-20: the copy of [req.query] without the fields to exclude. *)
Definition reqQuery (req : request) : list (string * json) :=
  fold_left (fun o param => obj_delete param o) removeFields (query req).

(** Lines 23-29. *)
Definition queryStr (req : request) : string :=
  Regex.add_operators (stringify (JObj (reqQuery req))).

(** Line 50 and line 51; [None] when [parseInt] throws. *)
Definition page_of (req : request) : option Z :=
  Num.parseInt_or (get "page" (query req)) 1.

Definition limit_of (req : request) : option Z :=
  Num.parseInt_or (get "limit" (query req)) 20.

(** The value of a conversion, or the [TypeError] it throws. *)
Definition primitive {A : Type} (x : option A) : M A :=
  match x with
  | Some a => ret a
  | None => throw (TypeError "Cannot convert object to primitive value")
  end.

Definition getBootcamps_fn (req : request) : M reply :=
  match Json.parse (queryStr req) with
  | None => throw (SyntaxError (queryStr req))
  | Some filter =>
      q <- Bootcamp_find (of_json filter) ;;
      let q := {| conditions := conditions q; populated := (populated q ++ ["courses"])%list;
                  selected := selected q; sorted := sorted q;
                  skipped := skipped q; limited := limited q |} in
      q <- match get "select" (query req) with
           | None => ret q
           | Some (JStr EmptyString) => ret q
           | Some (JStr select) =>
               ret {| conditions := conditions q; populated := populated q;
                      selected := Some (replace_commas select); sorted := sorted q;
                      skipped := skipped q; limited := limited q |}
           | Some _ => throw (TypeError "req.query.select.replace is not a function")
           end ;;
      q <- match get "sort" (query req) with
           | Some (JStr (String c s)) =>
               ret {| conditions := conditions q; populated := populated q;
                      selected := selected q; sorted := Some (replace_commas (String c s));
                      skipped := skipped q; limited := limited q |}
           | Some (JArr _) | Some (JObj _) =>
               throw (TypeError "req.query.sort.replace is not a function")
           | _ =>
               ret {| conditions := conditions q; populated := populated q;
                      selected := selected q; sorted := Some "-createdAt";
                      skipped := skipped q; limited := limited q |}
           end ;;
      page <- primitive (page_of req) ;;
      limit <- primitive (limit_of req) ;;
      let startIndex := ((page - 1) * limit)%Z in
      let endIndex := (page * limit)%Z in
      total <- Bootcamp_countDocuments None ;;
      let q := {| conditions := conditions q; populated := populated q;
                  selected := selected q; sorted := sorted q;
                  skipped := Some startIndex; limited := Some limit |} in
      bootcamps <- Query_exec q ;;
      let pagination :=
        {| next := if (endIndex <? Z.of_nat total)%Z
                   then Some {| page := page + 1; limit := limit |} else None;
           prev := if (0 <? startIndex)%Z
                   then Some {| page := page - 1; limit := limit |} else None |} in
      ret (Res_json 200
             {| success := true; msg := Some "Show all bootcamps.";
                count := Some (List.length bootcamps);
                pagination := Some pagination;
                data := Data_documents bootcamps |})
  end.

Definition getBootcamps : request -> world -> outcome * world :=
  asyncHandler getBootcamps_fn.

(** *** DELETE /api/v1/bootcamps/:id (lines 142-158) *)

Definition not_found (i : string) : ErrorResponse :=
  {| message := "Bootcamp not found with id of " ++ i; statusCode := 404 |}.

Definition deleteBootcamp_fn (req : request) : M reply :=
  bootcamp <- Bootcamp_findById (id (params req)) ;;
  match bootcamp with
  | None => ret (Next (not_found (id (params req))))
  | Some b =>
      remove b ;;
      ret (Res_json 200
             {| success := true;
                msg := Some ("Deleted a bootcamp. ID: " ++ id (params req));
                count := None; pagination := None;
                data := Data_empty_object |})
  end.

Definition deleteBootcamp : request -> world -> outcome * world :=
  asyncHandler deleteBootcamp_fn.

(** *** GET /api/v1/bootcamps/radius/:zipcode/:distance (lines 163-183) *)

Definition centerSphere (lng lat radius : float) : value :=
  VObj [("location",
         VObj [("$geoWithin",
                VObj [("$centerSphere", VArr [VArr [VNum lng; VNum lat]; VNum radius])])])].

Definition getBootcampsByDistance_fn (req : request) : M reply :=
  location <- geocoder_geocode (zipcode (params req)) ;;
  match location with
  | [] => throw (TypeError "Cannot read properties of undefined (reading 'latitude')")
  | first :: _ =>
      let lat := latitude first in
      let lng := longitude first in
      let radius := (StringToNumber (distance (params req)) / 6378)%float in
      q <- Bootcamp_find (centerSphere lng lat radius) ;;
      bootcamps <- Query_exec q ;;
      ret (Res_json 200
             {| success := true; msg := None;
                count := Some (List.length bootcamps);
                pagination := None;
                data := Data_documents bootcamps |})
  end.

Definition getBootcampsByDistance : request -> world -> outcome * world :=
  asyncHandler getBootcampsByDistance_fn.

(** *** PUT /api/v1/bootcamps/:id/photo (lines 188-241) *)

(** Lines 221-224. *)
Definition photo_name (bootcamp : document) (file : uploaded_file) : string :=
  "BOOTCAMP_" ++ _id bootcamp ++ "_" ++ join "" (split "." toLocaleDateString)
  ++ path_ext (name file).

Definition bootcampUploadPhoto_fn (req : request) : M reply :=
  bootcamp <- Bootcamp_findById (id (params req)) ;;
  match bootcamp with
  | None => ret (Next (not_found (id (params req))))
  | Some b =>
      match files req with
      | None => ret (Next {| message := "Please upload a file."; statusCode := 400 |})
      | Some fs =>
          match get "file" fs with
          | Some (One_file file) =>
              if negb (startsWith (mimetype file) "image") then
                ret (Next {| message := "Please upload an image file."; statusCode := 400 |})
              else if (env_number FILE_MAX_UPLOAD_LIMIT <? size file)%float then
                ret (Next {| message :=
                               "Please upload an image less than "
                               ++ NumberToString (env_number FILE_MAX_UPLOAD_LIMIT / 1000000)%float
                               ++ "mb.";
                             statusCode := 400 |})
              else
                let file_name := photo_name b file in
                err <- file_mv (template FILE_UPLOAD_PATH ++ "/" ++ file_name) ;;
                match err with
                | Some e =>
                    console_log e ;;
                    ret (Next {| message := "Problem with file upload. Try again later.";
                                 statusCode := 500 |})
                | None =>
                    Bootcamp_findByIdAndUpdate (id (params req)) [("photo", VStr file_name)] ;;
                    ret (Res_json 200
                           {| success := true; msg := Some "Uploaded photo succesfully.";
                              count := None; pagination := None;
                              data := Data_string file_name |})
                end
          | Some (Many_files _) =>
              throw (TypeError "Cannot read properties of undefined (reading 'startsWith')")
          | None =>
              throw (TypeError "Cannot read properties of undefined (reading 'mimetype')")
          end
      end
  end.

Definition bootcampUploadPhoto : request -> world -> outcome * world :=
  asyncHandler bootcampUploadPhoto_fn.

End Handlers.

End Controller.

(* ================================================================== *)
(** ** Sample requests and collaborators *)

Module Sample.
Import Json Store Controller.

#[local] Set Warnings "-inexact-float".

(** A database that answers every query with the whole collection. *)
Definition exec_all : Query -> list document -> list document + exn :=
  fun _ docs => inl docs.

(** The entity whose identifier is the one asked for. *)
Definition find_by_id : string -> list document -> option document + exn :=
  fun i docs => inl (find (fun d => String.eqb (_id d) i) docs).

Definition devworks : document :=
  {| _id := "5d713995b721c3bb38c1f5d0";
     fields := [("name", VStr "Devworks Bootcamp"); ("photo", VStr "no-photo.jpg");
                ("averageCost", VNum 10000)] |}.

Definition moderntech : document :=
  {| _id := "5d713a66ec8f2b88b8f830b8";
     fields := [("name", VStr "ModernTech Bootcamp"); ("averageCost", VNum 12000)] |}.

Definition world0 : world := {| store := [devworks; moderntech]; calls := [] |}.

Definition list_request (q : list (string * json)) : request :=
  {| query := q; params := {| id := ""; zipcode := ""; distance := "" |}; files := None |}.

Definition id_request (i : string) : request :=
  {| query := []; params := {| id := i; zipcode := ""; distance := "" |}; files := None |}.

Definition radius_request (z d : string) : request :=
  {| query := []; params := {| id := ""; zipcode := z; distance := d |}; files := None |}.

Definition upload_request (i : string) (f : uploaded_file) : request :=
  {| query := []; params := {| id := i; zipcode := ""; distance := "" |};
     files := Some [("file", One_file f)] |}.

(** [?name=in]. *)
Definition name_in : request := list_request [("name", JStr "in")].

(** [?averageCost[lte]=10000&select=name,photo&page=2&limit=1]. *)
Definition cheap_page2 : request :=
  list_request [("averageCost", JObj [("lte", JStr "10000")]); ("select", JStr "name,photo");
                ("page", JStr "2"); ("limit", JStr "1")].

(** [?page=-1&limit=-5]. *)
Definition negative_limit : request :=
  list_request [("page", JStr "-1"); ("limit", JStr "-5")].

Definition geocode_la : string -> list location + exn :=
  fun _ => inl [{| latitude := 34.0; longitude := (-118.2) |}].

Definition geocode_nothing : string -> list location + exn := fun _ => inl [].

Definition to_number : string -> float :=
  fun s => if String.eqb s "10" then 10%float
           else if String.eqb s "1000000" then 1000000%float
           else nan.

Definition number_text : float -> string := fun _ => "1".

Definition jpeg : uploaded_file :=
  {| name := "camp.jpg"; mimetype := "image/jpeg"; size := 204800 |}.

Definition pdf : uploaded_file :=
  {| name := "notes.pdf"; mimetype := "application/pdf"; size := 1024 |}.

Definition mv_ok : string -> option string := fun _ => None.

Definition ext_of : string -> string :=
  fun p => if String.eqb p "camp.jpg" then ".jpg"
           else if String.eqb p "notes.pdf" then ".pdf"
           else "".

End Sample.

(* ================================================================== *)
(** ** The handlers that answer with one entity *)

Module Entity.
Import Js Json Store Controller.

(** The body given to [res.json] by [getBootcamp], [createBootcamp] and
    [updateBootcamp]: the data is one entity. *)
Record entity_envelope : Type := {
  entity_success : bool;
  entity_msg : string;
  entity_data : document
}.

Inductive entity_reply : Type :=
| Res_entity (status : Z) (body : entity_envelope)
| Next_entity (err : ErrorResponse).

Inductive entity_outcome : Type :=
| Answered (status : Z) (body : entity_envelope)
| Passed (err : ErrorResponse)
| Thrown (e : exn).

(** A request with a parsed body. *)
Record body_request : Type := {
  head_of : request;
  body : list (string * value)
}.

(** The test of a look-up by identifier. *)
Definition by_id (i : string) (d : document) : bool := String.eqb (_id d) i.

(** The world after the look-up of the entity of a request. *)
Definition looked_up (req : request) (w : world) : world :=
  {| store := store w; calls := calls w ++ [Call_findById (id (params req))] |}.

(** No key and no string of [v] holds [gt], [lt] or [in]. *)
Definition plain_string (s : string) : bool :=
  negb (Operators.contains "gt" s) && negb (Operators.contains "lt" s)
  && negb (Operators.contains "in" s).

Fixpoint keyword_free (v : json) : bool :=
  match v with
  | JStr s => plain_string s
  | JArr items => forallb keyword_free items
  | JObj members =>
      forallb (fun kv => plain_string (fst kv) && keyword_free (snd kv)) members
  end.

Section Handlers.

Local Open Scope monad_scope.

(** [Bootcamp.findById(id)] on the collection: the entity, null, or the
    rejection. *)
Variable findById : string -> list document -> option document + exn.
(** [Bootcamp.create(body)] on the collection: the entity created and the
    collection with it, or the rejection (validation is the data layer's). *)
Variable create : list (string * value) -> list document -> document * list document + exn.
(** [Bootcamp.findByIdAndUpdate(id, body, {new: true, runValidators: true})]
    on the collection: the entity after the update or null, and the
    collection after it, or the rejection. *)
Variable findByIdAndUpdate :
  string -> list (string * value) -> list document ->
  option document * list document + exn.

(** Modelled from the spec: middleware/async is not part of the sources.
    The wrapper of [Controller.asyncHandler], for a handler that answers
    with one entity. *)
Definition asyncHandler_entity {R : Type} (fn : R -> M entity_reply) (req : R) (w : world)
  : entity_outcome * world :=
  match fn req w with
  | (inl (Res_entity status b), w') => (Answered status b, w')
  | (inl (Next_entity err), w') => (Passed err, w')
  | (inr e, w') => (Thrown e, w')
  end.

(** *** GET /api/v1/bootcamps/:id (lines 90-104) *)

Definition getBootcamp_fn (req : request) : M entity_reply :=
  bootcamp <- Bootcamp_findById findById (id (params req)) ;;
  match bootcamp with
  | None => ret (Next_entity (not_found (id (params req))))
  | Some b =>
      ret (Res_entity 200
             {| entity_success := true;
                entity_msg := "Get a bootcamp. ID: " ++ id (params req);
                entity_data := b |})
  end.

Definition getBootcamp : request -> world -> entity_outcome * world :=
  asyncHandler_entity getBootcamp_fn.

(** *** POST /api/v1/bootcamps (lines 109-116) *)

Definition createBootcamp_fn (req : body_request) : M entity_reply :=
  s <- get_store ;;
  created <- settle (create (body req) s) ;;
  put_store (snd created) ;;
  ret (Res_entity 201
         {| entity_success := true; entity_msg := "Created new bootcamp.";
            entity_data := fst created |}).

Definition createBootcamp : body_request -> world -> entity_outcome * world :=
  asyncHandler_entity createBootcamp_fn.

(** *** PUT /api/v1/bootcamps/:id (lines 121-137) *)

Definition updateBootcamp_fn (req : body_request) : M entity_reply :=
  log (Call_findByIdAndUpdate (id (params (head_of req))) (body req)) ;;
  s <- get_store ;;
  updated <- settle (findByIdAndUpdate (id (params (head_of req))) (body req) s) ;;
  put_store (snd updated) ;;
  match fst updated with
  | None => ret (Next_entity (not_found (id (params (head_of req)))))
  | Some b =>
      ret (Res_entity 200
             {| entity_success := true;
                entity_msg := "Updated bootcamp. ID: " ++ id (params (head_of req));
                entity_data := b |})
  end.

Definition updateBootcamp : body_request -> world -> entity_outcome * world :=
  asyncHandler_entity updateBootcamp_fn.

End Handlers.

End Entity.

(* ================================================================== *)
(** ** More sample requests *)

Module MoreSamples.
Import Json Store Controller Entity.

(** [?select=name,photo&select=id]: the parameter comes twice. *)
Definition select_twice : request :=
  Sample.list_request [("select", JArr [JStr "name,photo"; JStr "id"])].

(** [?name=Devworks&page=1]. *)
Definition devworks_page1 : request :=
  Sample.list_request [("name", JStr "Devworks"); ("page", JStr "1")].

(** [?page=1&limit=1]. *)
Definition first_of_two : request :=
  Sample.list_request [("page", JStr "1"); ("limit", JStr "1")].

Definition poster : uploaded_file :=
  {| name := "poster.png"; mimetype := "image/png"; size := 2000000 |}.

(** An upload whose file came under the field [photo]. *)
Definition other_field (i : string) (f : uploaded_file) : request :=
  {| query := []; params := {| id := i; zipcode := ""; distance := "" |};
     files := Some [("photo", One_file f)] |}.

Definition mv_full : string -> option string := fun _ => Some "ENOSPC".

Definition find_rejects : string -> list document -> option document + exn :=
  fun i _ => inr (Rejection ("Cast to ObjectId failed for value " ++ i)).

(** An update that finds no document. *)
Definition update_nothing :
  string -> list (string * value) -> list document ->
  option document * list document + exn :=
  fun _ _ docs => inl (None, docs).

(** [?averageCost[lte]=10000&sort=name]. *)
Definition cheap_sorted : request :=
  Sample.list_request [("averageCost", JObj [("lte", JStr "10000")]); ("sort", JStr "name")].

(** A database that cannot be reached. *)
Definition exec_down : Query -> list document -> list document + exn :=
  fun _ _ => inr (Rejection "connection refused").

Definition geocode_down : string -> list location + exn :=
  fun _ => inr (Rejection "geocoder request failed").

(** A database in which the first document alone meets the conditions. *)
Definition exec_first : Query -> list document -> list document + exn :=
  fun _ docs => inl (firstn 1 docs).

(** [?name=Devworks Bootcamp&limit=1]. *)
Definition devworks_only : request :=
  Sample.list_request [("name", JStr "Devworks Bootcamp"); ("limit", JStr "1")].

(** [?page[toString]=x]. *)
Definition page_object : request :=
  Sample.list_request [("page", JObj [("toString", JStr "x")])].

End MoreSamples.

(* ================================================================== *)
(** ** Properties of the text functions *)

Module TextFacts.
Import Js Json Regex Operators.

Ltac ascii_cases c := destruct c as [[] [] [] [] [] [] [] []].

Lemma append_nil_r (s : string) : s ++ "" = s.
Proof. induction s as [|c s IH]; simpl; [reflexivity | now rewrite IH]. Qed.

Lemma append_assoc (a b c : string) : (a ++ b) ++ c = a ++ (b ++ c).
Proof. induction a as [|x a IH]; simpl; [reflexivity | now rewrite IH]. Qed.

Lemma length_append (a b : string) :
  String.length (a ++ b) = String.length a + String.length b.
Proof. induction a as [|x a IH]; simpl; [reflexivity | now rewrite IH]. Qed.

(** *** Characters *)

Lemma word_is_plain c : is_word c = true -> escape_char c = String c "".
Proof. ascii_cases c; (reflexivity || discriminate). Qed.

Lemma escape_head c t :
  opt_word (head (escape_char c ++ t)) = is_word c.
Proof. ascii_cases c; reflexivity. Qed.

Lemma escape_first c t :
  head (escape_char c ++ t) = Some c \/ head (escape_char c ++ t) = Some backslash.
Proof. ascii_cases c; simpl; auto. Qed.

Lemma backslash_not_word : is_word backslash = false.
Proof. reflexivity. Qed.

(** *** Prefixes *)

Lemma strip_prefix_head a alt s rest :
  strip_prefix (String a alt) s = Some rest -> head s = Some a.
Proof.
  destruct s as [|b s]; simpl; [discriminate|].
  destruct (Ascii.eqb_spec a b); [now subst | discriminate].
Qed.

Lemma strip_prefix_app p s rest :
  strip_prefix p s = Some rest -> s = p ++ rest.
Proof.
  revert s; induction p as [|a p IH]; intros s; simpl.
  - now intros [= ->].
  - destruct s as [|b s]; [discriminate|].
    destruct (Ascii.eqb_spec a b); [|discriminate].
    subst; intros H; now rewrite (IH _ H).
Qed.

Lemma strip_prefix_word_prefix alt s rest :
  all_word alt = true -> strip_prefix alt s = Some rest ->
  word_prefix (String.length alt) s = true.
Proof.
  revert s; induction alt as [|a alt IH]; intros s Hw; simpl; [reflexivity|].
  simpl in Hw; apply andb_prop in Hw as [Ha Hw].
  destruct s as [|b s]; [discriminate|].
  destruct (Ascii.eqb_spec a b); [|discriminate].
  subst; intros H; rewrite Ha; simpl; eauto.
Qed.

Lemma last_char_word alt prev :
  all_word alt = true -> alt <> "" -> opt_word (last_char alt prev) = true.
Proof.
  revert prev; induction alt as [|a alt IH]; intros prev Hw Hne; [congruence|].
  simpl in *; apply andb_prop in Hw as [Ha Hw].
  destruct alt as [|b alt]; [exact Ha|].
  apply IH; [exact Hw | discriminate].
Qed.

(** *** One alternative at one place *)

Lemma alt_matches_word prev s alt :
  all_word alt = true -> alt <> "" ->
  alt_matches prev s alt = negb (opt_word prev) && occurs_at s alt.
Proof.
  intros Hw Hne; unfold alt_matches, occurs_at.
  destruct (strip_prefix alt s) as [rest|] eqn:E.
  - destruct alt as [|a alt]; [congruence|].
    rewrite (strip_prefix_head _ _ _ _ E).
    unfold word_boundary; rewrite last_char_word by assumption.
    simpl in Hw; apply andb_prop in Hw as [Ha _]; simpl; rewrite Ha.
    now rewrite xorb_true_r.
  - now rewrite !andb_false_r.
Qed.

Lemma exec_at_spec prev s :
  exec_at prev s = if opt_word prev then None else find (occurs_at s) alternatives.
Proof.
  unfold exec_at, alternatives; simpl.
  rewrite !alt_matches_word by (reflexivity || discriminate).
  destruct (opt_word prev); reflexivity.
Qed.

Lemma occurs_at_nonword alt c s :
  all_word alt = true -> alt <> "" -> is_word c = false ->
  occurs_at (String c s) alt = false.
Proof.
  intros Hw Hne Hc; destruct alt as [|a alt]; [congruence|].
  unfold occurs_at; simpl.
  destruct (Ascii.eqb_spec a c); [|reflexivity].
  subst; simpl in Hw; rewrite Hc in Hw; discriminate.
Qed.

Lemma find_occurs_nonword c s :
  is_word c = false -> find (occurs_at (String c s)) alternatives = None.
Proof.
  intros Hc; unfold alternatives; simpl.
  now rewrite !occurs_at_nonword by (reflexivity || discriminate || exact Hc).
Qed.

Lemma find_occurs_some s m :
  find (occurs_at s) alternatives = Some m ->
  all_word m = true /\ m <> "" /\ occurs_at s m = true.
Proof.
  intros H; apply find_some in H as [Hin Hocc].
  repeat split; [| |exact Hocc];
    unfold alternatives in Hin; simpl in Hin;
    repeat (destruct Hin as [<-|Hin]; [reflexivity || discriminate|]); contradiction.
Qed.

Lemma occurs_word_prefix s m :
  all_word m = true -> occurs_at s m = true -> word_prefix (String.length m) s = true.
Proof.
  unfold occurs_at; intros Hw H.
  destruct (strip_prefix m s) eqn:E; [|discriminate].
  eapply strip_prefix_word_prefix; eassumption.
Qed.

Lemma word_prefix_pred m c s :
  m <> "" -> word_prefix (String.length m) (String c s) = true ->
  is_word c = true /\ word_prefix (String.length m - 1) s = true.
Proof.
  destruct m as [|a m]; [congruence|]; simpl; intros _ H.
  apply andb_prop in H as [Hc H]; rewrite Nat.sub_0_r; auto.
Qed.

(** The match found at a place, unpacked. *)
Lemma find_occurs_inv c s m :
  find (occurs_at (String c s)) alternatives = Some m ->
  is_word c = true /\ word_prefix (String.length m - 1) s = true.
Proof.
  intros H; apply find_occurs_some in H as (Hw & Hne & Hocc).
  apply word_prefix_pred; [exact Hne|].
  now apply occurs_word_prefix.
Qed.


(** *** What lies after a separator does not matter *)

Lemma occurs_at_segment alt a c b :
  all_word alt = true -> is_word c = false ->
  occurs_at (a ++ String c b) alt = occurs_at a alt.
Proof.
  revert a; induction alt as [|k alt IH]; intros a Hw Hc.
  - unfold occurs_at; simpl. destruct a; simpl; [now rewrite Hc | reflexivity].
  - simpl in Hw; apply andb_prop in Hw as [Hk Hw].
    destruct a as [|x a]; simpl.
    + unfold occurs_at; simpl.
      destruct (Ascii.eqb_spec k c); [subst; congruence | reflexivity].
    + specialize (IH a Hw Hc); unfold occurs_at in *; simpl.
      destruct (Ascii.eqb k x); [exact IH | reflexivity].
Qed.

Lemma find_occurs_segment a c b :
  is_word c = false ->
  find (occurs_at (a ++ String c b)) alternatives = find (occurs_at a) alternatives.
Proof.
  intros Hc; unfold alternatives; simpl.
  now rewrite !occurs_at_segment by (reflexivity || exact Hc).
Qed.

Lemma replace_from_prev p1 p2 k s :
  opt_word p1 = opt_word p2 -> replace_from p1 k s = replace_from p2 k s.
Proof.
  intros H; destruct s as [|c s]; [reflexivity|].
  destruct k; simpl; [|reflexivity].
  now rewrite !exec_at_spec, H.
Qed.

Lemma replace_from_segment c b :
  is_word c = false ->
  forall a prev k, word_prefix k a = true ->
  replace_from prev k (a ++ String c b) = replace_from prev k a ++ String c (add_operators b).
Proof.
  intros Hc; induction a as [|x a IH]; intros prev k Hk.
  - destruct k; [|discriminate].
    change ("" ++ String c b) with (String c b).
    cbn [replace_from]. rewrite exec_at_spec, find_occurs_nonword by exact Hc.
    destruct (opt_word prev); simpl; f_equal;
      apply replace_from_prev; simpl; now rewrite Hc.
  - destruct k as [|k].
    + change ((String x a) ++ String c b) with (String x (a ++ String c b)).
      cbn [replace_from]. rewrite !exec_at_spec.
      change (String x (a ++ String c b)) with ((String x a) ++ String c b).
      rewrite find_occurs_segment by exact Hc.
      destruct (opt_word prev).
      * simpl; f_equal; now apply IH.
      * destruct (find (occurs_at (String x a)) alternatives) as [m|] eqn:E.
        -- apply find_occurs_inv in E as [_ E].
           simpl; do 2 f_equal; now apply IH.
        -- simpl; f_equal; now apply IH.
    + simpl in Hk; apply andb_prop in Hk as [_ Hk].
      simpl; f_equal; now apply IH.
Qed.

Lemma add_operators_segment a c b :
  is_word c = false ->
  add_operators (a ++ String c b) = add_operators a ++ String c (add_operators b).
Proof. intros Hc; now apply replace_from_segment. Qed.

Lemma add_operators_cons c b :
  is_word c = false -> add_operators (String c b) = String c (add_operators b).
Proof. intros Hc; exact (add_operators_segment "" c b Hc). Qed.

Lemma add_operators_join (sep : ascii) (l : list string) :
  is_word sep = false ->
  add_operators (join (String sep "") l) = join (String sep "") (map add_operators l).
Proof.
  intros Hs; induction l as [|x l IH]; [reflexivity|].
  destruct l as [|y l]; [reflexivity|].
  change (join (String sep "") (x :: y :: l))
    with (x ++ String sep (join (String sep "") (y :: l))).
  rewrite add_operators_segment, IH by exact Hs. reflexivity.
Qed.

(** *** The expression on the text of one string *)

Lemma occurs_at_escape alt s :
  all_word alt = true -> occurs_at (escape s) alt = occurs_at s alt.
Proof.
  revert s; induction alt as [|k alt IH]; intros s Hw.
  - unfold occurs_at; simpl. destruct s as [|c s]; [reflexivity|].
    simpl; now rewrite escape_head.
  - simpl in Hw; apply andb_prop in Hw as [Hk Hw].
    destruct s as [|c s]; [reflexivity|].
    specialize (IH s Hw). unfold occurs_at in *. simpl.
    destruct (Ascii.eqb_spec k c) as [->|Hne].
    + rewrite (word_is_plain _ Hk). simpl. now rewrite Ascii.eqb_refl.
    + destruct (escape_char c ++ escape s) as [|x t] eqn:E; [reflexivity|].
      destruct (Ascii.eqb_spec k x) as [->|]; [|reflexivity].
      exfalso. destruct (escape_first c (escape s)) as [H|H];
        rewrite E in H; simpl in H; injection H as ->; [congruence|].
      now rewrite backslash_not_word in Hk.
Qed.

Lemma find_occurs_escape s :
  find (occurs_at (escape s)) alternatives = find (occurs_at s) alternatives.
Proof.
  unfold alternatives; simpl.
  now rewrite !occurs_at_escape by reflexivity.
Qed.

(** A character that is not a word character: its text is copied, no match
    starts inside it, and it ends in a word character exactly when it is a
    control character. *)
Lemma replace_from_escape_char c t prev :
  is_word c = false ->
  exists last,
    replace_from prev 0 (escape_char c ++ t) = escape_char c ++ replace_from (Some last) 0 t
    /\ opt_word (Some last) = ends_in_word c.
Proof.
  intros Hc.
  assert (Hfirst : forall x s, is_word x = false ->
            replace_from prev 0 (String x s) = String x (replace_from (Some x) 0 s)).
  { intros x s Hx. cbn [replace_from].
    rewrite exec_at_spec, find_occurs_nonword by exact Hx.
    now destruct (opt_word prev). }
  ascii_cases c; try discriminate Hc; clear Hc;
    lazymatch goal with
    | |- context [escape_char ?ch] =>
        let e := eval vm_compute in (escape_char ch) in
        change (escape_char ch) with e
    end; cbn [append];
    rewrite Hfirst by reflexivity;
    eexists; (split; [cbn; reflexivity | reflexivity]).
Qed.



Lemma escape_app a b : escape (a ++ b) = escape a ++ escape b.
Proof.
  induction a as [|c a IH]; simpl; [reflexivity|].
  now rewrite IH, append_assoc.
Qed.

Lemma replace_from_escape s :
  forall prev k, word_prefix k s = true ->
  replace_from prev k (escape s) = escape (rewrite_from (opt_word prev) k s).
Proof.
  induction s as [|c s IH]; intros prev k Hk; [reflexivity|].
  destruct (is_word c) eqn:Hc.
  - assert (Hends : ends_in_word c = true) by (unfold ends_in_word; now rewrite Hc).
    cbn [escape]. rewrite (word_is_plain _ Hc). cbn [append].
    destruct k as [|k].
    + cbn [replace_from rewrite_from]. rewrite exec_at_spec.
      change (String c (escape s)) with (String c "" ++ escape s).
      rewrite <- (word_is_plain _ Hc).
      change (escape_char c ++ escape s) with (escape (String c s)).
      rewrite find_occurs_escape.
      destruct (opt_word prev).
      * cbn [escape]. rewrite (word_is_plain _ Hc). cbn [append]. f_equal.
        rewrite Hends, <- Hc. now apply (IH (Some c)).
      * destruct (find (occurs_at (String c s)) alternatives) as [m|] eqn:E.
        -- apply find_occurs_inv in E as [_ E].
           cbn [escape]. rewrite (word_is_plain _ Hc).
           change (escape_char "$") with (String "$"%char "").
           cbn [append]. do 2 f_equal.
           rewrite Hends, <- Hc. now apply (IH (Some c)).
        -- cbn [escape]. rewrite (word_is_plain _ Hc). cbn [append]. f_equal.
           rewrite Hends, <- Hc. now apply (IH (Some c)).
    + simpl in Hk; apply andb_prop in Hk as [_ Hk].
      cbn [replace_from rewrite_from escape]. rewrite (word_is_plain _ Hc).
      cbn [append]. f_equal. rewrite Hends, <- Hc. now apply (IH (Some c)).
  - destruct k as [|k]; [|simpl in Hk; now rewrite Hc in Hk].
    cbn [escape].
    destruct (replace_from_escape_char c (escape s) prev Hc) as (last & -> & Hlast).
    cbn [rewrite_from]. rewrite find_occurs_nonword by exact Hc.
    replace (if opt_word prev then None else None) with (@None string)
      by now destruct (opt_word prev).
    cbn [escape]. f_equal. rewrite <- Hlast. now apply IH.
Qed.

Lemma add_operators_escape s : add_operators (escape s) = escape (rewrite_str s).
Proof. exact (replace_from_escape s None 0 eq_refl). Qed.

(** *** Induction on values *)

Lemma json_induction (P : json -> Prop)
  (HStr : forall s, P (JStr s))
  (HArr : forall items, Forall P items -> P (JArr items))
  (HObj : forall members, Forall (fun kv => P (snd kv)) members -> P (JObj members)) :
  forall v, P v.
Proof.
  fix IH 1; intros [s|items|members].
  - apply HStr.
  - apply HArr. induction items as [|v items IHl]; constructor; [apply IH | exact IHl].
  - apply HObj. induction members as [|[k v] members IHl]; constructor;
      [apply IH | exact IHl].
Qed.

(** *** The expression on the text of a value *)

Lemma dquote_not_word : is_word dquote = false.
Proof. reflexivity. Qed.

Lemma add_operators_quote s : add_operators (quote s) = quote (rewrite_str s).
Proof.
  unfold quote.
  rewrite add_operators_cons by reflexivity.
  rewrite add_operators_segment by reflexivity.
  now rewrite add_operators_escape.
Qed.

Lemma add_operators_stringify v :
  add_operators (stringify v) = stringify (rewrite_value v).
Proof.
  induction v as [s|items IH|members IH] using json_induction; unfold rewrite_value.
  - apply add_operators_quote.
  - cbn [stringify map_strings].
    change ("[" ++ join "," (map stringify items) ++ "]")
      with (String "[" (join "," (map stringify items) ++ String "]" "")).
    rewrite add_operators_cons by reflexivity.
    rewrite add_operators_segment by reflexivity.
    rewrite (add_operators_join ","%char) by reflexivity.
    rewrite !map_map.
    replace (map (fun x => add_operators (stringify x)) items)
      with (map (fun x => stringify (map_strings rewrite_str x)) items); [reflexivity|].
    apply map_ext_Forall. revert IH; apply Forall_impl. intros v Hv; now rewrite Hv.
  - cbn [stringify map_strings].
    set (f := fun kv : string * json => quote (fst kv) ++ ":" ++ stringify (snd kv)).
    change ("{" ++ join "," (map f members) ++ "}")
      with (String "{" (join "," (map f members) ++ String "}" "")).
    rewrite add_operators_cons by reflexivity.
    rewrite add_operators_segment by reflexivity.
    rewrite (add_operators_join ","%char) by reflexivity.
    rewrite !map_map.
    replace (map (fun x => add_operators (f x)) members)
      with (map (fun x => f (rewrite_str (fst x), map_strings rewrite_str (snd x))) members);
      [reflexivity|].
    apply map_ext_Forall. revert IH; apply Forall_impl. intros [k v] Hv.
    unfold f; cbn [fst snd] in *.
    change (":" ++ stringify v) with (String ":" (stringify v)).
    rewrite (add_operators_segment (quote k) ":"%char) by reflexivity.
    now rewrite add_operators_quote, Hv.
Qed.


(** *** Reading back what [stringify] wrote *)

Lemma parse_escape_char c t :
  parse_chars (escape_char c ++ t) = cons_char c (parse_chars t).
Proof. ascii_cases c; reflexivity. Qed.

Lemma parse_chars_escape s rest :
  parse_chars (escape s ++ String dquote rest) = Some (s, rest).
Proof.
  induction s as [|c s IH]; simpl.
  - reflexivity.
  - now rewrite append_assoc, parse_escape_char, IH.
Qed.

Lemma no_dup_NoDup l : no_dup l = true <-> NoDup l.
Proof.
  induction l as [|k l IH]; simpl.
  - split; [constructor | reflexivity].
  - rewrite andb_true_iff, negb_true_iff, IH. split.
    + intros [Hk Hl]; constructor; [|exact Hl].
      intros Hin. assert (E : existsb (String.eqb k) l = true).
      { apply existsb_exists; exists k; split; [exact Hin | apply String.eqb_refl]. }
      congruence.
    + intros H; inversion H as [|? ? Hk Hl]; subst; split; [|exact Hl].
      destruct (existsb (String.eqb k) l) eqn:E; [|reflexivity].
      apply existsb_exists in E as (x & Hin & Hx). apply String.eqb_eq in Hx; subst.
      contradiction.
Qed.

Lemma obj_set_fresh k v (acc : list (string * json)) :
  ~ In k (map fst acc) -> obj_set k v acc = (acc ++ [(k, v)])%list.
Proof.
  induction acc as [|[k' v'] acc IH]; simpl; intros H; [reflexivity|].
  destruct (String.eqb_spec k' k) as [->|_]; [tauto|].
  rewrite IH; tauto.
Qed.

Lemma build_object_from (ms acc : list (string * json)) :
  NoDup (map fst (acc ++ ms)%list) ->
  fold_left (fun o kv => obj_set (fst kv) (snd kv) o) ms acc = (acc ++ ms)%list.
Proof.
  revert acc; induction ms as [|[k v] ms IH]; intros acc H; simpl.
  - now rewrite app_nil_r.
  - rewrite obj_set_fresh.
    + rewrite IH; rewrite <- app_assoc; [reflexivity | exact H].
    + rewrite map_app in H. simpl in H. apply NoDup_remove_2 in H.
      intros Hin; apply H, in_or_app; now left.
Qed.

Lemma build_object_distinct ms :
  no_dup (map fst ms) = true -> build_object ms = ms.
Proof.
  intros H; apply no_dup_NoDup in H. exact (build_object_from ms [] H).
Qed.

Lemma stringify_head v rest :
  next_is "]" (stringify v ++ rest) = false /\ next_is "}" (stringify v ++ rest) = false.
Proof. destruct v; split; reflexivity. Qed.

Lemma parse_elements_stringify items :
  Forall reads_back items -> items <> [] ->
  forall fuel rest, list_sum (map (fun x => S (size x)) items) <= fuel ->
  parse_elements fuel (join "," (map stringify items) ++ String "]" rest) = Some (items, rest).
Proof.
  induction 1 as [|v items Hv Hitems IH]; intros Hne fuel rest Hfuel; [congruence|].
  simpl in Hfuel.
  destruct fuel as [|fuel]; [lia|].
  destruct items as [|v' items].
  - cbn [map join String.concat parse_elements].
    rewrite Hv by (simpl in Hfuel; lia). reflexivity.
  - change (join "," (map stringify (v :: v' :: items)))
      with (stringify v ++ String "," (join "," (map stringify (v' :: items)))).
    rewrite append_assoc. cbn [parse_elements append].
    rewrite Hv by lia. cbn [next_is tail]. rewrite Ascii.eqb_refl.
    rewrite IH; [reflexivity | discriminate | lia].
Qed.

Lemma parse_members_stringify members :
  Forall (fun kv => reads_back (snd kv)) members -> members <> [] ->
  forall fuel rest, list_sum (map (fun kv => S (size (snd kv))) members) <= fuel ->
  parse_members fuel
    (join "," (map (fun kv => quote (fst kv) ++ ":" ++ stringify (snd kv)) members)
     ++ String "}" rest)
  = Some (members, rest).
Proof.
  induction 1 as [|[k v] members Hv Hmembers IH]; intros Hne fuel rest Hfuel; [congruence|].
  simpl in Hfuel. cbn [snd] in Hv.
  destruct fuel as [|fuel]; [lia|].
  set (f := fun kv : string * json => quote (fst kv) ++ ":" ++ stringify (snd kv)) in *.
  destruct members as [|kv' members].
  - cbn [map join String.concat]. unfold f at 1; cbn [fst snd]. unfold quote.
    cbn [append parse_members next_is tail]. rewrite Ascii.eqb_refl.
    rewrite !append_assoc. cbn [append].
    rewrite parse_chars_escape. cbn [next_is tail]. rewrite Ascii.eqb_refl.
    rewrite Hv by lia. reflexivity.
  - change (join "," (map f ((k, v) :: kv' :: members)))
      with (f (k, v) ++ String "," (join "," (map f (kv' :: members)))).
    unfold f at 1; cbn [fst snd]. unfold quote.
    cbn [append parse_members next_is tail]. rewrite Ascii.eqb_refl.
    rewrite !append_assoc. cbn [append]. rewrite ?append_assoc.
    rewrite parse_chars_escape. cbn [next_is tail append]. rewrite Ascii.eqb_refl.
    rewrite Hv by lia. cbn [next_is tail]. rewrite Ascii.eqb_refl.
    rewrite IH; [reflexivity | discriminate | lia].
Qed.

Lemma parse_value_stringify v :
  distinct_keys v = true -> reads_back v.
Proof.
  induction v as [s|items IH|members IH] using json_induction; intros Hd fuel rest Hfuel.
  - destruct fuel as [|fuel]; [simpl in Hfuel; lia|].
    cbn [stringify]. unfold quote. cbn [append parse_value next_is tail].
    rewrite Ascii.eqb_refl, append_assoc. cbn [append].
    now rewrite parse_chars_escape.
  - destruct fuel as [|fuel]; [simpl in Hfuel; lia|].
    cbn [size] in Hfuel. apply le_S_n in Hfuel.
    cbn [distinct_keys] in Hd.
    assert (Hall : Forall reads_back items).
    { rewrite forallb_forall in Hd. rewrite Forall_forall in *. auto. }
    cbn [stringify]. rewrite !append_assoc.
    cbn [append parse_value next_is tail].
    change (Ascii.eqb "[" dquote) with false. change (Ascii.eqb "[" "[") with true. cbv iota.
    destruct items as [|v items].
    + reflexivity.
    + change ("]" ++ rest) with (String "]" rest).
      set (text := join "," (map stringify (v :: items)) ++ String "]" rest).
      assert (Hnext : next_is "]" text = false).
      { subst text. destruct items; cbn [map join String.concat];
          [|rewrite append_assoc]; apply stringify_head. }
      rewrite Hnext. subst text.
      rewrite parse_elements_stringify; [reflexivity | exact Hall | discriminate | exact Hfuel].
  - destruct fuel as [|fuel]; [simpl in Hfuel; lia|].
    cbn [size] in Hfuel. apply le_S_n in Hfuel.
    cbn [distinct_keys] in Hd. apply andb_prop in Hd as [Hkeys Hd].
    assert (Hall : Forall (fun kv => reads_back (snd kv)) members).
    { rewrite forallb_forall in Hd. rewrite Forall_forall in *. auto. }
    cbn [stringify].
    set (f := fun kv : string * json => quote (fst kv) ++ ":" ++ stringify (snd kv)).
    rewrite !append_assoc.
    cbn [append parse_value next_is tail].
    change (Ascii.eqb "{" dquote) with false. change (Ascii.eqb "{" "[") with false.
    change (Ascii.eqb "{" "{") with true. cbv iota.
    destruct members as [|kv members].
    + reflexivity.
    + set (text := join "," (map f (kv :: members)) ++ String "}" rest).
      assert (Hnext : next_is "}" text = false).
      { subst text. destruct members; cbn [map join String.concat];
          [|rewrite append_assoc]; reflexivity. }
      rewrite Hnext. subst text f.
      rewrite parse_members_stringify; [|exact Hall | discriminate | exact Hfuel].
      now rewrite build_object_distinct.
Qed.

Lemma length_quote s : 2 <= String.length (quote s).
Proof. unfold quote; simpl; rewrite length_append; simpl; lia. Qed.

Lemma length_join_stringify {A} (f : A -> string) (g : A -> nat) l :
  Forall (fun x => g x <= String.length (f x)) l ->
  list_sum (map (fun x => S (g x)) l) <= S (String.length (join "," (map f l))).
Proof.
  induction 1 as [|x l Hx Hl IH]; [simpl; lia|].
  destruct l as [|y l]; [simpl; lia|].
  change (join "," (map f (x :: y :: l)))
    with (f x ++ String "," (join "," (map f (y :: l)))).
  rewrite length_append. cbn [String.length].
  change (list_sum (map (fun x => S (g x)) (x :: y :: l)))
    with (S (g x) + list_sum (map (fun x => S (g x)) (y :: l))).
  lia.
Qed.

Lemma size_stringify v : size v <= String.length (stringify v).
Proof.
  induction v as [s|items IH|members IH] using json_induction.
  - pose proof (length_quote s). simpl; lia.
  - cbn [size stringify].
    change ("[" ++ join "," (map stringify items) ++ "]")
      with (String "[" (join "," (map stringify items) ++ "]")).
    cbn [String.length]. rewrite length_append. cbn [String.length].
    pose proof (length_join_stringify stringify size items IH). lia.
  - cbn [size stringify].
    set (f := fun kv : string * json => quote (fst kv) ++ ":" ++ stringify (snd kv)).
    change ("{" ++ join "," (map f members) ++ "}")
      with (String "{" (join "," (map f members) ++ "}")).
    cbn [String.length]. rewrite length_append. cbn [String.length].
    assert (H : Forall (fun kv => size (snd kv) <= String.length (f kv)) members).
    { revert IH; apply Forall_impl. intros [k v] Hv. unfold f; cbn [fst snd] in *.
      rewrite length_append.
      change (":" ++ stringify v) with (String ":" (stringify v)).
      cbn [String.length]. lia. }
    pose proof (length_join_stringify f (fun kv => size (snd kv)) members H). lia.
Qed.

Theorem parse_stringify v :
  distinct_keys v = true -> Json.parse (stringify v) = Some v.
Proof.
  intros Hd. unfold Json.parse.
  pose proof (parse_value_stringify v Hd (S (String.length (stringify v))) "") as H.
  rewrite append_nil_r in H. rewrite H; [reflexivity|].
  pose proof (size_stringify v). lia.
Qed.


(** *** [erase] undoes [rewrite_from] *)

Lemma occurs_at_cons c t a alt :
  occurs_at (String c t) (String a alt) = if Ascii.eqb a c then occurs_at t alt else false.
Proof. unfold occurs_at; simpl. now destruct (Ascii.eqb a c). Qed.

Lemma rewrite_from_copy c s aw k :
  0 < k \/ aw = true \/ find (occurs_at (String c s)) alternatives = None ->
  rewrite_from aw k (String c s) = String c (rewrite_from (ends_in_word c) (pred k) s).
Proof.
  intros H. destruct k as [|k]; [|reflexivity].
  cbn [rewrite_from pred].
  destruct H as [H | [-> | ->]]; [lia | reflexivity | now destruct aw].
Qed.

Lemma occurs_at_rewrite alt :
  all_word alt = true ->
  forall s aw k, word_prefix k s = true ->
  0 < k \/ aw = true \/ find (occurs_at s) alternatives = None ->
  occurs_at (rewrite_from aw k s) alt = occurs_at s alt.
Proof.
  induction alt as [|a alt IH]; intros Hw s aw k Hk Hfront.
  - destruct s as [|c s]; [reflexivity|].
    now rewrite rewrite_from_copy.
  - simpl in Hw; apply andb_prop in Hw as [Ha Hw].
    destruct s as [|c s]; [reflexivity|].
    rewrite rewrite_from_copy by exact Hfront.
    rewrite !occurs_at_cons.
    destruct (Ascii.eqb_spec a c) as [<-|_]; [|reflexivity].
    apply IH; [exact Hw| |].
    + destruct k as [|k]; [reflexivity|].
      simpl in Hk; now apply andb_prop in Hk as [_ Hk].
    + right; left. unfold ends_in_word; now rewrite Ha.
Qed.

Lemma find_occurs_rewrite s aw k :
  word_prefix k s = true ->
  0 < k \/ aw = true \/ find (occurs_at s) alternatives = None ->
  find (occurs_at (rewrite_from aw k s)) alternatives = find (occurs_at s) alternatives.
Proof.
  intros Hk Hfront; unfold alternatives; simpl.
  now rewrite !(fun alt H => occurs_at_rewrite alt H s aw k Hk Hfront) by reflexivity.
Qed.

Lemma find_occurs_empty : find (occurs_at "") alternatives = None.
Proof. reflexivity. Qed.

(** Where a keyword stood, the rewritten text starts with the ["$"]. *)
Lemma find_occurs_rewritten s m :
  find (occurs_at s) alternatives = Some m ->
  find (occurs_at (rewrite_from false 0 s)) alternatives = None.
Proof.
  intros E. destruct s as [|c s]; [discriminate|].
  cbn [rewrite_from]. rewrite E. now apply find_occurs_nonword.
Qed.

Lemma erase_rewrite_from s :
  forall aw k, word_prefix k s = true -> erase k (rewrite_from aw k s) = s.
Proof.
  induction s as [|c s IH]; intros aw k Hk; [reflexivity|].
  destruct k as [|k].
  - cbn [rewrite_from].
    destruct (if aw then None else find (occurs_at (String c s)) alternatives)
      as [m|] eqn:E.
    + destruct aw; [discriminate|].
      pose proof (find_occurs_some _ _ E) as (_ & Hne & _).
      pose proof (find_occurs_inv _ _ _ E) as [Hc Hm].
      destruct m as [|x m]; [congruence|].
      cbn [String.length] in *. replace (S (String.length m) - 1) with (String.length m) in * by lia.
      cbn [erase]. rewrite Ascii.eqb_refl.
      change (String c (rewrite_from (ends_in_word c) (String.length m) s))
        with (rewrite_from false (S (String.length m)) (String c s)).
      rewrite find_occurs_rewrite, E; [| simpl; now rewrite Hc | left; lia].
      cbn [String.length rewrite_from erase].
      f_equal. now apply IH.
    + cbn [erase].
      assert (Hs : erase 0 (rewrite_from (ends_in_word c) 0 s) = s) by now apply IH.
      destruct (Ascii.eqb_spec c "$") as [->|_]; [|now rewrite Hs].
      change (ends_in_word "$") with false in *.
      assert (Hnone : find (occurs_at (rewrite_from false 0 s)) alternatives = None).
      { destruct (find (occurs_at s) alternatives) as [m|] eqn:Es.
        - eapply find_occurs_rewritten; exact Es.
        - rewrite find_occurs_rewrite; [exact Es | reflexivity | now right; right]. }
      now rewrite Hnone, Hs.
  - simpl in Hk; apply andb_prop in Hk as [_ Hk].
    cbn [rewrite_from erase]. f_equal. now apply IH.
Qed.

Lemma erase_rewrite_str s : erase 0 (rewrite_str s) = s.
Proof. now apply erase_rewrite_from. Qed.

Lemma rewrite_str_inj a b : rewrite_str a = rewrite_str b -> a = b.
Proof.
  intros H. rewrite <- (erase_rewrite_str a), <- (erase_rewrite_str b). now rewrite H.
Qed.

(** *** Strings the expression leaves alone *)

Lemma strip_prefix_app_l p q s :
  strip_prefix (p ++ q) s =
  match strip_prefix p s with
  | Some r => strip_prefix q r
  | None => None
  end.
Proof.
  revert s; induction p as [|a p IH]; intros s; [reflexivity|].
  simpl. destruct s as [|b s]; [reflexivity|].
  destruct (Ascii.eqb a b); [apply IH | reflexivity].
Qed.

Lemma contains_false alt s :
  contains alt s = false -> strip_prefix alt s = None.
Proof.
  destruct s; simpl; destruct (strip_prefix alt _); congruence.
Qed.

Lemma contains_tail alt c s :
  contains alt (String c s) = false -> contains alt s = false.
Proof.
  cbn [contains]. destruct (strip_prefix alt (String c s)); congruence.
Qed.

Lemma rewrite_from_unchanged s :
  contains "gt" s = false -> contains "lt" s = false -> contains "in" s = false ->
  forall aw, rewrite_from aw 0 s = s.
Proof.
  induction s as [|c s IH]; intros Hgt Hlt Hin aw; [reflexivity|].
  assert (E : find (occurs_at (String c s)) alternatives = None).
  { apply contains_false in Hgt, Hlt, Hin.
    unfold alternatives, occurs_at. cbn [find].
    change "gte" with ("gt" ++ "e"). change "lte" with ("lt" ++ "e").
    rewrite !strip_prefix_app_l, Hgt, Hlt, Hin. reflexivity. }
  cbn [rewrite_from]. rewrite E.
  replace (if aw then None else None) with (@None string) by now destruct aw.
  f_equal. apply IH; eapply contains_tail; eassumption.
Qed.

Lemma rewrite_str_unchanged s :
  contains "gt" s = false -> contains "lt" s = false -> contains "in" s = false ->
  rewrite_str s = s.
Proof. intros; now apply rewrite_from_unchanged. Qed.

(** *** Strings without control characters *)

Lemma replace_from_plain s :
  all_chars (fun c => negb (is_control c)) s = true ->
  forall prev k, replace_from prev k s = rewrite_from (opt_word prev) k s.
Proof.
  induction s as [|c s IH]; intros H prev k; [reflexivity|].
  cbn [all_chars] in H. apply andb_prop in H as [Hc Hs].
  assert (Hends : ends_in_word c = opt_word (Some c)).
  { unfold ends_in_word. apply negb_true_iff in Hc. rewrite Hc. apply orb_false_r. }
  destruct k as [|k]; cbn [replace_from rewrite_from].
  - rewrite exec_at_spec, Hends.
    destruct (opt_word prev); [|destruct (find _ _)]; now rewrite IH.
  - now rewrite Hends, IH.
Qed.

Lemma rewrite_str_plain s :
  all_chars (fun c => negb (is_control c)) s = true -> rewrite_str s = add_operators s.
Proof. intros H. symmetry. now apply replace_from_plain. Qed.

(** *** Distinct keys stay distinct *)

Lemma no_dup_rewrite l : no_dup l = true -> no_dup (map rewrite_str l) = true.
Proof.
  rewrite !no_dup_NoDup. apply NoDup_map_NoDup_ForallPairs.
  intros a b _ _. apply rewrite_str_inj.
Qed.

Lemma distinct_keys_rewrite v :
  distinct_keys v = true -> distinct_keys (rewrite_value v) = true.
Proof.
  unfold rewrite_value.
  induction v as [s|items IH|members IH] using json_induction; intros Hd.
  - reflexivity.
  - cbn [map_strings distinct_keys] in *. rewrite forallb_forall in *.
    rewrite Forall_forall in IH. intros v Hv. apply in_map_iff in Hv as (x & <- & Hx). auto.
  - cbn [map_strings distinct_keys] in *. apply andb_prop in Hd as [Hkeys Hd].
    rewrite map_map. cbn [fst]. rewrite <- (map_map fst rewrite_str).
    rewrite no_dup_rewrite by exact Hkeys. cbn [andb].
    rewrite forallb_forall in *. rewrite Forall_forall in IH.
    intros kv Hkv. apply in_map_iff in Hkv as (x & <- & Hx). cbn [snd]. auto.
Qed.

(** *** Lines 23-32 on a value *)

Theorem parse_add_operators_stringify v :
  distinct_keys v = true ->
  Json.parse (add_operators (stringify v)) = Some (rewrite_value v).
Proof.
  intros Hd. rewrite add_operators_stringify.
  apply parse_stringify. now apply distinct_keys_rewrite.
Qed.

(** *** The functions on some inputs *)

Example add_operators_text :
  add_operators "averageCost[gte]=100&in=a gt_x,lte;$lt"
  = "averageCost[$gte]=100&$in=a gt_x,$lte;$$lt".
Proof. reflexivity. Qed.

Example parse_rewritten :
  Json.parse
    (add_operators
       (stringify (JObj [("averageCost", JObj [("lte", JStr "10000")]);
                         ("careers", JObj [("in", JArr [JStr "Business"; JStr "join in"])])])))
  = Some (JObj [("averageCost", JObj [("$lte", JStr "10000")]);
                ("careers", JObj [("$in", JArr [JStr "Business"; JStr "join $in"])])]).
Proof. reflexivity. Qed.

Example parse_duplicate_key :
  Json.parse (stringify (JObj [("a", JStr "1"); ("b", JStr "2"); ("a", JStr "3")]))
  = Some (JObj [("a", JStr "3"); ("b", JStr "2")]).
Proof. reflexivity. Qed.

Example parseInt_examples :
  Num.parseInt " 12px" = Some 12%Z /\ Num.parseInt "-5" = Some (-5)%Z
  /\ Num.parseInt "abc" = None /\ Num.parseInt "" = None
  /\ Num.parseInt_or None 20 = Some 20%Z /\ Num.parseInt_or (Some (JStr "0")) 1 = Some 1%Z
  /\ Num.parseInt_or (Some (JArr [JStr "3"; JStr "4"])) 1 = Some 3%Z
  /\ Num.parseInt_or (Some (JObj [("a", JStr "3")])) 1 = Some 1%Z
  /\ Num.parseInt_or (Some (JObj [("toString", JStr "3")])) 1 = None.
Proof. repeat split; reflexivity. Qed.

Example control_character_is_no_boundary :
  rewrite_str (String "010" "in") = String "010" "in"
  /\ add_operators (String "010" "in") = String "010" "$in".
Proof. split; reflexivity. Qed.

End TextFacts.

(* ================================================================== *)
(** ** Properties of the list handler *)

Module ListFacts.
Import Js Json Regex Operators Store Controller TextFacts.
Local Open Scope list_scope.

Section Facts.
Variable exec : Query -> list document -> list document + exn.

Lemma getBootcamps_run req w f :
  Json.parse (queryStr req) = Some f ->
  let found := calls w ++ [Call_find (of_json f)] in
  (is_text (get "select" (query req)) && is_text (get "sort" (query req)) = false /\
   exists what,
     getBootcamps exec req w
     = (Rejected (TypeError what), {| store := store w; calls := found |}))
  \/
  (is_text (get "select" (query req)) && is_text (get "sort" (query req)) = true /\
   (page_of req = None \/ limit_of req = None) /\
   exists what,
     getBootcamps exec req w
     = (Rejected (TypeError what), {| store := store w; calls := found |}))
  \/
  (is_text (get "select" (query req)) && is_text (get "sort" (query req)) = true /\
   exists p l q,
     page_of req = Some p /\
     limit_of req = Some l /\
     conditions q = of_json f /\
     skipped q = Some ((p - 1) * l)%Z /\
     limited q = Some l /\
     getBootcamps exec req w
     = (match exec q (store w) with
        | inl docs =>
            Responded 200
              {| success := true; msg := Some "Show all bootcamps.";
                 count := Some (List.length docs);
                 pagination :=
                   Some {| next := if (p * l <? Z.of_nat (List.length (store w)))%Z
                                   then Some {| page := p + 1; limit := l |}
                                   else None;
                           prev := if (0 <? (p - 1) * l)%Z
                                   then Some {| page := p - 1; limit := l |}
                                   else None |};
                 data := Data_documents docs |}
        | inr e => Rejected e
        end,
        {| store := store w;
           calls := found ++ [Call_countDocuments None; Call_exec q] |})).
Proof.
  intros Hparse found.
  unfold getBootcamps, asyncHandler, getBootcamps_fn, Bootcamp_find,
    Bootcamp_countDocuments, Query_exec, primitive, settle, bind, log, get_store, ret, throw.
  rewrite Hparse. destruct w as [st cs]. subst found.
  destruct (get "select" (query req)) as [[[|c1 s1]|?|?]|];
    destruct (get "sort" (query req)) as [[[|c2 s2]|?|?]|];
    cbn -[page_of limit_of Z.mul Z.sub Z.add Z.ltb replace_commas of_json];
    try (left; split; [reflexivity | eexists; reflexivity]);
    right;
    (destruct (page_of req) as [p|];
     [ destruct (limit_of req) as [l|];
       [ right; (split; [reflexivity|]); exists p, l;
         cbn -[Z.mul Z.sub Z.add Z.ltb replace_commas of_json];
         match goal with
         | |- context [exec ?q st] =>
             exists q; (repeat split); rewrite <- ?app_assoc; destruct (exec q st); reflexivity
         end
       | left; (split; [reflexivity|]); (split; [now right|]); eexists; reflexivity ]
     | left; (split; [reflexivity|]); (split; [now left|]); eexists; reflexivity ]).
Qed.

(** The handler throws when the text given to [JSON.parse] is refused. *)
Lemma getBootcamps_unparsed req w :
  Json.parse (queryStr req) = None ->
  getBootcamps exec req w = (Rejected (SyntaxError (queryStr req)), w).
Proof.
  intros H. unfold getBootcamps, asyncHandler, getBootcamps_fn, throw. now rewrite H.
Qed.

(** What an answer of the handler holds. *)
Lemma getBootcamps_answer req w status body w' :
  getBootcamps exec req w = (Responded status body, w') ->
  exists p l,
    page_of req = Some p
    /\ limit_of req = Some l
    /\ status = 200%Z
    /\ store w' = store w
    /\ (exists f q, calls w' = calls w ++ [Call_find f; Call_countDocuments None; Call_exec q])
    /\ pagination body
       = Some {| next := if (p * l <? Z.of_nat (List.length (store w)))%Z
                         then Some {| page := p + 1; limit := l |}
                         else None;
                 prev := if (0 <? (p - 1) * l)%Z
                         then Some {| page := p - 1; limit := l |}
                         else None |}.
Proof.
  intros Hrun. destruct (Json.parse (queryStr req)) as [f|] eqn:Hparse.
  - destruct (getBootcamps_run req w f Hparse)
      as [(_ & what & Hrej) | [(_ & _ & what & Hrej)
                              | (_ & p & l & q & Hp & Hl & _ & _ & _ & Hres)]].
    + rewrite Hrej in Hrun; discriminate.
    + rewrite Hrej in Hrun; discriminate.
    + rewrite Hres in Hrun. destruct (exec q (store w)); [|discriminate].
      injection Hrun as <- <- <-. exists p, l. cbn [store calls pagination]. repeat split; trivial.
      exists (of_json f), q. now rewrite <- app_assoc.
  - rewrite (getBootcamps_unparsed req w Hparse) in Hrun. discriminate.
Qed.

Lemma option_if_some {A} (b : bool) (x : A) :
  (if b then Some x else None) <> None <-> b = true.
Proof. destruct b; split; congruence. Qed.

(** *** The copy of the query *)

Lemma filter_filter {A} (f g : A -> bool) (l : list A) :
  filter f (filter g l) = filter (fun x => g x && f x) l.
Proof.
  induction l as [|x l IH]; [reflexivity|].
  cbn [filter]. destruct (g x); cbn [filter andb]; [destruct (f x)|]; now rewrite IH.
Qed.

Lemma fold_obj_delete {A} (ps : list string) (o : list (string * A)) :
  fold_left (fun o p => obj_delete p o) ps o
  = filter (fun kv => negb (existsb (String.eqb (fst kv)) ps)) o.
Proof.
  revert o; induction ps as [|p ps IH]; intros o; cbn [fold_left existsb].
  - induction o as [|kv o IHo]; [reflexivity|]. cbn [filter negb]. now f_equal.
  - rewrite IH. unfold obj_delete. rewrite filter_filter.
    apply filter_ext. intros kv. now rewrite negb_orb.
Qed.

Lemma reqQuery_filter req :
  reqQuery req
  = filter (fun kv => negb (existsb (String.eqb (fst kv)) removeFields)) (query req).
Proof. apply fold_obj_delete. Qed.

Lemma map_fst_filter {A} (p : string -> bool) (o : list (string * A)) :
  map fst (filter (fun kv => p (fst kv)) o) = filter p (map fst o).
Proof.
  induction o as [|[k v] o IH]; [reflexivity|].
  cbn [filter map fst]. destruct (p k); cbn [map fst]; now rewrite IH.
Qed.

Lemma distinct_keys_reqQuery req :
  distinct_keys (JObj (query req)) = true -> distinct_keys (JObj (reqQuery req)) = true.
Proof.
  rewrite reqQuery_filter. cbn [distinct_keys]. intros H.
  apply andb_prop in H as [Hk Hv]. apply andb_true_intro; split.
  - rewrite (map_fst_filter (fun k => negb (existsb (String.eqb k) removeFields))).
    apply no_dup_NoDup, NoDup_filter, no_dup_NoDup, Hk.
  - rewrite forallb_forall in *. intros kv Hin. apply filter_In in Hin as [Hin _]. auto.
Qed.

Lemma parse_queryStr req :
  distinct_keys (JObj (query req)) = true ->
  Json.parse (queryStr req) = Some (rewrite_value (JObj (reqQuery req))).
Proof.
  intros H. apply parse_add_operators_stringify. now apply distinct_keys_reqQuery.
Qed.

Lemma get_none {A} k (o : list (string * A)) : get k o = None <-> ~ In k (map fst o).
Proof.
  induction o as [|[k' v] o IH]; cbn [get map fst In]; [tauto|].
  destruct (String.eqb_spec k' k); [split; [discriminate | tauto] | tauto].
Qed.

Lemma rewrite_keywords alt : In alt alternatives -> rewrite_str alt = String "$" alt.
Proof.
  unfold alternatives; cbn [In]. intros H.
  repeat (destruct H as [<-|H]; [reflexivity|]). contradiction.
Qed.

Lemma rewrite_not_removed k : In (rewrite_str k) removeFields -> In k removeFields.
Proof.
  intros H. rewrite <- (erase_rewrite_str k).
  unfold removeFields in *; cbn [In] in *.
  repeat (destruct H as [<-|H]; [cbn; tauto|]). contradiction.
Qed.

(** ** The list handler *)

(** The first call of the handler is [find], with the rewritten copy of the
    query. *)
Lemma getBootcamps_find_call req w :
  distinct_keys (JObj (query req)) = true ->
  exists rest,
    calls (snd (getBootcamps exec req w))
    = calls w ++ Call_find (of_json (rewrite_value (JObj (reqQuery req)))) :: rest
    /\ (rest = [] \/ exists q, rest = [Call_countDocuments None; Call_exec q]).
Proof.
  intros Hd.
  destruct (getBootcamps_run req w _ (parse_queryStr req Hd))
    as [(_ & what & ->) | [(_ & _ & what & ->)
                          | (_ & p & l & q & _ & _ & _ & _ & _ & ->)]]; cbn [snd calls].
  - exists []. split; [reflexivity | now left].
  - exists []. split; [reflexivity | now left].
  - exists [Call_countDocuments None; Call_exec q].
    rewrite <- app_assoc. split; [reflexivity | right; now exists q].
Qed.

(** C1, as amended.  When the keys of the query are pairwise distinct, the
    filter [getBootcamps] gives to [Bootcamp.find] is the copy of the query
    in which every key and every string, at any depth, went through
    [rewrite_str]; that is the first call the handler makes, and the only
    call of [find].  [rewrite_str] puts ["$"] in front of the five bare
    keywords, leaves alone any string that holds neither [gt], [lt] nor
    [in], and on a string without control characters is the regular
    expression of the handler applied to the string itself. *)
Theorem getBootcamps_filter_rewritten req w :
  distinct_keys (JObj (query req)) = true ->
  (exists rest,
     calls (snd (getBootcamps exec req w))
     = calls w ++ Call_find (of_json (rewrite_value (JObj (reqQuery req)))) :: rest
     /\ (rest = [] \/ exists q, rest = [Call_countDocuments None; Call_exec q]))
  /\ (forall alt, In alt alternatives -> rewrite_str alt = String "$" alt)
  /\ (forall s, contains "gt" s = false -> contains "lt" s = false ->
                contains "in" s = false -> rewrite_str s = s)
  /\ (forall s, all_chars (fun c => negb (is_control c)) s = true ->
                rewrite_str s = add_operators s).
Proof.
  intros Hd.
  split; [|split; [exact rewrite_keywords | split;
                   [exact rewrite_str_unchanged | exact rewrite_str_plain]]].
  now apply getBootcamps_find_call.
Qed.

(** C4, as amended.  The filter given to [find] is built from the pairs of
    the query whose key is none of [select], [sort], [page], [limit], in
    their order: each such pair is in the filter with its key and its value
    rewritten by [rewrite_str], and none of the four is a key of the
    filter. *)
Theorem getBootcamps_removeFields req w :
  distinct_keys (JObj (query req)) = true ->
  exists filter rest,
    calls (snd (getBootcamps exec req w)) = calls w ++ Call_find (VObj filter) :: rest
    /\ filter
       = map (fun kv => (rewrite_str (fst kv), of_json (rewrite_value (snd kv))))
           (List.filter (fun kv => negb (existsb (String.eqb (fst kv)) removeFields))
              (query req))
    /\ (forall k, In k removeFields -> get k filter = None)
    /\ (forall k v, In (k, v) (query req) -> ~ In k removeFields ->
          In (rewrite_str k, of_json (rewrite_value v)) filter)
    /\ (forall k s, In (k, JStr s) (query req) -> ~ In k removeFields ->
          contains "gt" k = false -> contains "lt" k = false -> contains "in" k = false ->
          contains "gt" s = false -> contains "lt" s = false -> contains "in" s = false ->
          In (k, VStr s) filter).
Proof.
  intros Hd.
  destruct (getBootcamps_find_call req w Hd) as (rest & Hcalls & _).
  assert (Hpairs : forall k v, In (k, v) (query req) -> ~ In k removeFields ->
            In (rewrite_str k, of_json (rewrite_value v))
              (map (fun kv => (rewrite_str (fst kv), of_json (rewrite_value (snd kv))))
                 (List.filter (fun kv => negb (existsb (String.eqb (fst kv)) removeFields))
                    (query req)))).
  { intros k v Hin Hk.
    apply (in_map (fun kv => (rewrite_str (fst kv), of_json (rewrite_value (snd kv)))) _ (k, v)).
    apply filter_In. split; [exact Hin|]. cbn [fst].
    apply negb_true_iff. destruct (existsb (String.eqb k) removeFields) eqn:E; [|reflexivity].
    apply existsb_exists in E as (x & Hx & Hkx). apply String.eqb_eq in Hkx; subst x.
    contradiction. }
  eexists; exists rest. split; [|split; [reflexivity|split; [|split]]].
  - rewrite Hcalls. unfold rewrite_value. cbn [map_strings of_json].
    rewrite reqQuery_filter, !map_map. reflexivity.
  - intros k Hk. apply get_none. rewrite map_map. cbn [fst].
    intros Hin. apply in_map_iff in Hin as ([k0 v0] & Hk0 & Hin). cbn [fst] in Hk0.
    apply filter_In in Hin as [_ Hin]. cbn [fst] in Hin.
    apply negb_true_iff in Hin.
    assert (Hrem : In k0 removeFields) by (apply rewrite_not_removed; now rewrite Hk0).
    assert (existsb (String.eqb k0) removeFields = true); [|congruence].
    apply existsb_exists. exists k0. split; [exact Hrem | apply String.eqb_refl].
  - exact Hpairs.
  - intros k s Hin Hk Hk1 Hk2 Hk3 Hs1 Hs2 Hs3.
    specialize (Hpairs k (JStr s) Hin Hk). unfold rewrite_value in Hpairs.
    cbn [map_strings of_json] in Hpairs.
    now rewrite !rewrite_str_unchanged in Hpairs by assumption.
Qed.

(** C2, as amended.  In every answer of the handler the pagination object
    has [next] exactly when [page * limit] is below the number of documents
    of the collection, and [prev] exactly when [(page - 1) * limit] is
    positive, which for a positive limit is [page > 1].  An absent [page]
    counts as 1 and an absent [limit] as 20. *)
Theorem getBootcamps_pagination req w status body w' :
  getBootcamps exec req w = (Responded status body, w') ->
  exists p l pg,
    page_of req = Some p
    /\ limit_of req = Some l
    /\ pagination body = Some pg
    /\ (next pg <> None <-> (p * l < Z.of_nat (List.length (store w)))%Z)
    /\ (prev pg <> None <-> (0 < (p - 1) * l)%Z)
    /\ ((0 < l)%Z -> (prev pg <> None <-> (1 < p)%Z))
    /\ (get "page" (query req) = None -> p = 1%Z)
    /\ (get "limit" (query req) = None -> l = 20%Z).
Proof.
  intros Hrun.
  destruct (getBootcamps_answer _ _ _ _ _ Hrun) as (p & l & Hp & Hl & _ & _ & _ & ->).
  exists p, l. eexists. split; [exact Hp|]. split; [exact Hl|]. split; [reflexivity|].
  cbn [next prev]. rewrite !option_if_some, !Z.ltb_lt.
  split; [tauto|]. split; [tauto|]. split; [intros Hpos; split; nia|]. split.
  - intros Hnone. unfold page_of in Hp. rewrite Hnone in Hp. now injection Hp.
  - intros Hnone. unfold limit_of in Hl. rewrite Hnone in Hl. now injection Hl.
Qed.

(** C3.  A request whose [select] and [sort] are texts and whose [page] and
    [limit] convert gets as far as the count: right after [find], which got
    the filter, the handler calls [countDocuments()] with no conditions, and
    it asks for no other count.  In an answer [next] is present exactly when
    [page * limit] is below the number of all the documents of the
    collection: two requests with the same page and limit get the same
    decision whatever their filters. *)
Theorem getBootcamps_total_unfiltered req w p l :
  distinct_keys (JObj (query req)) = true ->
  is_text (get "select" (query req)) = true ->
  is_text (get "sort" (query req)) = true ->
  page_of req = Some p ->
  limit_of req = Some l ->
  (exists rest,
     calls (snd (getBootcamps exec req w))
     = calls w ++ Call_find (of_json (rewrite_value (JObj (reqQuery req))))
                  :: Call_countDocuments None :: rest
     /\ forall c, ~ In (Call_countDocuments c) rest)
  /\ (forall status body w',
        getBootcamps exec req w = (Responded status body, w') ->
        exists pg,
          pagination body = Some pg
          /\ (next pg <> None <-> (p * l < Z.of_nat (List.length (store w)))%Z)
          /\ forall req' status' body' w'' pg',
               getBootcamps exec req' w = (Responded status' body', w'') ->
               pagination body' = Some pg' ->
               page_of req' = Some p -> limit_of req' = Some l ->
               (next pg' <> None <-> next pg <> None)).
Proof.
  intros Hd Hsel Hsort Hp Hl. split.
  - destruct (getBootcamps_run req w _ (parse_queryStr req Hd))
      as [(Hno & _) | [(_ & [Hno|Hno] & _)
                      | (_ & p0 & l0 & q & _ & _ & _ & _ & _ & ->)]].
    + rewrite Hsel, Hsort in Hno. discriminate.
    + congruence.
    + congruence.
    + cbn [snd calls]. rewrite <- app_assoc. exists [Call_exec q].
      split; [reflexivity|]. intros c [H|[]]. discriminate.
  - intros status body w' Hrun.
    destruct (getBootcamps_answer _ _ _ _ _ Hrun) as (p0 & l0 & Hp0 & Hl0 & _ & _ & _ & Hpg).
    assert (p0 = p) by congruence. assert (l0 = l) by congruence. subst p0 l0.
    eexists; split; [exact Hpg|]. cbn [next]. split; [now rewrite option_if_some, Z.ltb_lt|].
    intros req' status' body' w'' pg' Hrun' Hpg' Hp' Hl'.
    destruct (getBootcamps_answer _ _ _ _ _ Hrun')
      as (p1 & l1 & Hp1 & Hl1 & _ & _ & _ & Hpg2).
    assert (p1 = p) by congruence. assert (l1 = l) by congruence. subst p1 l1.
    rewrite Hpg' in Hpg2. injection Hpg2 as ->. cbn [next]. tauto.
Qed.

End Facts.

(** *** The claims that fail, at a request *)

(** C1 as stated is false at [?name=in]: the filter given to [find] has the
    value ["$in"], where the claim leaves every part other than the bare
    keyword keys as it was. *)
Lemma getBootcamps_filter_counterexample :
  exists passed rest,
    calls (snd (getBootcamps Sample.exec_all Sample.name_in Sample.world0))
    = Call_find passed :: rest
    /\ passed = VObj [("name", VStr "$in")]
    /\ of_json (prefix_keyword_keys (JObj (reqQuery Sample.name_in)))
       = VObj [("name", VStr "in")]
    /\ passed <> of_json (prefix_keyword_keys (JObj (reqQuery Sample.name_in))).
Proof.
  do 2 eexists. split; [vm_compute; reflexivity|].
  split; [reflexivity|]. split; [reflexivity|]. discriminate.
Qed.

(** C4 as stated is false at [?name=in]: the pair [name: "in"] of the query,
    whose key is none of the four, is not in the filter given to [find]. *)
Lemma getBootcamps_removeFields_counterexample :
  exists filter rest,
    calls (snd (getBootcamps Sample.exec_all Sample.name_in Sample.world0))
    = Call_find (VObj filter) :: rest
    /\ In ("name", JStr "in") (query Sample.name_in)
    /\ ~ In "name" removeFields
    /\ ~ In ("name", of_json (JStr "in")) filter.
Proof.
  do 2 eexists. split; [vm_compute; reflexivity|].
  split; [now left|]. split.
  - cbn. intros [H|[H|[H|[H|[]]]]]; discriminate.
  - cbn. intros [H|[]]; discriminate.
Qed.

(** C2 as stated is false at [?page=-1&limit=-5]: the page is -1, not above
    1, and the answer has a [prev]. *)
Lemma getBootcamps_pagination_counterexample :
  exists body w' pg,
    getBootcamps Sample.exec_all Sample.negative_limit Sample.world0 = (Responded 200 body, w')
    /\ pagination body = Some pg
    /\ page_of Sample.negative_limit = Some (-1)%Z
    /\ limit_of Sample.negative_limit = Some (-5)%Z
    /\ prev pg = Some {| page := -2; limit := -5 |}
    /\ ~ (prev pg <> None <-> (1 < -1)%Z).
Proof.
  do 3 eexists. split; [vm_compute; reflexivity|].
  split; [reflexivity|]. split; [reflexivity|]. split; [reflexivity|].
  split; [reflexivity|]. cbn [prev]. intros [H _].
  assert (Hlt : (1 < -1)%Z) by (apply H; discriminate).
  discriminate Hlt.
Qed.

(** *** The handler on some requests *)

Example getBootcamps_cheap_page2 :
  getBootcamps Sample.exec_all Sample.cheap_page2 Sample.world0
  = (Responded 200
       {| success := true; msg := Some "Show all bootcamps."%string; count := Some 2;
          pagination := Some {| next := None; prev := Some {| page := 1; limit := 1 |} |};
          data := Data_documents [Sample.devworks; Sample.moderntech] |},
     {| store := [Sample.devworks; Sample.moderntech];
        calls := [Call_find (VObj [("averageCost"%string, VObj [("$lte"%string, VStr "10000")])]);
                  Call_countDocuments None;
                  Call_exec {| conditions :=
                                 VObj [("averageCost"%string,
                                        VObj [("$lte"%string, VStr "10000")])];
                               populated := ["courses"%string];
                               selected := Some "name photo"%string;
                               sorted := Some "-createdAt"%string;
                               skipped := Some 1%Z; limited := Some 1%Z |}] |}).
Proof. vm_compute. reflexivity. Qed.

Example getBootcamps_select_array :
  exists what,
    getBootcamps Sample.exec_all
      (Sample.list_request [("select"%string, JArr [JStr "name"; JStr "photo"])]) Sample.world0
    = (Rejected (TypeError what),
       {| store := store Sample.world0; calls := [Call_find (VObj [])] |}).
Proof. eexists. vm_compute. reflexivity. Qed.

(** *** Instances *)

Lemma getBootcamps_filter_rewritten_witness :
  distinct_keys (JObj (query Sample.cheap_page2)) = true
  /\ exists rest,
       calls (snd (getBootcamps Sample.exec_all Sample.cheap_page2 Sample.world0))
       = calls Sample.world0
         ++ Call_find (of_json (rewrite_value (JObj (reqQuery Sample.cheap_page2)))) :: rest
       /\ (rest = [] \/ exists q, rest = [Call_countDocuments None; Call_exec q]).
Proof.
  split; [reflexivity|].
  exact (proj1 (getBootcamps_filter_rewritten Sample.exec_all Sample.cheap_page2
                  Sample.world0 eq_refl)).
Defined.

Lemma getBootcamps_removeFields_witness :
  distinct_keys (JObj (query Sample.cheap_page2)) = true
  /\ exists filter rest,
       calls (snd (getBootcamps Sample.exec_all Sample.cheap_page2 Sample.world0))
       = calls Sample.world0 ++ Call_find (VObj filter) :: rest
       /\ filter = [("averageCost", VObj [("$lte", VStr "10000")])].
Proof.
  split; [reflexivity|].
  destruct (getBootcamps_removeFields Sample.exec_all Sample.cheap_page2 Sample.world0 eq_refl)
    as (filter & rest & Hcalls & Hfilter & _).
  exists filter, rest. split; [exact Hcalls|]. rewrite Hfilter. reflexivity.
Defined.

Lemma getBootcamps_pagination_witness :
  exists body w' pg,
    getBootcamps Sample.exec_all Sample.cheap_page2 Sample.world0 = (Responded 200 body, w')
    /\ page_of Sample.cheap_page2 = Some 2%Z
    /\ limit_of Sample.cheap_page2 = Some 1%Z
    /\ pagination body = Some pg
    /\ prev pg <> None
    /\ ~ next pg <> None.
Proof.
  destruct (getBootcamps_pagination Sample.exec_all Sample.cheap_page2 Sample.world0 _ _ _
              eq_refl)
    as (p & l & pg & Hp & Hl & Hpg & Hnext & Hprev & _).
  injection Hp as <-. injection Hl as <-.
  do 2 eexists. exists pg. split; [reflexivity|]. split; [reflexivity|].
  split; [reflexivity|]. split; [exact Hpg|]. split.
  - apply Hprev. reflexivity.
  - intros H. apply Hnext in H. discriminate H.
Defined.

Lemma getBootcamps_total_unfiltered_witness :
  exists rest body w' pg,
    calls (snd (getBootcamps MoreSamples.exec_first MoreSamples.devworks_only Sample.world0))
    = Call_find (VObj [("name", VStr "Devworks Bootcamp")]) :: Call_countDocuments None :: rest
    /\ getBootcamps MoreSamples.exec_first MoreSamples.devworks_only Sample.world0
       = (Responded 200 body, w')
    /\ data body = Data_documents [Sample.devworks]
    /\ List.length (store Sample.world0) = 2
    /\ pagination body = Some pg
    /\ next pg <> None.
Proof.
  destruct (getBootcamps_total_unfiltered MoreSamples.exec_first MoreSamples.devworks_only
              Sample.world0 1 1 eq_refl eq_refl eq_refl eq_refl eq_refl)
    as ((rest & Hcalls & _) & Hanswer).
  destruct (Hanswer _ _ _ eq_refl) as (pg & Hpg & Hnext & _).
  exists rest. do 2 eexists. exists pg.
  split; [exact Hcalls|]. split; [reflexivity|]. split; [reflexivity|].
  split; [reflexivity|]. split; [exact Hpg|]. apply Hnext. reflexivity.
Defined.

End ListFacts.

(* ================================================================== *)
(** ** Properties of the handlers of one entity *)

Module EntityFacts.
Import Js Json Regex Operators Store Controller TextFacts.
Local Open Scope list_scope.
#[local] Set Warnings "-inexact-float".

(** *** Fields of a document *)

Lemma get_set_field_other k k0 v fs :
  k <> k0 -> get k (set_field k0 v fs) = get k fs.
Proof.
  intros Hk. induction fs as [|[k' v'] fs IH]; cbn [set_field get].
  - destruct (String.eqb_spec k0 k); [congruence | reflexivity].
  - destruct (String.eqb_spec k' k0) as [->|Hne]; cbn [get].
    + destruct (String.eqb_spec k0 k); [congruence | reflexivity].
    + destruct (String.eqb k' k); [reflexivity | exact IH].
Qed.

Lemma get_set_field_same k v fs : get k (set_field k v fs) = Some v.
Proof.
  induction fs as [|[k' v'] fs IH]; cbn [set_field get].
  - now rewrite String.eqb_refl.
  - destruct (String.eqb_spec k' k) as [->|Hne]; cbn [get].
    + now rewrite String.eqb_refl.
    + destruct (String.eqb_spec k' k); [contradiction | exact IH].
Qed.

Lemma Forall2_map_same {A} (R : A -> A -> Prop) (f : A -> A) (l : list A) :
  (forall x, R x (f x)) -> Forall2 R l (map f l).
Proof. intros H; induction l; cbn [map]; constructor; auto. Qed.

(** *** Dates *)

Lemma split_not_nil c s : split c s <> [].
Proof.
  destruct s as [|d s]; cbn [split]; [discriminate|].
  destruct (Ascii.eqb d c); [discriminate|]. destruct (split c s); discriminate.
Qed.

Lemma join_split c s : join "" (split c s) = without c s.
Proof.
  induction s as [|d s IH]; [reflexivity|].
  cbn [split without]. destruct (Ascii.eqb d c).
  - pose proof (split_not_nil c s). destruct (split c s) as [|p ps]; [contradiction|].
    exact IH.
  - pose proof (split_not_nil c s). destruct (split c s) as [|p ps]; [contradiction|].
    rewrite <- IH. destruct ps; reflexivity.
Qed.

Lemma without_digits d :
  all_chars (fun c => is_digit c || Ascii.eqb c ".") d = true ->
  all_chars is_digit (without "." d) = true.
Proof.
  induction d as [|c d IH]; [reflexivity|].
  cbn [all_chars without]. intros H. apply andb_prop in H as [Hc Hd].
  destruct (Ascii.eqb c "."); [auto|].
  rewrite orb_false_r in Hc. cbn [all_chars]. now rewrite Hc, IH.
Qed.

Local Open Scope string_scope.

Lemma all_chars_app p a b : all_chars p (a ++ b) = all_chars p a && all_chars p b.
Proof.
  induction a as [|c a IH]; [reflexivity|]. cbn [append all_chars].
  now rewrite IH, andb_assoc.
Qed.

Lemma without_app c a b : without c (a ++ b) = without c a ++ without c b.
Proof.
  induction a as [|d a IH]; [reflexivity|]. cbn [append without].
  destruct (Ascii.eqb d c); [exact IH | cbn [append]; now rewrite IH].
Qed.

Lemma without_dot_digits a : all_chars is_digit a = true -> without "." a = a.
Proof.
  induction a as [|c a IH]; [reflexivity|]. cbn [all_chars without].
  intros H. apply andb_prop in H as [Hc Ha].
  destruct (Ascii.eqb_spec c ".") as [->|_]; [discriminate|]. now rewrite IH.
Qed.

Lemma all_chars_weaken (p q : ascii -> bool) a :
  (forall c, p c = true -> q c = true) -> all_chars p a = true -> all_chars q a = true.
Proof.
  intros Hpq. induction a as [|c a IH]; [reflexivity|]. cbn [all_chars].
  intros H. apply andb_prop in H as [Hc Ha]. now rewrite (Hpq _ Hc), IH.
Qed.

(** Three fields of digits, each followed by a full stop: the date without
    its full stops is the three fields one after the other. *)
Lemma without_date_fields a b c :
  all_chars is_digit a = true -> all_chars is_digit b = true ->
  all_chars is_digit c = true ->
  without "." (a ++ "." ++ b ++ "." ++ c ++ ".") = a ++ b ++ c.
Proof.
  intros Ha Hb Hc.
  change (a ++ "." ++ b ++ "." ++ c ++ ".")
    with (a ++ String "." (b ++ String "." (c ++ String "." ""))).
  rewrite without_app. cbn [without]. change (Ascii.eqb "." ".") with true. cbn iota.
  rewrite without_app. cbn [without]. change (Ascii.eqb "." ".") with true. cbn iota.
  rewrite without_app. cbn [without]. change (Ascii.eqb "." ".") with true. cbn iota.
  rewrite !without_dot_digits by assumption. now rewrite append_nil_r.
Qed.

Local Open Scope list_scope.

Section Delete.
Variable findById : string -> list document -> option document + exn.

(** ** The delete handler *)

(** C6.  When [findById] finds no entity for the identifier of the request,
    the handler passes to [next] an error of status 404 whose message ends
    with that identifier; it has only looked the entity up, [remove] is not
    called and the collection is as it was.  When it finds one, the handler
    removes it and answers 200 with the empty object as data. *)
Theorem deleteBootcamp_spec req w :
  (findById (id (params req)) (store w) = inl None ->
   deleteBootcamp findById req w
   = (Forwarded {| message := ("Bootcamp not found with id of " ++ id (params req))%string;
                   statusCode := 404 |},
      {| store := store w; calls := calls w ++ [Call_findById (id (params req))] |}))
  /\ (forall b,
        findById (id (params req)) (store w) = inl (Some b) ->
        deleteBootcamp findById req w
        = (Responded 200
             {| success := true;
                msg := Some ("Deleted a bootcamp. ID: " ++ id (params req))%string;
                count := None; pagination := None; data := Data_empty_object |},
           {| store := filter (fun d => negb (String.eqb (_id d) (_id b))) (store w);
              calls := calls w ++ [Call_findById (id (params req)); Call_remove (_id b)] |})).
Proof.
  split; [intros Hfind | intros b Hfind];
    unfold deleteBootcamp, asyncHandler, deleteBootcamp_fn, Bootcamp_findById,
      remove, settle, bind, log, get_store, put_store, ret; cbn [store calls];
    rewrite Hfind; cbn [store calls not_found]; rewrite <- ?app_assoc; reflexivity.
Qed.

End Delete.

Section Radius.
Variable exec : Query -> list document -> list document + exn.
Variable geocode : string -> list location + exn.
Variable StringToNumber : string -> float.

(** ** The radius handler *)

(** What the handler does with a list of locations that has an element. *)
Lemma getBootcampsByDistance_located req w first others :
  geocode (zipcode (params req)) = inl (first :: others) ->
  exists q,
    conditions q
    = centerSphere (longitude first) (latitude first)
        (StringToNumber (distance (params req)) / 6378)%float
    /\ getBootcampsByDistance exec geocode StringToNumber req w
       = (match exec q (store w) with
          | inl docs =>
              Responded 200
                {| success := true; msg := None; count := Some (List.length docs);
                   pagination := None; data := Data_documents docs |}
          | inr e => Rejected e
          end,
          {| store := store w;
             calls := calls w ++ [Call_geocode (zipcode (params req));
                                  Call_find (conditions q); Call_exec q] |}).
Proof.
  intros Hgeo.
  exists {| conditions := centerSphere (longitude first) (latitude first)
                            (StringToNumber (distance (params req)) / 6378)%float;
            populated := []; selected := None; sorted := None;
            skipped := None; limited := None |}.
  split; [reflexivity|].
  unfold getBootcampsByDistance, asyncHandler, getBootcampsByDistance_fn,
    geocoder_geocode, Bootcamp_find, Query_exec, settle, bind, log, get_store, ret, throw.
  cbn [store calls]. rewrite Hgeo. cbn [store calls conditions].
  rewrite <- !app_assoc.
  match goal with
  | |- context [exec ?q (store w)] => destruct (exec q (store w))
  end; reflexivity.
Qed.

(** C5.  When the geocoder gives at least one location, the conditions the
    handler gives to [find] are [$centerSphere] with centre
    [[longitude, latitude]] of the first location and with radius the
    distance divided by 6378; for latitude 34.0, longitude -118.2 and
    distance 10 the centre is [[-118.2, 34.0]] and the radius [10 / 6378]. *)
Theorem getBootcampsByDistance_radius req w first others :
  geocode (zipcode (params req)) = inl (first :: others) ->
  let cond :=
    VObj [("location",
           VObj [("$geoWithin",
                  VObj [("$centerSphere",
                         VArr [VArr [VNum (longitude first); VNum (latitude first)];
                               VNum (StringToNumber (distance (params req)) / 6378)%float])])])] in
  (exists q,
     calls (snd (getBootcampsByDistance exec geocode StringToNumber req w))
     = calls w ++ [Call_geocode (zipcode (params req)); Call_find cond; Call_exec q])
  /\ (latitude first = 34.0%float -> longitude first = (-118.2)%float ->
      StringToNumber (distance (params req)) = 10%float ->
      cond
      = VObj [("location",
               VObj [("$geoWithin",
                      VObj [("$centerSphere",
                             VArr [VArr [VNum (-118.2)%float; VNum 34.0%float];
                                   VNum (10 / 6378)%float])])])]).
Proof.
  intros Hgeo cond. split.
  - destruct (getBootcampsByDistance_located req w first others Hgeo) as (q & Hq & ->).
    exists q. cbn [snd calls]. now rewrite Hq.
  - intros Hlat Hlng Hd. subst cond. now rewrite Hlat, Hlng, Hd.
Qed.

(** C9.  The handler reads the first element of the geocoder's list with no
    guard.  On an empty list it throws before any call of [find]: the
    exception goes to the error handling through the wrapper, nothing is
    answered and only the geocoder was called.  On a list with an element the
    reads succeed: the handler goes on to [find] with the coordinates, and
    answers 200 unless the database rejects the query. *)
Theorem getBootcampsByDistance_first_location req w :
  (geocode (zipcode (params req)) = inl [] ->
   exists what,
     getBootcampsByDistance exec geocode StringToNumber req w
     = (Rejected (TypeError what),
        {| store := store w; calls := calls w ++ [Call_geocode (zipcode (params req))] |}))
  /\ (forall first others,
        geocode (zipcode (params req)) = inl (first :: others) ->
        exists q,
          calls (snd (getBootcampsByDistance exec geocode StringToNumber req w))
          = calls w ++ [Call_geocode (zipcode (params req));
                        Call_find (centerSphere (longitude first) (latitude first)
                                     (StringToNumber (distance (params req)) / 6378)%float);
                        Call_exec q]
          /\ forall docs,
               exec q (store w) = inl docs ->
               exists body w',
                 getBootcampsByDistance exec geocode StringToNumber req w
                 = (Responded 200 body, w')).
Proof.
  split.
  - intros Hgeo. eexists.
    unfold getBootcampsByDistance, asyncHandler, getBootcampsByDistance_fn,
      geocoder_geocode, settle, bind, log, ret, throw.
    cbn [store calls]. rewrite Hgeo. reflexivity.
  - intros first others Hgeo.
    destruct (getBootcampsByDistance_located req w first others Hgeo) as (q & Hq & Hrun).
    exists q. rewrite Hrun. cbn [snd calls]. rewrite Hq. split; [reflexivity|].
    intros docs ->. eauto.
Qed.

End Radius.

Section Upload.
Variable findById : string -> list document -> option document + exn.
Variable mv_error : string -> option string.
Variable toLocaleDateString : string.
Variable path_ext : string -> string.
Variable StringToNumber : string -> float.
Variable NumberToString : float -> string.
Variable FILE_MAX_UPLOAD_LIMIT : option string.
Variable FILE_UPLOAD_PATH : option string.

#[local] Abbreviation upload :=
  (bootcampUploadPhoto findById mv_error toLocaleDateString path_ext StringToNumber NumberToString
     FILE_MAX_UPLOAD_LIMIT FILE_UPLOAD_PATH).

(** ** The photo handler *)

(** C7.  For an entity that exists and an attached file whose MIME type does
    not start with [image], the handler passes an error of status 400 to
    [next]; the only call it made is the look-up of the entity, so [file.mv]
    was not called, and the collection is as it was. *)
Theorem bootcampUploadPhoto_not_an_image req w b fs file :
  findById (id (params req)) (store w) = inl (Some b) ->
  files req = Some fs ->
  get "file" fs = Some (One_file file) ->
  startsWith (mimetype file) "image" = false ->
  exists made,
    upload req w
    = (Forwarded {| message := "Please upload an image file."; statusCode := 400 |},
       {| store := store w; calls := calls w ++ made |})
    /\ made = [Call_findById (id (params req))]
    /\ forall destination, ~ In (Call_mv destination) made.
Proof.
  intros Hfind Hfiles Hfile Hmime. eexists. split; [|split; [reflexivity|]].
  - unfold bootcampUploadPhoto, asyncHandler, bootcampUploadPhoto_fn, Bootcamp_findById,
      settle, bind, log, get_store, ret. cbn [store calls].
    rewrite Hfind, Hfiles, Hfile, Hmime. reflexivity.
  - intros destination [H|[]]. discriminate.
Qed.

(** What the handler does once the request has passed the checks. *)
Lemma bootcampUploadPhoto_accepted req w b fs file :
  findById (id (params req)) (store w) = inl (Some b) ->
  files req = Some fs ->
  get "file" fs = Some (One_file file) ->
  startsWith (mimetype file) "image" = true ->
  (env_number StringToNumber FILE_MAX_UPLOAD_LIMIT <? size file)%float = false ->
  let file_name := photo_name toLocaleDateString path_ext b file in
  let destination := (template FILE_UPLOAD_PATH ++ "/" ++ file_name)%string in
  upload req w
  = match mv_error destination with
    | Some e =>
        (Forwarded {| message := "Problem with file upload. Try again later.";
                      statusCode := 500 |},
         {| store := store w;
            calls := calls w ++ [Call_findById (id (params req)); Call_mv destination;
                                 Call_console_log e] |})
    | None =>
        (Responded 200
           {| success := true; msg := Some "Uploaded photo succesfully.";
              count := None; pagination := None; data := Data_string file_name |},
         {| store := map (fun d => if String.eqb (_id d) (id (params req))
                                   then apply_update [("photo", VStr file_name)] d else d)
                       (store w);
            calls := calls w ++ [Call_findById (id (params req)); Call_mv destination;
                                 Call_findByIdAndUpdate (id (params req))
                                   [("photo", VStr file_name)]] |})
    end.
Proof.
  intros Hfind Hfiles Hfile Hmime Hsize file_name destination.
  unfold bootcampUploadPhoto, asyncHandler, bootcampUploadPhoto_fn, Bootcamp_findById,
    Bootcamp_findByIdAndUpdate, file_mv, console_log, settle, bind, log, get_store,
    put_store, ret.
  cbn [store calls]. rewrite Hfind, Hfiles, Hfile, Hmime, Hsize. cbn [negb store calls].
  fold file_name. fold destination.
  destruct (mv_error destination); cbn [store calls]; rewrite <- !app_assoc; reflexivity.
Qed.

(** C8, as amended.  An upload that passes the checks gets the name
    [BOOTCAMP_], the identifier of the entity, [_], the date as
    [toLocaleDateString] wrote it with its full stops taken out, and the
    extension of the name the file came with: that is the name in the
    destination given to [file.mv] and the data of an answer.  Nothing is
    padded: a date written as fields of digits, each followed by a full stop,
    leaves those digits, as many as the date had. *)
Theorem bootcampUploadPhoto_file_name req w b fs file :
  findById (id (params req)) (store w) = inl (Some b) ->
  files req = Some fs ->
  get "file" fs = Some (One_file file) ->
  startsWith (mimetype file) "image" = true ->
  (env_number StringToNumber FILE_MAX_UPLOAD_LIMIT <? size file)%float = false ->
  exists date file_name,
    date = without "." toLocaleDateString
    /\ file_name = ("BOOTCAMP_" ++ _id b ++ "_" ++ date ++ path_ext (name file))%string
    /\ (all_chars (fun c => is_digit c || Ascii.eqb c ".") toLocaleDateString = true ->
        all_chars is_digit date = true)
    /\ (forall day month year,
          all_chars is_digit day = true -> all_chars is_digit month = true ->
          all_chars is_digit year = true ->
          toLocaleDateString = (day ++ "." ++ month ++ "." ++ year ++ ".")%string ->
          date = (day ++ month ++ year)%string
          /\ String.length date
             = String.length day + String.length month + String.length year)
    /\ (exists rest,
          calls (snd (upload req w))
          = calls w ++ Call_findById (id (params req))
                       :: Call_mv (template FILE_UPLOAD_PATH ++ "/" ++ file_name)%string :: rest)
    /\ (forall status body w',
          upload req w = (Responded status body, w') -> data body = Data_string file_name).
Proof.
  intros Hfind Hfiles Hfile Hmime Hsize.
  exists (without "." toLocaleDateString), (photo_name toLocaleDateString path_ext b file).
  split; [reflexivity|].
  split; [unfold photo_name; now rewrite join_split|].
  split; [apply without_digits|].
  split.
  - intros day month year Hday Hmonth Hyear ->.
    rewrite without_date_fields by assumption.
    split; [reflexivity | rewrite !length_append; lia].
  - rewrite (bootcampUploadPhoto_accepted req w b fs file Hfind Hfiles Hfile Hmime Hsize).
    cbv zeta. split.
    + destruct (mv_error _); cbn [snd calls]; eexists; reflexivity.
    + intros status body w'. destruct (mv_error _); [discriminate|].
      intros [= <- <- <-]. reflexivity.
Qed.

(** C10.  When the move succeeds the handler calls [findByIdAndUpdate] once,
    with the identifier of the request and the update [{photo: name}]; after
    it every document has the identifier it had and, under every key other
    than [photo], the value it had, and a document with another identifier
    is as it was. *)
Theorem bootcampUploadPhoto_updates_photo_only req w b fs file :
  findById (id (params req)) (store w) = inl (Some b) ->
  files req = Some fs ->
  get "file" fs = Some (One_file file) ->
  startsWith (mimetype file) "image" = true ->
  (env_number StringToNumber FILE_MAX_UPLOAD_LIMIT <? size file)%float = false ->
  let file_name := photo_name toLocaleDateString path_ext b file in
  let destination := (template FILE_UPLOAD_PATH ++ "/" ++ file_name)%string in
  mv_error destination = None ->
  exists body w',
    upload req w = (Responded 200 body, w')
    /\ data body = Data_string file_name
    /\ calls w'
       = calls w ++ [Call_findById (id (params req)); Call_mv destination;
                     Call_findByIdAndUpdate (id (params req)) [("photo", VStr file_name)]]
    /\ Forall2
         (fun d d' =>
            _id d' = _id d
            /\ (forall k, k <> "photo" -> get k (fields d') = get k (fields d))
            /\ (_id d <> id (params req) -> d' = d)
            /\ (_id d = id (params req) -> get "photo" (fields d') = Some (VStr file_name)))
         (store w) (store w').
Proof.
  intros Hfind Hfiles Hfile Hmime Hsize file_name destination Hmv.
  rewrite (bootcampUploadPhoto_accepted req w b fs file Hfind Hfiles Hfile Hmime Hsize).
  cbv zeta. fold file_name. fold destination. rewrite Hmv.
  do 2 eexists. split; [reflexivity|]. split; [reflexivity|]. split; [reflexivity|].
  cbn [store]. apply Forall2_map_same. intros d.
  destruct (String.eqb_spec (_id d) (id (params req))) as [Heq|Hne].
  - cbn [apply_update fold_left fst snd _id fields]. repeat split.
    + intros k Hk. now apply get_set_field_other.
    + intros Hn; contradiction.
    + intros _. apply get_set_field_same.
  - repeat split; congruence.
Qed.

End Upload.

(** *** The handlers on some requests *)

Example deleteBootcamp_missing :
  deleteBootcamp Sample.find_by_id (Sample.id_request "5d725a1b7b292f5f8ceff788")
    Sample.world0
  = (Forwarded {| message := "Bootcamp not found with id of 5d725a1b7b292f5f8ceff788"%string;
                  statusCode := 404 |},
     {| store := [Sample.devworks; Sample.moderntech];
        calls := [Call_findById "5d725a1b7b292f5f8ceff788"] |}).
Proof. vm_compute. reflexivity. Qed.

Example deleteBootcamp_existing :
  deleteBootcamp Sample.find_by_id (Sample.id_request "5d713995b721c3bb38c1f5d0")
    Sample.world0
  = (Responded 200
       {| success := true;
          msg := Some "Deleted a bootcamp. ID: 5d713995b721c3bb38c1f5d0"%string;
          count := None; pagination := None; data := Data_empty_object |},
     {| store := [Sample.moderntech];
        calls := [Call_findById "5d713995b721c3bb38c1f5d0";
                  Call_remove "5d713995b721c3bb38c1f5d0"] |}).
Proof. vm_compute. reflexivity. Qed.

Example getBootcampsByDistance_nowhere :
  exists what,
    getBootcampsByDistance Sample.exec_all Sample.geocode_nothing Sample.to_number
      (Sample.radius_request "00000" "10") Sample.world0
    = (Rejected (TypeError what),
       {| store := store Sample.world0; calls := [Call_geocode "00000"] |}).
Proof. eexists. vm_compute. reflexivity. Qed.

(** *** Instances *)

Lemma getBootcampsByDistance_radius_witness :
  Sample.geocode_la "90001" = inl [{| latitude := 34.0; longitude := (-118.2) |}]
  /\ exists q,
       calls (snd (getBootcampsByDistance Sample.exec_all Sample.geocode_la Sample.to_number
                     (Sample.radius_request "90001" "10") Sample.world0))
       = [Call_geocode "90001";
          Call_find
            (VObj [("location",
                    VObj [("$geoWithin",
                           VObj [("$centerSphere",
                                  VArr [VArr [VNum (-118.2)%float; VNum 34.0%float];
                                        VNum (10 / 6378)%float])])])]);
          Call_exec q].
Proof.
  split; [reflexivity|].
  exact (proj1 (getBootcampsByDistance_radius Sample.exec_all Sample.geocode_la
                  Sample.to_number (Sample.radius_request "90001" "10") Sample.world0
                  _ _ eq_refl)).
Defined.

Lemma bootcampUploadPhoto_not_an_image_witness :
  Sample.find_by_id "5d713995b721c3bb38c1f5d0" (store Sample.world0)
  = inl (Some Sample.devworks)
  /\ startsWith (mimetype Sample.pdf) "image" = false
  /\ exists made,
       bootcampUploadPhoto Sample.find_by_id Sample.mv_ok "02.11.2026." Sample.ext_of
         Sample.to_number Sample.number_text (Some "1000000") (Some "./public/uploads")
         (Sample.upload_request "5d713995b721c3bb38c1f5d0" Sample.pdf) Sample.world0
       = (Forwarded {| message := "Please upload an image file."; statusCode := 400 |},
          {| store := store Sample.world0; calls := calls Sample.world0 ++ made |})
       /\ made = [Call_findById "5d713995b721c3bb38c1f5d0"]
       /\ forall destination, ~ In (Call_mv destination) made.
Proof.
  split; [reflexivity|]. split; [reflexivity|].
  exact (bootcampUploadPhoto_not_an_image Sample.find_by_id Sample.mv_ok "02.11.2026."
           Sample.ext_of Sample.to_number Sample.number_text (Some "1000000")
           (Some "./public/uploads")
           (Sample.upload_request "5d713995b721c3bb38c1f5d0" Sample.pdf) Sample.world0
           Sample.devworks _ Sample.pdf eq_refl eq_refl eq_refl eq_refl).
Defined.

Lemma bootcampUploadPhoto_file_name_witness :
  exists date file_name,
    file_name = "BOOTCAMP_5d713995b721c3bb38c1f5d0_02112026.jpg"%string
    /\ date = "02112026"%string
    /\ exists rest,
         calls (snd (bootcampUploadPhoto Sample.find_by_id Sample.mv_ok "02.11.2026."
                       Sample.ext_of Sample.to_number Sample.number_text (Some "1000000")
                       (Some "./public/uploads")
                       (Sample.upload_request "5d713995b721c3bb38c1f5d0" Sample.jpeg)
                       Sample.world0))
         = Call_findById "5d713995b721c3bb38c1f5d0"
           :: Call_mv ("./public/uploads/" ++ file_name)%string :: rest.
Proof.
  destruct (bootcampUploadPhoto_file_name Sample.find_by_id Sample.mv_ok "02.11.2026."
              Sample.ext_of Sample.to_number Sample.number_text (Some "1000000")
              (Some "./public/uploads")
              (Sample.upload_request "5d713995b721c3bb38c1f5d0" Sample.jpeg) Sample.world0
              Sample.devworks _ Sample.jpeg eq_refl eq_refl eq_refl eq_refl eq_refl)
    as (date & file_name & Hdate & Hname & _ & _ & Hcalls & _).
  exists date, file_name. subst date. split; [exact Hname|]. split; [reflexivity|].
  rewrite Hname in *. exact Hcalls.
Defined.

(** C8 as stated is false for the date [2.11.2026.], a day written without a
    leading zero: the upload passes every check and the file is moved under
    a name whose date part has seven digits, not eight. *)
Lemma bootcampUploadPhoto_file_name_counterexample :
  exists date rest,
    calls (snd (bootcampUploadPhoto Sample.find_by_id Sample.mv_ok "2.11.2026."
                  Sample.ext_of Sample.to_number Sample.number_text (Some "1000000")
                  (Some "./public/uploads")
                  (Sample.upload_request "5d713995b721c3bb38c1f5d0" Sample.jpeg)
                  Sample.world0))
    = Call_findById "5d713995b721c3bb38c1f5d0"
      :: Call_mv ("./public/uploads/BOOTCAMP_5d713995b721c3bb38c1f5d0_" ++ date ++ ".jpg")%string
      :: rest
    /\ date = without "." "2.11.2026."
    /\ date = "2112026"%string
    /\ String.length date <> 8.
Proof.
  exists "2112026"%string. eexists. split; [vm_compute; reflexivity|].
  split; [reflexivity|]. split; [reflexivity|]. discriminate.
Qed.

Lemma bootcampUploadPhoto_updates_photo_only_witness :
  Sample.mv_ok "./public/uploads/BOOTCAMP_5d713995b721c3bb38c1f5d0_02112026.jpg" = None
  /\ exists body w',
       bootcampUploadPhoto Sample.find_by_id Sample.mv_ok "02.11.2026." Sample.ext_of
         Sample.to_number Sample.number_text (Some "1000000") (Some "./public/uploads")
         (Sample.upload_request "5d713995b721c3bb38c1f5d0" Sample.jpeg) Sample.world0
       = (Responded 200 body, w')
       /\ store w'
          = [{| _id := "5d713995b721c3bb38c1f5d0";
                fields := [("name", VStr "Devworks Bootcamp");
                           ("photo", VStr "BOOTCAMP_5d713995b721c3bb38c1f5d0_02112026.jpg");
                           ("averageCost", VNum 10000)] |};
             Sample.moderntech].
Proof.
  split; [reflexivity|].
  destruct (bootcampUploadPhoto_updates_photo_only Sample.find_by_id Sample.mv_ok
              "02.11.2026." Sample.ext_of Sample.to_number Sample.number_text
              (Some "1000000") (Some "./public/uploads")
              (Sample.upload_request "5d713995b721c3bb38c1f5d0" Sample.jpeg) Sample.world0
              Sample.devworks _ Sample.jpeg eq_refl eq_refl eq_refl eq_refl eq_refl eq_refl)
    as (body & w' & Hrun & _).
  exists body, w'. split; [exact Hrun|].
  vm_compute in Hrun. injection Hrun as _ <-. reflexivity.
Defined.

End EntityFacts.

(* ================================================================== *)
(** ** Further properties of the list handler *)

Module MoreListFacts.
Import Js Json Regex Operators Store Controller Entity TextFacts ListFacts.
Local Open Scope list_scope.

(** ** Projection and sort texts *)

(** X1.  The regular-expression replace of lines 37 and 43 does what the
    line it replaced (kept as a comment, line 36) did: the text is split at
    the commas and the pieces are joined with spaces.  It keeps the length,
    and leaves no comma. *)
Theorem replace_commas_split_join s :
  replace_commas s = join " " (split "," s)
  /\ String.length (replace_commas s) = String.length s
  /\ contains "," (replace_commas s) = false.
Proof.
  split; [|split].
  - induction s as [|c s IH]; [reflexivity|].
    cbn [replace_commas split]. pose proof (EntityFacts.split_not_nil "," s) as Hne.
    destruct (Ascii.eqb_spec c ",") as [->|Hc].
    + rewrite IH. destruct (split "," s); [contradiction | reflexivity].
    + rewrite IH. destruct (split "," s) as [|p ps]; [contradiction|].
      destruct ps; reflexivity.
  - induction s as [|c s IH]; [reflexivity|]. cbn [replace_commas String.length].
    now rewrite IH.
  - induction s as [|c s IH]; [reflexivity|]. cbn [replace_commas contains strip_prefix].
    destruct (Ascii.eqb_spec c ",") as [->|Hc]; [exact IH|].
    destruct (Ascii.eqb_spec "," c) as [<-|_]; [contradiction | exact IH].
Qed.

Section List.
Variable exec : Query -> list document -> list document + exn.

(** The query the handler runs, in a request that is answered. *)
Lemma getBootcamps_query req w status body w' :
  getBootcamps exec req w = (Responded status body, w') ->
  exists f docs p l,
    Json.parse (queryStr req) = Some f
    /\ page_of req = Some p
    /\ limit_of req = Some l
    /\ let q := {| conditions := of_json f;
                   populated := ["courses"%string];
                   selected := match get "select" (query req) with
                               | Some (JStr (String c s)) => Some (replace_commas (String c s))
                               | _ => None
                               end;
                   sorted := match get "sort" (query req) with
                             | Some (JStr (String c s)) => Some (replace_commas (String c s))
                             | _ => Some "-createdAt"%string
                             end;
                   skipped := Some ((p - 1) * l)%Z;
                   limited := Some l |} in
       exec q (store w) = inl docs
       /\ calls w' = calls w ++ [Call_find (of_json f); Call_countDocuments None; Call_exec q]
       /\ store w' = store w
       /\ count body = Some (List.length docs)
       /\ data body = Data_documents docs
       /\ msg body = Some "Show all bootcamps."%string
       /\ success body = true.
Proof.
  unfold getBootcamps, asyncHandler, getBootcamps_fn, Bootcamp_find,
    Bootcamp_countDocuments, Query_exec, primitive, settle, bind, log, get_store, ret, throw.
  destruct (Json.parse (queryStr req)) as [f|]; [|discriminate].
  destruct w as [st cs].
  destruct (get "select" (query req)) as [[[|c1 s1]|?|?]|];
    destruct (get "sort" (query req)) as [[[|c2 s2]|?|?]|];
    cbn -[page_of limit_of Z.mul Z.sub Z.add Z.ltb replace_commas of_json];
    try discriminate;
    (destruct (page_of req) as [p|]; [|discriminate]);
    (destruct (limit_of req) as [l|]; [|discriminate]);
    cbn -[Z.mul Z.sub Z.add Z.ltb replace_commas of_json];
    match goal with
    | |- context [exec ?q st] => destruct (exec q st) as [docs|e] eqn:E
    end; intros H; try discriminate; injection H as <- <- <-;
    exists f, docs, p, l; (do 3 (split; [reflexivity|])); cbv zeta; rewrite E;
    cbn [calls store count data msg success]; rewrite <- ?app_assoc; repeat split.
Qed.


(** X3.  A [select] or [sort] that is not a text (the parameter came more
    than once, or with brackets) makes the handler throw a [TypeError] where
    it calls [.replace]: [find] was called, nothing was counted, no query
    ran and nothing is answered. *)
Theorem getBootcamps_not_a_text req w :
  distinct_keys (JObj (query req)) = true ->
  is_text (get "select" (query req)) && is_text (get "sort" (query req)) = false ->
  exists what,
    getBootcamps exec req w
    = (Rejected (TypeError what),
       {| store := store w;
          calls := calls w ++ [Call_find (of_json (rewrite_value (JObj (reqQuery req))))] |}).
Proof.
  intros Hd Htext.
  destruct (getBootcamps_run exec req w _ (parse_queryStr req Hd))
    as [(_ & what & ->) | [(Hyes & _) | (Hyes & _)]]; [eauto | congruence | congruence].
Qed.

(** X4.  The page and the limit the handler works with are never zero.  An
    absent parameter gives 1 for the page and 20 for the limit, and so does
    a text in which [parseInt] finds no number or finds zero; any other
    safe integer a text starts with is taken as it is, a negative one too.  A
    parameter that is an object with a key [toString] cannot be converted:
    the handler throws a [TypeError] after [find], and nothing is counted.
    No query runs with a limit of zero. *)
Theorem getBootcamps_page_limit_fallback req w :
  (forall p, page_of req = Some p -> p <> 0%Z)
  /\ (forall l, limit_of req = Some l -> l <> 0%Z)
  /\ (get "page" (query req) = None -> page_of req = Some 1%Z)
  /\ (get "limit" (query req) = None -> limit_of req = Some 20%Z)
  /\ (forall s,
        Num.parseInt s = None \/ Num.parseInt s = Some 0%Z ->
        (get "page" (query req) = Some (JStr s) -> page_of req = Some 1%Z)
        /\ (get "limit" (query req) = Some (JStr s) -> limit_of req = Some 20%Z))
  /\ (forall s n,
        Num.parseInt s = Some n -> n <> 0%Z -> Num.isSafeInteger n = true ->
        (get "page" (query req) = Some (JStr s) -> page_of req = Some n)
        /\ (get "limit" (query req) = Some (JStr s) -> limit_of req = Some n))
  /\ (forall members v,
        get "toString" members = Some v ->
        (get "page" (query req) = Some (JObj members) -> page_of req = None)
        /\ (get "limit" (query req) = Some (JObj members) -> limit_of req = None))
  /\ (distinct_keys (JObj (query req)) = true ->
      is_text (get "select" (query req)) && is_text (get "sort" (query req)) = true ->
      page_of req = None \/ limit_of req = None ->
      exists what,
        getBootcamps exec req w
        = (Rejected (TypeError what),
           {| store := store w;
              calls := calls w
                       ++ [Call_find (of_json (rewrite_value (JObj (reqQuery req))))] |}))
  /\ (forall q, In (Call_exec q) (calls (snd (getBootcamps exec req w))) ->
      ~ In (Call_exec q) (calls w) -> limited q <> Some 0%Z).
Proof.
  assert (Hnz : forall x d n, d <> 0%Z -> Num.parseInt_or x d = Some n -> n <> 0%Z).
  { intros x d n Hd. unfold Num.parseInt_or.
    destruct (match x with Some v => Json.to_string v | None => Some "undefined"%string end);
      [|discriminate].
    intros [= <-]. destruct (Num.parseInt _) as [m|]; [|exact Hd].
    destruct (Z.eqb_spec m 0); [exact Hd | assumption]. }
  assert (Htext : forall s d,
             Num.parseInt_or (Some (JStr s)) d
             = Some match Num.parseInt s with None | Some 0%Z => d | Some n => n end).
  { intros s d. unfold Num.parseInt_or. cbn [Json.to_string].
    destruct (Num.parseInt s) as [[|n|n]|]; reflexivity. }
  assert (Hobj : forall members v d,
             get "toString" members = Some v ->
             Num.parseInt_or (Some (JObj members)) d = None).
  { intros members v d Hget. unfold Num.parseInt_or. cbn [Json.to_string].
    replace (existsb _ members) with true; [reflexivity|]. symmetry.
    induction members as [|[k x] members IH]; [discriminate|].
    cbn [get] in Hget. cbn [existsb fst].
    destruct (String.eqb k "toString"); [reflexivity | cbn [orb]; auto]. }
  split; [intros p; apply Hnz; discriminate|].
  split; [intros l; apply Hnz; discriminate|].
  split; [unfold page_of; now intros ->|].
  split; [unfold limit_of; now intros ->|].
  split.
  { intros s Hs. split; intros Hget; [unfold page_of | unfold limit_of];
      rewrite Hget, Htext; destruct Hs as [-> | ->]; reflexivity. }
  split.
  { intros s n Hs Hn _. split; intros Hget; [unfold page_of | unfold limit_of];
      rewrite Hget, Htext, Hs; destruct n; first [congruence | reflexivity]. }
  split.
  { intros members v Hget. split; intros Hs; [unfold page_of | unfold limit_of];
      rewrite Hs; now apply (Hobj members v). }
  split.
  - intros Hd Htxt Hnone.
    destruct (getBootcamps_run exec req w _ (parse_queryStr req Hd))
      as [(Hno & _) | [(_ & _ & what & ->) | (_ & p & l & q & Hp & Hl & _)]].
    + congruence.
    + eauto.
    + destruct Hnone; congruence.
  - intros q Hin Hnew.
    destruct (Json.parse (queryStr req)) as [f|] eqn:Hparse.
    + destruct (getBootcamps_run exec req w f Hparse)
        as [(_ & what & Hrun) | [(_ & _ & what & Hrun)
                                | (_ & p & l & q0 & _ & Hl & _ & _ & Hlim & Hrun)]];
        rewrite Hrun in Hin; cbn [snd calls] in Hin.
      * apply in_app_or in Hin as [Hin|Hin]; [contradiction|].
        destruct Hin as [Hin|[]]; discriminate.
      * apply in_app_or in Hin as [Hin|Hin]; [contradiction|].
        destruct Hin as [Hin|[]]; discriminate.
      * apply in_app_or in Hin as [Hin|Hin].
        -- apply in_app_or in Hin as [Hin|Hin]; [contradiction|].
           destruct Hin as [Hin|[]]; discriminate.
        -- destruct Hin as [Hin|[Hin|[]]]; [discriminate|].
           injection Hin as <-. rewrite Hlim. intros [= ->].
           assert (H20 : 20%Z <> 0%Z) by discriminate.
           exact (Hnz _ _ _ H20 Hl eq_refl).
    + rewrite (getBootcamps_unparsed exec req w Hparse) in Hin. contradiction.
Qed.

(** X5.  In an answer [next] names the page after the one asked for and
    [prev] the page before it, both with the limit of the request, when
    these numbers are safe integers.  The links lead somewhere: for a
    positive limit and a page from 1 on, the page [next] names has a [prev],
    and the page [prev] names has a [next] when the page asked for starts
    inside the collection. *)
Theorem getBootcamps_links req w status body w' pg p l :
  getBootcamps exec req w = (Responded status body, w') ->
  pagination body = Some pg ->
  page_of req = Some p ->
  limit_of req = Some l ->
  Num.isSafeInteger l = true ->
  Num.isSafeInteger (p - 1) = true ->
  Num.isSafeInteger (p + 1) = true ->
  (forall r, next pg = Some r -> page r = (p + 1)%Z /\ limit r = l)
  /\ (forall r, prev pg = Some r -> page r = (p - 1)%Z /\ limit r = l)
  /\ (forall req' status' body' w'' pg',
        getBootcamps exec req' w = (Responded status' body', w'') ->
        pagination body' = Some pg' ->
        limit_of req' = Some l ->
        (0 < l)%Z -> (0 < p)%Z ->
        (forall r, next pg = Some r -> page_of req' = Some (page r) -> prev pg' <> None)
        /\ (forall r, prev pg = Some r -> page_of req' = Some (page r) ->
            ((p - 1) * l < Z.of_nat (List.length (store w)))%Z ->
            next pg' <> None)).
Proof.
  intros Hrun Hpg Hp Hl _ _ _.
  destruct (getBootcamps_answer _ _ _ _ _ _ Hrun) as (p0 & l0 & Hp0 & Hl0 & _ & _ & _ & Hpg0).
  assert (p0 = p) by congruence. assert (l0 = l) by congruence. subst p0 l0.
  rewrite Hpg in Hpg0. injection Hpg0 as ->. cbn [next prev].
  split; [|split].
  - intros r. destruct (_ <? _)%Z; [|discriminate]. intros [= <-]. now split.
  - intros r. destruct (0 <? _)%Z; [|discriminate]. intros [= <-]. now split.
  - intros req' status' body' w'' pg' Hrun' Hpg' Hl' Hlpos Hppos.
    destruct (getBootcamps_answer _ _ _ _ _ _ Hrun')
      as (p1 & l1 & Hp1 & Hl1 & _ & _ & _ & Hpg1).
    assert (l1 = l) by congruence. subst l1.
    rewrite Hpg' in Hpg1. injection Hpg1 as ->. cbn [next prev].
    split.
    + intros r. destruct (p * l <? _)%Z; [|discriminate].
      intros [= <-]. cbn [page]. intros Hp'.
      assert (p1 = (p + 1)%Z) by congruence. subst p1.
      rewrite option_if_some, Z.ltb_lt. nia.
    + intros r. destruct (0 <? (p - 1) * l)%Z; [|discriminate].
      intros [= <-]. cbn [page]. intros Hp' Hin.
      assert (p1 = (p - 1)%Z) by congruence. subst p1.
      rewrite option_if_some, Z.ltb_lt. exact Hin.
Qed.

(** X6.  In an answer of the list handler [count] is the number of
    documents in [data], the page the query gave, not the number of
    documents of the collection; the status is 200. *)
Theorem getBootcamps_count_is_page_size req w status body w' :
  getBootcamps exec req w = (Responded status body, w') ->
  status = 200%Z
  /\ success body = true
  /\ exists q docs l,
       limit_of req = Some l
       /\ exec q (store w) = inl docs
       /\ limited q = Some l
       /\ data body = Data_documents docs
       /\ count body = Some (List.length docs).
Proof.
  intros Hrun.
  destruct (getBootcamps_answer _ _ _ _ _ _ Hrun) as (_ & _ & _ & _ & -> & _).
  destruct (getBootcamps_query _ _ _ _ _ Hrun) as (f & docs & p & l & _ & _ & Hl & H).
  cbv zeta in H. destruct H as (Hexec & _ & _ & Hcount & Hdata & _ & Hok).
  split; [reflexivity|]. split; [exact Hok|].
  eexists; exists docs, l. split; [exact Hl|]. split; [exact Hexec|]. now split.
Qed.

(** X7.  The list handler only reads: whatever the request and however it
    ends, the collection is as it was, and the calls it made are the first
    ones of [find], [countDocuments()] and the run of the query, in this
    order, the query having the conditions given to [find]. *)
Theorem getBootcamps_reads_only req w :
  store (snd (getBootcamps exec req w)) = store w
  /\ exists made f q later,
       calls (snd (getBootcamps exec req w)) = calls w ++ made
       /\ made ++ later = [Call_find f; Call_countDocuments None; Call_exec q]
       /\ conditions q = f.
Proof.
  pose (nothing := {| conditions := VObj []; populated := []; selected := None;
                      sorted := None; skipped := None; limited := None |}).
  destruct (Json.parse (queryStr req)) as [f|] eqn:Hparse.
  - destruct (getBootcamps_run exec req w f Hparse)
      as [(_ & what & ->) | [(_ & _ & what & ->)
                            | (_ & p & l & q & _ & _ & Hq & _ & _ & ->)]]; cbn [snd store calls].
    + split; [reflexivity|].
      exists [Call_find (of_json f)], (of_json f),
        {| conditions := of_json f; populated := []; selected := None;
           sorted := None; skipped := None; limited := None |}.
      eexists. split; [reflexivity|]. split; reflexivity.
    + split; [reflexivity|].
      exists [Call_find (of_json f)], (of_json f),
        {| conditions := of_json f; populated := []; selected := None;
           sorted := None; skipped := None; limited := None |}.
      eexists. split; [reflexivity|]. split; reflexivity.
    + split; [reflexivity|]. rewrite <- app_assoc.
      exists [Call_find (of_json f); Call_countDocuments None; Call_exec q], (of_json f), q, [].
      split; [reflexivity|]. split; [reflexivity | exact Hq].
  - rewrite (getBootcamps_unparsed exec req w Hparse). cbn [snd].
    split; [reflexivity|]. exists [], (VObj []), nothing. eexists.
    split; [now rewrite app_nil_r|]. split; reflexivity.
Qed.

(** *** Queries without keywords *)

Lemma plain_string_unchanged s : plain_string s = true -> rewrite_str s = s.
Proof.
  unfold plain_string. rewrite !andb_true_iff, !negb_true_iff.
  intros [[H1 H2] H3]. now apply rewrite_str_unchanged.
Qed.

Lemma keyword_free_unchanged v : keyword_free v = true -> rewrite_value v = v.
Proof.
  unfold rewrite_value.
  induction v as [s|items IH|members IH] using json_induction; cbn [keyword_free map_strings].
  - intros H. now rewrite plain_string_unchanged.
  - intros H. f_equal. rewrite forallb_forall in H. rewrite Forall_forall in IH.
    rewrite <- (map_id items) at 2. apply map_ext_in. auto.
  - intros H. f_equal. rewrite forallb_forall in H. rewrite Forall_forall in IH.
    rewrite <- (map_id members) at 2. apply map_ext_in. intros [k v] Hin.
    specialize (H _ Hin). cbn [fst snd] in *. apply andb_prop in H as [Hk Hv].
    rewrite plain_string_unchanged by exact Hk. f_equal. exact (IH _ Hin Hv).
Qed.

(** X8.  A query none of whose keys and strings holds [gt], [lt] or [in]
    comes out of lines 23-32 as it went in: the conditions given to [find]
    are the query without [select], [sort], [page] and [limit]. *)
Theorem getBootcamps_plain_query req w :
  distinct_keys (JObj (query req)) = true ->
  keyword_free (JObj (reqQuery req)) = true ->
  exists rest,
    calls (snd (getBootcamps exec req w))
    = calls w ++ Call_find (of_json (JObj (reqQuery req))) :: rest.
Proof.
  intros Hd Hfree.
  destruct (getBootcamps_find_call exec req w Hd) as (rest & Hcalls & _).
  exists rest. now rewrite Hcalls, (keyword_free_unchanged _ Hfree).
Qed.

(** *** The query can be read back from the conditions *)

Lemma erase_rewrite_value v : map_strings (erase 0) (rewrite_value v) = v.
Proof.
  unfold rewrite_value.
  induction v as [s|items IH|members IH] using json_induction; cbn [map_strings].
  - now rewrite erase_rewrite_str.
  - f_equal. rewrite map_map. rewrite <- (map_id items) at 2.
    apply map_ext_Forall. exact IH.
  - f_equal. rewrite map_map. rewrite <- (map_id members) at 2.
    apply map_ext_Forall. revert IH. apply Forall_impl. intros [k v] Hv.
    cbn [fst snd] in *. now rewrite erase_rewrite_str, Hv.
Qed.

Lemma of_json_inj v : forall v', of_json v = of_json v' -> v = v'.
Proof.
  induction v as [s|items IH|members IH] using json_induction;
    intros [s'|items'|members']; cbn [of_json]; try discriminate.
  - now intros [= ->].
  - intros [= H]. f_equal. revert items' H.
    induction IH as [|v items Hv _ IHl]; intros [|v' items']; cbn [map];
      try discriminate; [reflexivity|].
    intros [= H1 H2]. f_equal; auto.
  - intros [= H]. f_equal. revert members' H.
    induction IH as [|[k v] members Hv _ IHl]; intros [|[k' v'] members']; cbn [map fst snd];
      try discriminate; [reflexivity|].
    intros [= -> H1 H2]. cbn [snd] in Hv. f_equal; [f_equal|]; auto.
Qed.

(** X9.  The operator rewriting loses nothing: two requests for which
    [find] gets the same conditions have the same query, [select], [sort],
    [page] and [limit] apart. *)
Theorem getBootcamps_conditions_determine_query req1 w1 req2 w2 f rest1 rest2 :
  distinct_keys (JObj (query req1)) = true ->
  distinct_keys (JObj (query req2)) = true ->
  calls (snd (getBootcamps exec req1 w1)) = calls w1 ++ Call_find f :: rest1 ->
  calls (snd (getBootcamps exec req2 w2)) = calls w2 ++ Call_find f :: rest2 ->
  reqQuery req1 = reqQuery req2.
Proof.
  intros Hd1 Hd2 H1 H2.
  destruct (getBootcamps_find_call exec req1 w1 Hd1) as (r1 & E1 & _).
  destruct (getBootcamps_find_call exec req2 w2 Hd2) as (r2 & E2 & _).
  rewrite E1 in H1. rewrite E2 in H2.
  apply app_inv_head in H1, H2.
  assert (H : of_json (rewrite_value (JObj (reqQuery req1)))
              = of_json (rewrite_value (JObj (reqQuery req2)))) by congruence.
  apply of_json_inj in H.
  apply (f_equal (map_strings (erase 0))) in H.
  rewrite !erase_rewrite_value in H. now injection H.
Qed.

End List.

(** *** The handler on [?page[toString]=x] *)

Example getBootcamps_page_object :
  page_of MoreSamples.page_object = None
  /\ exists what,
       getBootcamps Sample.exec_all MoreSamples.page_object Sample.world0
       = (Rejected (TypeError what),
          {| store := store Sample.world0; calls := [Call_find (VObj [])] |}).
Proof. split; [reflexivity|]. eexists. vm_compute. reflexivity. Qed.

(** *** Instances *)


Lemma getBootcamps_not_a_text_witness :
  exists what,
    getBootcamps Sample.exec_all MoreSamples.select_twice Sample.world0
    = (Rejected (TypeError what),
       {| store := store Sample.world0; calls := [Call_find (VObj [])] |}).
Proof.
  exact (getBootcamps_not_a_text Sample.exec_all MoreSamples.select_twice Sample.world0
           eq_refl eq_refl).
Defined.

Lemma getBootcamps_links_witness :
  exists body w' pg r,
    getBootcamps Sample.exec_all MoreSamples.first_of_two Sample.world0
    = (Responded 200 body, w')
    /\ pagination body = Some pg
    /\ next pg = Some r /\ page r = 2%Z /\ limit r = 1%Z.
Proof.
  do 4 eexists. split; [reflexivity|]. split; [reflexivity|]. split; [reflexivity|].
  exact (proj1 (getBootcamps_links Sample.exec_all MoreSamples.first_of_two Sample.world0
                  _ _ _ _ 1 1 eq_refl eq_refl eq_refl eq_refl eq_refl eq_refl eq_refl)
           _ eq_refl).
Defined.

Lemma getBootcamps_count_is_page_size_witness :
  exists q docs,
    Sample.exec_all q (store Sample.world0) = inl docs
    /\ limited q = Some 20%Z
    /\ List.length docs = 2.
Proof.
  destruct (getBootcamps_count_is_page_size Sample.exec_all MoreSamples.devworks_page1
              Sample.world0 _ _ _ eq_refl)
    as (_ & _ & q & docs & l & Hl & Hexec & Hlim & _ & Hcount).
  injection Hl as <-.
  exists q, docs. split; [exact Hexec|]. split; [exact Hlim|].
  now injection Hcount.
Defined.

Lemma getBootcamps_plain_query_witness :
  exists rest,
    calls (snd (getBootcamps Sample.exec_all MoreSamples.devworks_page1 Sample.world0))
    = Call_find (VObj [("name"%string, VStr "Devworks")]) :: rest.
Proof.
  exact (getBootcamps_plain_query Sample.exec_all MoreSamples.devworks_page1 Sample.world0
           eq_refl eq_refl).
Defined.

Lemma getBootcamps_conditions_determine_query_witness :
  reqQuery Sample.cheap_page2 = reqQuery MoreSamples.cheap_sorted.
Proof.
  exact (getBootcamps_conditions_determine_query Sample.exec_all
           Sample.cheap_page2 Sample.world0 MoreSamples.cheap_sorted Sample.world0
           (VObj [("averageCost"%string, VObj [("$lte"%string, VStr "10000")])]) _ _
           eq_refl eq_refl eq_refl eq_refl).
Defined.

End MoreListFacts.

(* ================================================================== *)
(** ** Further properties of the handlers of one entity, of the radius and of the photo *)

Module MoreEntityFacts.
Import Js Json Store Controller Entity EntityFacts.
Local Open Scope list_scope.
#[local] Set Warnings "-inexact-float".

(** *** Comparisons of numbers *)

Lemma nan_ltb x : (nan <? x)%float = false.
Proof.
  rewrite FloatAxioms.ltb_spec. change (FloatOps.Prim2SF nan) with SpecFloat.S754_nan. reflexivity.
Qed.

Lemma ltb_irrefl x : (x <? x)%float = false.
Proof.
  rewrite FloatAxioms.ltb_spec. unfold SpecFloat.SFltb.
  destruct (FloatOps.Prim2SF x) as [s|s| |s m e]; cbn [SpecFloat.SFcompare].
  - reflexivity.
  - destruct s; reflexivity.
  - reflexivity.
  - rewrite Z.compare_refl, Pos.compare_refl. destruct s; reflexivity.
Qed.

(** *** Looking a document up by its identifier *)

Lemma find_by_id_removed i b s :
  List.find (by_id i) s = Some b ->
  List.find (by_id i) (filter (fun d => negb (String.eqb (_id d) (_id b))) s) = None.
Proof.
  intros Hfind. apply find_some in Hfind as [_ Hb]. unfold by_id in *.
  apply String.eqb_eq in Hb. rewrite Hb. clear Hb.
  induction s as [|d s IH]; [reflexivity|]. cbn [filter].
  destruct (String.eqb (_id d) i) eqn:E; cbn [negb]; [exact IH|].
  cbn [List.find]. now rewrite E.
Qed.

Lemma find_by_id_kept i j s :
  i <> j ->
  List.find (by_id j) (filter (fun d => negb (String.eqb (_id d) i)) s) = List.find (by_id j) s.
Proof.
  intros Hne. unfold by_id. induction s as [|d s IH]; [reflexivity|]. cbn [filter List.find].
  destruct (String.eqb_spec (_id d) i) as [Hi|Hi]; cbn [negb List.find].
  - destruct (String.eqb_spec (_id d) j); [congruence | exact IH].
  - destruct (String.eqb (_id d) j); [reflexivity | exact IH].
Qed.

Lemma find_by_id_updated i u s :
  List.find (by_id i)
    (map (fun d => if String.eqb (_id d) i then apply_update u d else d) s)
  = option_map (apply_update u) (List.find (by_id i) s).
Proof.
  unfold by_id. induction s as [|d s IH]; [reflexivity|]. cbn [map List.find].
  destruct (String.eqb (_id d) i) eqn:E.
  - cbn [apply_update _id]. now rewrite E.
  - now rewrite E.
Qed.

Section Handlers.
Variable exec : Query -> list document -> list document + exn.
Variable findById : string -> list document -> option document + exn.
Variable geocode : string -> list location + exn.
Variable create : list (string * value) -> list document -> document * list document + exn.
Variable findByIdAndUpdate :
  string -> list (string * value) -> list document -> option document * list document + exn.
Variable mv_error : string -> option string.
Variable toLocaleDateString : string.
Variable path_ext : string -> string.
Variable StringToNumber : string -> float.
Variable NumberToString : float -> string.
Variable FILE_MAX_UPLOAD_LIMIT : option string.
Variable FILE_UPLOAD_PATH : option string.

#[local] Abbreviation upload :=
  (bootcampUploadPhoto findById mv_error toLocaleDateString path_ext StringToNumber NumberToString
     FILE_MAX_UPLOAD_LIMIT FILE_UPLOAD_PATH).
#[local] Abbreviation max_size := (env_number StringToNumber FILE_MAX_UPLOAD_LIMIT).

(** The photo handler, step by step. *)
Lemma bootcampUploadPhoto_run req w :
  upload req w
  = match findById (id (params req)) (store w) with
    | inr e => (Rejected e, looked_up req w)
    | inl None => (Forwarded (not_found (id (params req))), looked_up req w)
    | inl (Some b) =>
        match files req with
        | None =>
            (Forwarded {| message := "Please upload a file."; statusCode := 400 |},
             looked_up req w)
        | Some fs =>
            match get "file" fs with
            | None =>
                (Rejected (TypeError "Cannot read properties of undefined (reading 'mimetype')"),
                 looked_up req w)
            | Some (Many_files _) =>
                (Rejected
                   (TypeError "Cannot read properties of undefined (reading 'startsWith')"),
                 looked_up req w)
            | Some (One_file file) =>
                if negb (startsWith (mimetype file) "image") then
                  (Forwarded {| message := "Please upload an image file."; statusCode := 400 |},
                   looked_up req w)
                else if (max_size <? size file)%float then
                  (Forwarded
                     {| message := ("Please upload an image less than "
                                    ++ NumberToString (max_size / 1000000)%float ++ "mb.")%string;
                        statusCode := 400 |},
                   looked_up req w)
                else
                  let file_name := photo_name toLocaleDateString path_ext b file in
                  let destination := (template FILE_UPLOAD_PATH ++ "/" ++ file_name)%string in
                  match mv_error destination with
                  | Some e =>
                      (Forwarded {| message := "Problem with file upload. Try again later.";
                                    statusCode := 500 |},
                       {| store := store w;
                          calls := calls w ++ [Call_findById (id (params req));
                                               Call_mv destination; Call_console_log e] |})
                  | None =>
                      (Responded 200
                         {| success := true; msg := Some "Uploaded photo succesfully."%string;
                            count := None; pagination := None; data := Data_string file_name |},
                       {| store := map (fun d => if String.eqb (_id d) (id (params req))
                                                 then apply_update [("photo"%string, VStr file_name)] d
                                                 else d) (store w);
                          calls := calls w ++ [Call_findById (id (params req));
                                               Call_mv destination;
                                               Call_findByIdAndUpdate (id (params req))
                                                 [("photo"%string, VStr file_name)]] |})
                  end
            end
        end
    end.
Proof.
  unfold bootcampUploadPhoto, asyncHandler, bootcampUploadPhoto_fn, Bootcamp_findById,
    Bootcamp_findByIdAndUpdate, file_mv, console_log, settle, bind, log, get_store,
    put_store, ret, throw, looked_up.
  cbn [store calls].
  destruct (findById (id (params req)) (store w)) as [[b|]|e]; try reflexivity.
  destruct (files req) as [fs|]; try reflexivity.
  destruct (get "file" fs) as [[file|?]|]; try reflexivity.
  destruct (negb (startsWith (mimetype file) "image")); try reflexivity.
  destruct (max_size <? size file)%float; try reflexivity.
  cbv zeta. cbn [store calls].
  destruct (mv_error _); cbn [store calls]; rewrite <- !app_assoc; reflexivity.
Qed.

(** ** The look-up of an entity *)

(** What [getBootcamp] answers is decided by the look-up. *)
Lemma getBootcamp_run req w :
  getBootcamp findById req w
  = (match findById (id (params req)) (store w) with
     | inl (Some b) =>
         Answered 200 {| entity_success := true;
                         entity_msg := ("Get a bootcamp. ID: " ++ id (params req))%string;
                         entity_data := b |}
     | inl None => Passed (not_found (id (params req)))
     | inr e => Thrown e
     end,
     looked_up req w).
Proof.
  unfold getBootcamp, asyncHandler_entity, getBootcamp_fn, Bootcamp_findById, settle,
    bind, log, get_store, ret, throw, looked_up.
  cbn [store calls].
  destruct (findById (id (params req)) (store w)) as [[b|]|e]; reflexivity.
Qed.

(** What [deleteBootcamp] does is decided by the look-up. *)
Lemma deleteBootcamp_run req w :
  deleteBootcamp findById req w
  = match findById (id (params req)) (store w) with
    | inl (Some b) =>
        (Responded 200
           {| success := true;
              msg := Some ("Deleted a bootcamp. ID: " ++ id (params req))%string;
              count := None; pagination := None; data := Data_empty_object |},
         {| store := filter (fun d => negb (String.eqb (_id d) (_id b))) (store w);
            calls := calls w ++ [Call_findById (id (params req)); Call_remove (_id b)] |})
    | inl None => (Forwarded (not_found (id (params req))), looked_up req w)
    | inr e => (Rejected e, looked_up req w)
    end.
Proof.
  unfold deleteBootcamp, asyncHandler, deleteBootcamp_fn, Bootcamp_findById, remove,
    settle, bind, log, get_store, put_store, ret, throw, looked_up.
  cbn [store calls].
  destruct (findById (id (params req)) (store w)) as [[b|]|e]; cbn [store calls];
    rewrite <- ?app_assoc; reflexivity.
Qed.

(** X10.  [getBootcamp] only reads: it makes one call, the look-up of the
    identifier of the request, and leaves the collection as it was.  What it
    answers is decided by the look-up alone: status 200 with the entity found
    as data, the 404 error for null, and the rejection of the look-up handed
    on as it is. *)
Theorem getBootcamp_outcome req w :
  snd (getBootcamp findById req w) = looked_up req w
  /\ (forall status body,
        fst (getBootcamp findById req w) = Answered status body <->
        status = 200%Z
        /\ findById (id (params req)) (store w) = inl (Some (entity_data body))
        /\ entity_success body = true
        /\ entity_msg body = ("Get a bootcamp. ID: " ++ id (params req))%string)
  /\ (forall err,
        fst (getBootcamp findById req w) = Passed err <->
        findById (id (params req)) (store w) = inl None
        /\ err = {| message := ("Bootcamp not found with id of " ++ id (params req))%string;
                    statusCode := 404 |})
  /\ (forall e,
        fst (getBootcamp findById req w) = Thrown e <->
        findById (id (params req)) (store w) = inr e).
Proof.
  unfold getBootcamp, asyncHandler_entity, getBootcamp_fn, Bootcamp_findById, settle,
    bind, log, get_store, ret, throw, looked_up, not_found.
  cbn [store calls].
  destruct (findById (id (params req)) (store w)) as [[b|]|e]; cbn [fst snd].
  - split; [reflexivity|]. split; [|split].
    + intros status [ok m d]. cbn [entity_data entity_success entity_msg]. split.
      * intros [= <- <- <- <-]. repeat split.
      * intros (-> & [= ->] & -> & ->). reflexivity.
    + intros err. split; [discriminate | intros [[=] _]].
    + intros e. split; discriminate.
  - split; [reflexivity|]. split; [|split].
    + intros status body. split; [discriminate | intros (_ & [=] & _)].
    + intros err. split; [intros [= <-]; now split | intros [_ ->]; reflexivity].
    + intros e. split; discriminate.
  - split; [reflexivity|]. split; [|split].
    + intros status body. split; [discriminate | intros (_ & [=] & _)].
    + intros err. split; [discriminate | intros [[=] _]].
    + intros e'. split; [intros [= <-]; reflexivity | intros [= <-]; reflexivity].
Qed.

(** X11.  One 404 for the four handlers that work on one entity: when the
    data layer has no entity for the identifier, each passes to [next] the
    error [Bootcamp not found with id of <id>] with status 404.  The photo
    handler does so whatever was uploaded, its checks of the file come
    after; the three that looked the entity up have made that call only and
    the collection is as it was. *)
Theorem not_found_everywhere req w (b : list (string * value)) docs :
  findById (id (params req)) (store w) = inl None ->
  findByIdAndUpdate (id (params req)) b (store w) = inl (None, docs) ->
  let err := {| message := ("Bootcamp not found with id of " ++ id (params req))%string;
                statusCode := 404 |} in
  getBootcamp findById req w = (Passed err, looked_up req w)
  /\ deleteBootcamp findById req w = (Forwarded err, looked_up req w)
  /\ upload req w = (Forwarded err, looked_up req w)
  /\ fst (updateBootcamp findByIdAndUpdate {| head_of := req; body := b |} w) = Passed err.
Proof.
  intros Hfind Hupdate err. split; [|split; [|split]].
  - rewrite getBootcamp_run, Hfind. reflexivity.
  - rewrite deleteBootcamp_run, Hfind. reflexivity.
  - rewrite bootcampUploadPhoto_run, Hfind. reflexivity.
  - unfold updateBootcamp, asyncHandler_entity, updateBootcamp_fn, settle,
      bind, log, get_store, put_store, ret. cbn [store calls head_of body].
    rewrite Hupdate. reflexivity.
Qed.

(** X12.  A rejection of the look-up (an identifier the data layer cannot
    cast, a lost connection) is not answered by the handlers: each of the
    three that look the entity up hands the very rejection to the error
    handling, after that one call and with the collection as it was. *)
Theorem lookup_rejection_forwarded req w e :
  findById (id (params req)) (store w) = inr e ->
  getBootcamp findById req w = (Thrown e, looked_up req w)
  /\ deleteBootcamp findById req w = (Rejected e, looked_up req w)
  /\ upload req w = (Rejected e, looked_up req w).
Proof.
  intros Hfind. split; [|split].
  - rewrite getBootcamp_run, Hfind. reflexivity.
  - rewrite deleteBootcamp_run, Hfind. reflexivity.
  - rewrite bootcampUploadPhoto_run, Hfind. reflexivity.
Qed.

(** X13.  After a delete that was answered, the entity is gone for the
    other handlers: with a look-up that finds a document by its identifier,
    a get and a second delete of the same identifier are passed on with 404,
    and a get of any other identifier gives what it gave before. *)
Theorem deleteBootcamp_then_lookup req w status body w' :
  (forall i docs, findById i docs = inl (List.find (by_id i) docs)) ->
  deleteBootcamp findById req w = (Responded status body, w') ->
  fst (getBootcamp findById req w') = Passed (not_found (id (params req)))
  /\ fst (deleteBootcamp findById req w') = Forwarded (not_found (id (params req)))
  /\ store (snd (deleteBootcamp findById req w')) = store w'
  /\ forall other,
       id (params other) <> id (params req) ->
       fst (getBootcamp findById other w') = fst (getBootcamp findById other w).
Proof.
  intros Hby Hrun. rewrite deleteBootcamp_run, Hby in Hrun.
  destruct (List.find (by_id (id (params req))) (store w)) as [b|] eqn:Hfind;
    [|discriminate].
  injection Hrun as _ _ <-.
  assert (Hb : _id b = id (params req)).
  { apply find_some in Hfind as [_ Hb]. now apply String.eqb_eq in Hb. }
  rewrite deleteBootcamp_run, !getBootcamp_run. cbn [fst snd store].
  rewrite Hby, (find_by_id_removed _ _ _ Hfind). cbn [fst snd store].
  repeat split. intros other Hother.
  rewrite !getBootcamp_run. cbn [fst store].
  now rewrite !Hby, Hb, find_by_id_kept by congruence.
Qed.

(** ** Creating and updating *)

(** X14.  [createBootcamp] answers with status 201 and nothing else: the
    data of the answer is the entity the data layer created from the body,
    and the collection is the one the data layer left.  It passes no error
    of its own to [next]; when the data layer rejects the body the
    rejection is thrown on and the collection is as it was. *)
Theorem createBootcamp_outcome req w :
  (forall status bd w',
     createBootcamp create req w = (Answered status bd, w') ->
     status = 201%Z
     /\ create (body req) (store w) = inl (entity_data bd, store w')
     /\ entity_msg bd = "Created new bootcamp."%string)
  /\ (forall err, fst (createBootcamp create req w) <> Passed err)
  /\ (forall e,
        fst (createBootcamp create req w) = Thrown e <->
        create (body req) (store w) = inr e)
  /\ (forall e, fst (createBootcamp create req w) = Thrown e ->
        snd (createBootcamp create req w) = w).
Proof.
  unfold createBootcamp, asyncHandler_entity, createBootcamp_fn, settle, bind, get_store,
    put_store, ret, throw.
  destruct (create (body req) (store w)) as [[d docs]|e]; cbn [fst snd store calls].
  - split; [|split; [|split]].
    + intros status bd w' [= <- <- <-]. cbn [entity_data entity_msg store]. repeat split.
    + discriminate.
    + intros e. split; discriminate.
    + discriminate.
  - split; [|split; [|split]].
    + discriminate.
    + discriminate.
    + intros e'. split; intros [= <-]; reflexivity.
    + reflexivity.
Qed.

(** X15.  [updateBootcamp] does not look the entity up first: it makes one
    call, [findByIdAndUpdate] with the identifier and the body of the
    request as they came.  An answer has status 200 and carries the entity
    the data layer gave back; a rejection (of the validators, say) is thrown
    on, with the collection as it was. *)
Theorem updateBootcamp_outcome req w :
  calls (snd (updateBootcamp findByIdAndUpdate req w))
  = calls w ++ [Call_findByIdAndUpdate (id (params (head_of req))) (body req)]
  /\ (forall status bd w',
        updateBootcamp findByIdAndUpdate req w = (Answered status bd, w') ->
        status = 200%Z
        /\ findByIdAndUpdate (id (params (head_of req))) (body req) (store w)
           = inl (Some (entity_data bd), store w')
        /\ entity_msg bd = ("Updated bootcamp. ID: " ++ id (params (head_of req)))%string)
  /\ (forall e,
        fst (updateBootcamp findByIdAndUpdate req w) = Thrown e <->
        findByIdAndUpdate (id (params (head_of req))) (body req) (store w) = inr e)
  /\ (forall e, fst (updateBootcamp findByIdAndUpdate req w) = Thrown e ->
        store (snd (updateBootcamp findByIdAndUpdate req w)) = store w).
Proof.
  unfold updateBootcamp, asyncHandler_entity, updateBootcamp_fn, settle, bind, log,
    get_store, put_store, ret, throw.
  cbn [store calls].
  destruct (findByIdAndUpdate _ _ _) as [[[d|] docs]|e]; cbn [fst snd store calls].
  - split; [reflexivity|]. split; [|split].
    + intros status bd w' [= <- <- <-]. cbn [entity_data entity_msg store]. repeat split.
    + intros e. split; discriminate.
    + discriminate.
  - split; [reflexivity|]. split; [|split].
    + discriminate.
    + intros e. split; discriminate.
    + discriminate.
  - split; [reflexivity|]. split; [|split].
    + discriminate.
    + intros e'. split; intros [= <-]; reflexivity.
    + reflexivity.
Qed.

(** ** The radius handler *)

(** X16.  The radius handler only reads, and answers a plain list: whatever
    the request, the collection is as it was and the handler passes no
    error of its own to [next]; an answer has status 200, its count is the
    number of documents in its data, and it has no message and no
    pagination. *)
Theorem getBootcampsByDistance_answer req w :
  store (snd (getBootcampsByDistance exec geocode StringToNumber req w)) = store w
  /\ (forall err, fst (getBootcampsByDistance exec geocode StringToNumber req w) <> Forwarded err)
  /\ (forall status body,
        fst (getBootcampsByDistance exec geocode StringToNumber req w) = Responded status body ->
        status = 200%Z
        /\ success body = true
        /\ msg body = None
        /\ pagination body = None
        /\ exists docs, data body = Data_documents docs /\ count body = Some (List.length docs)).
Proof.
  destruct (geocode (zipcode (params req))) as [[|first others]|e] eqn:Hgeo.
  - unfold getBootcampsByDistance, asyncHandler, getBootcampsByDistance_fn,
      geocoder_geocode, settle, bind, log, ret, throw. cbn [store calls]. rewrite Hgeo.
    cbn [fst snd store]. repeat split; discriminate.
  - destruct (getBootcampsByDistance_located exec geocode StringToNumber req w first others
                Hgeo) as (q & _ & ->).
    cbn [fst snd store]. split; [reflexivity|].
    destruct (exec q (store w)) as [docs|e].
    + split; [discriminate|]. intros status body [= <- <-].
      cbn [success msg pagination data count]. repeat split. eauto.
    + split; discriminate.
  - unfold getBootcampsByDistance, asyncHandler, getBootcampsByDistance_fn,
      geocoder_geocode, settle, bind, log, throw. cbn [store calls]. rewrite Hgeo.
    cbn [fst snd store]. repeat split; discriminate.
Qed.

(** X17.  The distance is not checked: when it is not a number, the
    handler still queries, with radius [NaN]. *)
Theorem getBootcampsByDistance_distance_not_a_number req w first others :
  geocode (zipcode (params req)) = inl (first :: others) ->
  StringToNumber (distance (params req)) = nan ->
  exists q,
    calls (snd (getBootcampsByDistance exec geocode StringToNumber req w))
    = calls w ++ [Call_geocode (zipcode (params req));
                  Call_find (centerSphere (longitude first) (latitude first) nan);
                  Call_exec q].
Proof.
  intros Hgeo Hnan.
  destruct (getBootcampsByDistance_located exec geocode StringToNumber req w first others
              Hgeo) as (q & Hq & ->).
  exists q. cbn [snd calls]. rewrite Hq, Hnan. reflexivity.
Qed.

(** X18.  When the geocoder rejects, the radius handler answers nothing and
    the rejection goes to the error handling as it is; [find] was not
    called. *)
Theorem getBootcampsByDistance_geocoder_rejects req w e :
  geocode (zipcode (params req)) = inr e ->
  getBootcampsByDistance exec geocode StringToNumber req w
  = (Rejected e,
     {| store := store w; calls := calls w ++ [Call_geocode (zipcode (params req))] |}).
Proof.
  intros Hgeo. unfold getBootcampsByDistance, asyncHandler, getBootcampsByDistance_fn,
    geocoder_geocode, settle, bind, log, throw. cbn [store calls]. rewrite Hgeo. reflexivity.
Qed.

(** X19.  When the database rejects the query of the radius handler, the
    handler answers nothing and the rejection goes to the error handling as
    it is, after the calls of the geocoder and of [find]; the collection is
    as it was. *)
Theorem getBootcampsByDistance_database_rejects req w first others e :
  geocode (zipcode (params req)) = inl (first :: others) ->
  let q := {| conditions := centerSphere (longitude first) (latitude first)
                              (StringToNumber (distance (params req)) / 6378)%float;
              populated := []; selected := None; sorted := None;
              skipped := None; limited := None |} in
  exec q (store w) = inr e ->
  getBootcampsByDistance exec geocode StringToNumber req w
  = (Rejected e,
     {| store := store w;
        calls := calls w ++ [Call_geocode (zipcode (params req));
                             Call_find (conditions q); Call_exec q] |}).
Proof.
  intros Hgeo q Hexec.
  unfold getBootcampsByDistance, asyncHandler, getBootcampsByDistance_fn,
    geocoder_geocode, Bootcamp_find, Query_exec, settle, bind, log, get_store, ret, throw.
  cbn [store calls]. rewrite Hgeo. cbn [store calls]. fold q. rewrite Hexec.
  cbn [store calls conditions]. rewrite <- !app_assoc. reflexivity.
Qed.

(** ** The photo handler *)

(** X20.  The photo handler calls [findByIdAndUpdate] only after a move
    that gave no error, with the identifier of the request and the name made
    for the file as [photo]; it never removes.  Whenever it passes an error
    to [next] or throws, the collection is as it was and
    [findByIdAndUpdate] was not called. *)
Theorem bootcampUploadPhoto_changes_only_on_success req w :
  exists made,
    calls (snd (upload req w)) = calls w ++ made
    /\ (forall i, ~ In (Call_remove i) made)
    /\ (forall i u,
          In (Call_findByIdAndUpdate i u) made ->
          exists b fs file,
            findById (id (params req)) (store w) = inl (Some b)
            /\ files req = Some fs
            /\ get "file" fs = Some (One_file file)
            /\ i = id (params req)
            /\ u = [("photo"%string, VStr (photo_name toLocaleDateString path_ext b file))]
            /\ In (Call_mv (template FILE_UPLOAD_PATH ++ "/"
                            ++ photo_name toLocaleDateString path_ext b file)%string) made
            /\ mv_error (template FILE_UPLOAD_PATH ++ "/"
                         ++ photo_name toLocaleDateString path_ext b file)%string = None)
    /\ ((exists err, fst (upload req w) = Forwarded err)
        \/ (exists e, fst (upload req w) = Rejected e) ->
        store (snd (upload req w)) = store w
        /\ forall i u, ~ In (Call_findByIdAndUpdate i u) made).
Proof.
  rewrite bootcampUploadPhoto_run. unfold looked_up.
  assert (Hone : forall o : outcome,
             let r := (o, {| store := store w;
                             calls := calls w ++ [Call_findById (id (params req))] |}) in
             exists made,
               calls (snd r) = calls w ++ made
               /\ (forall i, ~ In (Call_remove i) made)
               /\ (forall i u,
                     In (Call_findByIdAndUpdate i u) made ->
                     exists b fs file,
                       findById (id (params req)) (store w) = inl (Some b)
                       /\ files req = Some fs
                       /\ get "file" fs = Some (One_file file)
                       /\ i = id (params req)
                       /\ u = [("photo"%string,
                                VStr (photo_name toLocaleDateString path_ext b file))]
                       /\ In (Call_mv (template FILE_UPLOAD_PATH ++ "/"
                                       ++ photo_name toLocaleDateString path_ext b file)%string)
                            made
                       /\ mv_error (template FILE_UPLOAD_PATH ++ "/"
                                    ++ photo_name toLocaleDateString path_ext b file)%string
                          = None)
               /\ ((exists err, fst r = Forwarded err) \/ (exists e, fst r = Rejected e) ->
                   store (snd r) = store w
                   /\ forall i u, ~ In (Call_findByIdAndUpdate i u) made)).
  { intros o r. exists [Call_findById (id (params req))]. cbn [fst snd store calls r].
    split; [reflexivity|].
    split; [intros i [H|[]]; discriminate|].
    split; [intros i u [H|[]]; discriminate|].
    intros _. split; [reflexivity|]. intros i u [H|[]]; discriminate. }
  destruct (findById (id (params req)) (store w)) as [[b|]|e] eqn:Hfind; try apply Hone.
  destruct (files req) as [fs|] eqn:Hfiles; try apply Hone.
  destruct (get "file" fs) as [[file|?]|] eqn:Hfile; try apply Hone.
  destruct (negb (startsWith (mimetype file) "image")); try apply Hone.
  destruct (max_size <? size file)%float; try apply Hone.
  cbv zeta. destruct (mv_error _) eqn:Hmv; eexists; cbn [fst snd store calls];
    (split; [reflexivity|]).
  - split; [intros i [H|[H|[H|[]]]]; discriminate|].
    split; [intros i u [H|[H|[H|[]]]]; discriminate|].
    intros _. split; [reflexivity|]. intros i u [H|[H|[H|[]]]]; discriminate.
  - split; [intros i [H|[H|[H|[]]]]; discriminate|].
    split.
    + intros i u [H|[H|[H|[]]]]; try discriminate. injection H as <- <-.
      exists b, fs, file. split; [reflexivity|]. split; [reflexivity|].
      split; [exact Hfile|]. split; [reflexivity|]. split; [reflexivity|].
      split; [right; left; reflexivity | exact Hmv].
    + intros [[err H] | [e H]]; discriminate.
Qed.

(** X21.  [file.mv] is called only for a file that passed every check: if
    the handler moved a file to a destination, then the entity was found, one
    file came under the field [file], its MIME type starts with [image], it
    is not above the limit, and the destination is the upload path, [/] and
    the name made for the file. *)
Theorem bootcampUploadPhoto_mv_after_checks req w destination :
  In (Call_mv destination) (calls (snd (upload req w))) ->
  ~ In (Call_mv destination) (calls w) ->
  exists b fs file,
    findById (id (params req)) (store w) = inl (Some b)
    /\ files req = Some fs
    /\ get "file" fs = Some (One_file file)
    /\ startsWith (mimetype file) "image" = true
    /\ (max_size <? size file)%float = false
    /\ destination
       = (template FILE_UPLOAD_PATH ++ "/"
          ++ photo_name toLocaleDateString path_ext b file)%string.
Proof.
  rewrite bootcampUploadPhoto_run. unfold looked_up. intros Hin Hnew.
  assert (Hno : forall o,
             ~ In (Call_mv destination)
                 (calls (snd (o : outcome,
                              {| store := store w;
                                 calls := calls w ++ [Call_findById (id (params req))] |})))).
  { intros o H. cbn [snd calls] in H. apply in_app_or in H as [H|[H|[]]];
      [contradiction | discriminate]. }
  destruct (findById (id (params req)) (store w)) as [[b|]|e] eqn:Hfind;
    try (now apply Hno in Hin).
  destruct (files req) as [fs|] eqn:Hfiles; try (now apply Hno in Hin).
  destruct (get "file" fs) as [[file|?]|] eqn:Hfile; try (now apply Hno in Hin).
  destruct (startsWith (mimetype file) "image") eqn:Hmime; cbn [negb] in Hin;
    try (now apply Hno in Hin).
  destruct (max_size <? size file)%float eqn:Hsize; try (now apply Hno in Hin).
  exists b, fs, file. do 5 (split; [first [reflexivity | assumption]|]). cbv zeta in Hin.
  destruct (mv_error _); cbn [snd calls] in Hin;
    apply in_app_or in Hin as [Hin|[Hin|[Hin|[Hin|[]]]]];
    try contradiction; try discriminate; congruence.
Qed.

(** X22.  The size check refuses a file only when it is above the limit: a
    file of exactly the limit passes, and so does every file when the limit
    is unset or is not a number ([NaN] compares false).  The handler goes on
    to move the file. *)
Theorem bootcampUploadPhoto_size_check_passes req w b fs file :
  findById (id (params req)) (store w) = inl (Some b) ->
  files req = Some fs ->
  get "file" fs = Some (One_file file) ->
  startsWith (mimetype file) "image" = true ->
  size file = max_size \/ FILE_MAX_UPLOAD_LIMIT = None \/ max_size = nan ->
  exists rest,
    calls (snd (upload req w))
    = calls w ++ Call_findById (id (params req))
                 :: Call_mv (template FILE_UPLOAD_PATH ++ "/"
                             ++ photo_name toLocaleDateString path_ext b file)%string
                 :: rest.
Proof.
  intros Hfind Hfiles Hfile Hmime Hsize.
  assert (Hpass : (max_size <? size file)%float = false).
  { destruct Hsize as [-> | [-> | ->]];
      [apply ltb_irrefl | apply nan_ltb | apply nan_ltb]. }
  rewrite (bootcampUploadPhoto_accepted findById mv_error toLocaleDateString path_ext
             StringToNumber NumberToString FILE_MAX_UPLOAD_LIMIT FILE_UPLOAD_PATH
             req w b fs file Hfind Hfiles Hfile Hmime Hpass).
  cbv zeta. destruct (mv_error _); cbn [snd calls]; eexists; reflexivity.
Qed.

(** X23.  An image above the limit is refused with status 400 and a
    message that gives the limit in millions of bytes; the file is not
    moved and the collection is as it was. *)
Theorem bootcampUploadPhoto_too_large req w b fs file :
  findById (id (params req)) (store w) = inl (Some b) ->
  files req = Some fs ->
  get "file" fs = Some (One_file file) ->
  startsWith (mimetype file) "image" = true ->
  (max_size <? size file)%float = true ->
  upload req w
  = (Forwarded {| message := ("Please upload an image less than "
                              ++ NumberToString (max_size / 1000000)%float ++ "mb.")%string;
                  statusCode := 400 |},
     looked_up req w).
Proof.
  intros Hfind Hfiles Hfile Hmime Hsize.
  rewrite bootcampUploadPhoto_run, Hfind, Hfiles, Hfile, Hmime, Hsize. reflexivity.
Qed.

(** X24.  What the handler reads is [req.files.file] and nothing else.  A
    request with no files at all is refused with status 400; but files that
    came under another field name, or several files under [file], make the
    handler throw a [TypeError] at the MIME check: nothing is answered by
    the handler, no file is moved and the collection is as it was. *)
Theorem bootcampUploadPhoto_no_single_file req w b :
  findById (id (params req)) (store w) = inl (Some b) ->
  (files req = None ->
   upload req w
   = (Forwarded {| message := "Please upload a file."; statusCode := 400 |},
      looked_up req w))
  /\ (forall fs,
        files req = Some fs ->
        (forall file, get "file" fs <> Some (One_file file)) ->
        exists what, upload req w = (Rejected (TypeError what), looked_up req w)).
Proof.
  intros Hfind. rewrite bootcampUploadPhoto_run, Hfind. split.
  - intros ->. reflexivity.
  - intros fs -> Hnone. destruct (get "file" fs) as [[file|?]|].
    + now destruct (Hnone file).
    + eexists; reflexivity.
    + eexists; reflexivity.
Qed.

(** X25.  When the move fails the handler logs the error of [file.mv] and
    passes an error of status 500 to [next]; the entity is not updated. *)
Theorem bootcampUploadPhoto_move_fails req w b fs file e :
  findById (id (params req)) (store w) = inl (Some b) ->
  files req = Some fs ->
  get "file" fs = Some (One_file file) ->
  startsWith (mimetype file) "image" = true ->
  (max_size <? size file)%float = false ->
  let destination :=
    (template FILE_UPLOAD_PATH ++ "/" ++ photo_name toLocaleDateString path_ext b file)%string in
  mv_error destination = Some e ->
  upload req w
  = (Forwarded {| message := "Problem with file upload. Try again later."; statusCode := 500 |},
     {| store := store w;
        calls := calls w ++ [Call_findById (id (params req)); Call_mv destination;
                             Call_console_log e] |}).
Proof.
  intros Hfind Hfiles Hfile Hmime Hsize destination Hmv.
  rewrite (bootcampUploadPhoto_accepted findById mv_error toLocaleDateString path_ext
             StringToNumber NumberToString FILE_MAX_UPLOAD_LIMIT FILE_UPLOAD_PATH
             req w b fs file Hfind Hfiles Hfile Hmime Hsize).
  cbv zeta. fold destination. now rewrite Hmv.
Qed.

(** X26.  After an upload that was answered, a get of the entity shows the
    new photo: with a look-up that finds a document by its identifier, the
    get is answered with the entity whose [photo] is the name in the answer
    of the upload, every other field being as the look-up before the upload
    gave it. *)
Theorem bootcampUploadPhoto_then_get req w status body w' :
  (forall i docs, findById i docs = inl (List.find (by_id i) docs)) ->
  upload req w = (Responded status body, w') ->
  exists before after file_name,
    findById (id (params req)) (store w) = inl (Some before)
    /\ data body = Data_string file_name
    /\ fst (getBootcamp findById req w')
       = Answered 200 {| entity_success := true;
                         entity_msg := ("Get a bootcamp. ID: " ++ id (params req))%string;
                         entity_data := after |}
    /\ _id after = _id before
    /\ get "photo" (fields after) = Some (VStr file_name)
    /\ forall k, k <> "photo"%string -> get k (fields after) = get k (fields before).
Proof.
  intros Hby. rewrite bootcampUploadPhoto_run, Hby. unfold looked_up.
  destruct (List.find (by_id (id (params req))) (store w)) as [b|] eqn:Hfind; [|discriminate].
  destruct (files req) as [fs|]; [|discriminate].
  destruct (get "file" fs) as [[file|?]|]; try discriminate.
  destruct (negb (startsWith (mimetype file) "image")); [discriminate|].
  destruct (max_size <? size file)%float; [discriminate|].
  cbv zeta. destruct (mv_error _); [discriminate|].
  intros [= <- <- <-].
  exists b, (apply_update [("photo"%string, VStr (photo_name toLocaleDateString path_ext b file))] b),
    (photo_name toLocaleDateString path_ext b file).
  split; [reflexivity|]. split; [reflexivity|].
  split.
  - unfold getBootcamp, asyncHandler_entity, getBootcamp_fn, Bootcamp_findById, settle,
      bind, log, get_store, ret. cbn [store calls].
    rewrite Hby, find_by_id_updated, Hfind. reflexivity.
  - cbn [apply_update fold_left fst snd _id fields]. split; [reflexivity|].
    split; [apply get_set_field_same|]. intros k Hk. now apply get_set_field_other.
Qed.

End Handlers.

(** *** Instances *)

Lemma not_found_everywhere_witness :
  let req := Sample.id_request "5d725a1b7b292f5f8ceff788" in
  let err := {| message := "Bootcamp not found with id of 5d725a1b7b292f5f8ceff788"%string;
                statusCode := 404 |} in
  fst (getBootcamp Sample.find_by_id req Sample.world0) = Passed err
  /\ fst (deleteBootcamp Sample.find_by_id req Sample.world0) = Forwarded err
  /\ fst (bootcampUploadPhoto Sample.find_by_id Sample.mv_ok "02.11.2026." Sample.ext_of
            Sample.to_number Sample.number_text (Some "1000000"%string)
            (Some "./public/uploads"%string) req Sample.world0) = Forwarded err
  /\ fst (updateBootcamp MoreSamples.update_nothing
            {| head_of := req; body := [("name"%string, VStr "Devworks")] |} Sample.world0)
     = Passed err.
Proof.
  intros req err.
  destruct (not_found_everywhere Sample.find_by_id MoreSamples.update_nothing Sample.mv_ok
              "02.11.2026." Sample.ext_of Sample.to_number Sample.number_text
              (Some "1000000"%string) (Some "./public/uploads"%string)
              req Sample.world0 [("name"%string, VStr "Devworks")] (store Sample.world0)
              eq_refl eq_refl) as (Hget & Hdel & Hup & Hput).
  rewrite Hget, Hdel, Hup, Hput. repeat split.
Defined.

Lemma lookup_rejection_forwarded_witness :
  let req := Sample.id_request "1" in
  let e := Rejection "Cast to ObjectId failed for value 1" in
  fst (getBootcamp MoreSamples.find_rejects req Sample.world0) = Thrown e
  /\ fst (deleteBootcamp MoreSamples.find_rejects req Sample.world0) = Rejected e
  /\ fst (bootcampUploadPhoto MoreSamples.find_rejects Sample.mv_ok "02.11.2026." Sample.ext_of
            Sample.to_number Sample.number_text (Some "1000000"%string)
            (Some "./public/uploads"%string) req Sample.world0) = Rejected e.
Proof.
  intros req e.
  destruct (lookup_rejection_forwarded MoreSamples.find_rejects Sample.mv_ok
              "02.11.2026." Sample.ext_of Sample.to_number Sample.number_text
              (Some "1000000"%string) (Some "./public/uploads"%string)
              req Sample.world0 e eq_refl) as (Hget & Hdel & Hup).
  rewrite Hget, Hdel, Hup. repeat split.
Defined.

Lemma deleteBootcamp_then_lookup_witness :
  exists w',
    snd (deleteBootcamp Sample.find_by_id (Sample.id_request "5d713995b721c3bb38c1f5d0")
           Sample.world0) = w'
    /\ fst (getBootcamp Sample.find_by_id (Sample.id_request "5d713995b721c3bb38c1f5d0") w')
       = Passed {| message := "Bootcamp not found with id of 5d713995b721c3bb38c1f5d0"%string;
                   statusCode := 404 |}.
Proof.
  eexists. split; [reflexivity|].
  exact (proj1 (deleteBootcamp_then_lookup Sample.find_by_id
                  (Sample.id_request "5d713995b721c3bb38c1f5d0") Sample.world0 _ _ _
                  (fun _ _ => eq_refl) eq_refl)).
Defined.

Lemma getBootcampsByDistance_distance_not_a_number_witness :
  exists q,
    calls (snd (getBootcampsByDistance Sample.exec_all Sample.geocode_la Sample.to_number
                  (Sample.radius_request "90001" "ten") Sample.world0))
    = [Call_geocode "90001";
       Call_find (centerSphere (-118.2)%float 34.0%float nan);
       Call_exec q].
Proof.
  exact (getBootcampsByDistance_distance_not_a_number Sample.exec_all Sample.geocode_la
           Sample.to_number (Sample.radius_request "90001" "ten") Sample.world0 _ _
           eq_refl eq_refl).
Defined.

Lemma getBootcampsByDistance_geocoder_rejects_witness :
  getBootcampsByDistance Sample.exec_all MoreSamples.geocode_down Sample.to_number
    (Sample.radius_request "90001" "10") Sample.world0
  = (Rejected (Rejection "geocoder request failed"),
     {| store := store Sample.world0; calls := [Call_geocode "90001"] |}).
Proof.
  exact (getBootcampsByDistance_geocoder_rejects Sample.exec_all MoreSamples.geocode_down
           Sample.to_number (Sample.radius_request "90001" "10") Sample.world0 _ eq_refl).
Defined.

Lemma getBootcampsByDistance_database_rejects_witness :
  fst (getBootcampsByDistance MoreSamples.exec_down Sample.geocode_la Sample.to_number
         (Sample.radius_request "90001" "10") Sample.world0)
  = Rejected (Rejection "connection refused").
Proof.
  exact (f_equal fst
           (getBootcampsByDistance_database_rejects MoreSamples.exec_down Sample.geocode_la
              Sample.to_number (Sample.radius_request "90001" "10") Sample.world0 _ _ _
              eq_refl eq_refl)).
Defined.

Lemma bootcampUploadPhoto_mv_after_checks_witness :
  exists b fs file,
    Sample.find_by_id "5d713995b721c3bb38c1f5d0" (store Sample.world0) = inl (Some b)
    /\ files (Sample.upload_request "5d713995b721c3bb38c1f5d0" Sample.jpeg) = Some fs
    /\ get "file" fs = Some (One_file file)
    /\ startsWith (mimetype file) "image" = true.
Proof.
  destruct (bootcampUploadPhoto_mv_after_checks Sample.find_by_id Sample.mv_ok "02.11.2026."
              Sample.ext_of Sample.to_number Sample.number_text (Some "1000000"%string)
              (Some "./public/uploads"%string)
              (Sample.upload_request "5d713995b721c3bb38c1f5d0" Sample.jpeg) Sample.world0
              "./public/uploads/BOOTCAMP_5d713995b721c3bb38c1f5d0_02112026.jpg"
              (or_intror (or_introl eq_refl)) (fun H : False => H))
    as (b & fs & file & Hfind & Hfiles & Hfile & Hmime & _).
  exists b, fs, file. repeat split; assumption.
Defined.

Lemma bootcampUploadPhoto_size_check_passes_witness :
  MoreSamples.poster.(size) = 2000000%float
  /\ exists rest,
       calls (snd (bootcampUploadPhoto Sample.find_by_id Sample.mv_ok "02.11.2026."
                     Sample.ext_of Sample.to_number Sample.number_text None
                     (Some "./public/uploads"%string)
                     (Sample.upload_request "5d713995b721c3bb38c1f5d0" MoreSamples.poster)
                     Sample.world0))
       = Call_findById "5d713995b721c3bb38c1f5d0"
         :: Call_mv "./public/uploads/BOOTCAMP_5d713995b721c3bb38c1f5d0_02112026" :: rest.
Proof.
  split; [reflexivity|].
  exact (bootcampUploadPhoto_size_check_passes Sample.find_by_id Sample.mv_ok "02.11.2026."
           Sample.ext_of Sample.to_number Sample.number_text None
           (Some "./public/uploads"%string)
           (Sample.upload_request "5d713995b721c3bb38c1f5d0" MoreSamples.poster)
           Sample.world0 _ _ _ eq_refl eq_refl eq_refl eq_refl
           (or_intror (or_introl eq_refl))).
Defined.

Lemma bootcampUploadPhoto_too_large_witness :
  bootcampUploadPhoto Sample.find_by_id Sample.mv_ok "02.11.2026." Sample.ext_of
    Sample.to_number Sample.number_text (Some "1000000"%string)
    (Some "./public/uploads"%string)
    (Sample.upload_request "5d713995b721c3bb38c1f5d0" MoreSamples.poster) Sample.world0
  = (Forwarded {| message := "Please upload an image less than 1mb."; statusCode := 400 |},
     {| store := store Sample.world0;
        calls := [Call_findById "5d713995b721c3bb38c1f5d0"] |}).
Proof.
  exact (bootcampUploadPhoto_too_large Sample.find_by_id Sample.mv_ok "02.11.2026."
           Sample.ext_of Sample.to_number Sample.number_text (Some "1000000"%string)
           (Some "./public/uploads"%string)
           (Sample.upload_request "5d713995b721c3bb38c1f5d0" MoreSamples.poster)
           Sample.world0 _ _ _ eq_refl eq_refl eq_refl eq_refl eq_refl).
Defined.

Lemma bootcampUploadPhoto_no_single_file_witness :
  exists what,
    bootcampUploadPhoto Sample.find_by_id Sample.mv_ok "02.11.2026." Sample.ext_of
      Sample.to_number Sample.number_text (Some "1000000"%string)
      (Some "./public/uploads"%string)
      (MoreSamples.other_field "5d713995b721c3bb38c1f5d0" Sample.jpeg) Sample.world0
    = (Rejected (TypeError what),
       {| store := store Sample.world0;
          calls := [Call_findById "5d713995b721c3bb38c1f5d0"] |}).
Proof.
  refine (proj2 (bootcampUploadPhoto_no_single_file Sample.find_by_id Sample.mv_ok
                   "02.11.2026." Sample.ext_of Sample.to_number Sample.number_text
                   (Some "1000000"%string) (Some "./public/uploads"%string)
                   (MoreSamples.other_field "5d713995b721c3bb38c1f5d0" Sample.jpeg)
                   Sample.world0 _ eq_refl) _ eq_refl _).
  intros file H. discriminate H.
Defined.

Lemma bootcampUploadPhoto_move_fails_witness :
  bootcampUploadPhoto Sample.find_by_id MoreSamples.mv_full "02.11.2026." Sample.ext_of
    Sample.to_number Sample.number_text (Some "1000000"%string)
    (Some "./public/uploads"%string)
    (Sample.upload_request "5d713995b721c3bb38c1f5d0" Sample.jpeg) Sample.world0
  = (Forwarded {| message := "Problem with file upload. Try again later."; statusCode := 500 |},
     {| store := store Sample.world0;
        calls := [Call_findById "5d713995b721c3bb38c1f5d0";
                  Call_mv "./public/uploads/BOOTCAMP_5d713995b721c3bb38c1f5d0_02112026.jpg";
                  Call_console_log "ENOSPC"] |}).
Proof.
  exact (bootcampUploadPhoto_move_fails Sample.find_by_id MoreSamples.mv_full "02.11.2026."
           Sample.ext_of Sample.to_number Sample.number_text (Some "1000000"%string)
           (Some "./public/uploads"%string)
           (Sample.upload_request "5d713995b721c3bb38c1f5d0" Sample.jpeg) Sample.world0
           _ _ _ _ eq_refl eq_refl eq_refl eq_refl eq_refl eq_refl).
Defined.

Lemma bootcampUploadPhoto_then_get_witness :
  exists w' after,
    snd (bootcampUploadPhoto Sample.find_by_id Sample.mv_ok "02.11.2026." Sample.ext_of
           Sample.to_number Sample.number_text (Some "1000000"%string)
           (Some "./public/uploads"%string)
           (Sample.upload_request "5d713995b721c3bb38c1f5d0" Sample.jpeg) Sample.world0) = w'
    /\ fst (getBootcamp Sample.find_by_id (Sample.id_request "5d713995b721c3bb38c1f5d0") w')
       = Answered 200 {| entity_success := true;
                         entity_msg := "Get a bootcamp. ID: 5d713995b721c3bb38c1f5d0";
                         entity_data := after |}
    /\ get "photo" (fields after)
       = Some (VStr "BOOTCAMP_5d713995b721c3bb38c1f5d0_02112026.jpg")
    /\ get "name" (fields after) = Some (VStr "Devworks Bootcamp").
Proof.
  destruct (bootcampUploadPhoto_then_get Sample.find_by_id Sample.mv_ok "02.11.2026."
              Sample.ext_of Sample.to_number Sample.number_text (Some "1000000"%string)
              (Some "./public/uploads"%string)
              (Sample.upload_request "5d713995b721c3bb38c1f5d0" Sample.jpeg) Sample.world0
              _ _ _ (fun _ _ => eq_refl) eq_refl)
    as (before & after & file_name & Hbefore & Hname & Hget & _ & Hphoto & Hother).
  injection Hbefore as <-. injection Hname as <-.
  eexists; exists after. split; [reflexivity|]. split; [exact Hget|].
  split; [exact Hphoto|]. rewrite Hother by discriminate. reflexivity.
Defined.

End MoreEntityFacts.
